(** * summarize_evaluations.py: file selection, merging and ranking

    A shallow embedding of [src/summarize_evaluations.py] and the properties
    of its filename parser, horizon filter, table merger/ranker and baseline
    comparator.

    Conventions of the embedding:
    - Python exceptions are values of [exn]; a computation that may raise is
      a [result]; [x ← m; k] sequences two of them.
    - [str] is [string] (one-byte characters); [datetime.date] is the record
      [date]; a Python [int] is a [Z].
    - a float read from a CSV file is a finite rational ([Qc]) or NaN; the
      arithmetic on them is exact. *)

From Stdlib Require Import ZArith QArith Qcanon Qcabs Ascii String List Lia.
From Stdlib Require Import Decimal DecimalString DecimalZ.
From stdpp Require Import base option list strings numbers sorting gmap.

Local Open Scope Z_scope.

(** ** Exceptions *)

Inductive exn : Set :=
| ValueError
| IndexError
| KeyError
| AssertionError.

Inductive result (A : Type) : Type :=
| Ok (a : A)
| Raise (e : exn).
Arguments Ok {A} a.
Arguments Raise {A} e.

#[export] Instance result_ret : MRet result := fun A a => Ok a.
#[export] Instance result_bind : MBind result := fun A B f m =>
  match m with
  | Ok a => f a
  | Raise e => Raise e
  end.

(** [try: body except ValueError: handler]. Any other exception of [body]
    propagates. *)
Definition try_except_ValueError {A} (body handler : result A) : result A :=
  match body with
  | Raise ValueError => handler
  | r => r
  end.

(** [assert b]. *)
Definition assert (b : bool) : result unit :=
  if b then Ok tt else Raise AssertionError.

Definition is_ok {A} (r : result A) : bool :=
  match r with Ok _ => true | Raise _ => false end.

(** ** The parts of [str], [os.path] and [datetime] the program uses *)

Module Py.

(** [s[n:]] *)
Fixpoint drop_str (n : nat) (s : string) : string :=
  match n, s with
  | O, _ => s
  | S k, EmptyString => EmptyString
  | S k, String _ s' => drop_str k s'
  end.

(** [s.rfind(c) + 1] for a one-character [c]: the position after the last
    occurrence, 0 when there is none. [i] is the position of the head of [s]
    and [acc] the answer so far. *)
Fixpoint rfind_succ (c : ascii) (s : string) (i acc : nat) : nat :=
  match s with
  | EmptyString => acc
  | String a s' => rfind_succ c s' (S i) (if Ascii.eqb a c then S i else acc)
  end.

(** [os.path.basename] of [posixpath]: [p[p.rfind('/')+1:]]. *)
Definition basename (p : string) : string :=
  drop_str (rfind_succ "/"%char p 0 0) p.

(** [s.replace(old, '')] for a non-empty [old]: the occurrences of [old]
    are removed from left to right, without overlap. [skip] counts the
    characters of the current occurrence still to be dropped. *)
Fixpoint remove_go (old : string) (skip : nat) (s : string) : string :=
  match s with
  | EmptyString => EmptyString
  | String c s' =>
      match skip with
      | S k => remove_go old k s'
      | O =>
          if String.prefix old s
          then remove_go old (Nat.pred (String.length old)) s'
          else String c (remove_go old 0 s')
      end
  end.

Definition remove_all (old s : string) : string := remove_go old 0 s.

(** [s.split(sep)] for a one-character [sep]; the result is never empty. *)
Fixpoint split (sep : ascii) (s : string) : list string :=
  match s with
  | EmptyString => [EmptyString]
  | String c s' =>
      if Ascii.eqb c sep then EmptyString :: split sep s'
      else match split sep s' with
           | h :: t => String c h :: t
           | [] => [String c EmptyString]
           end
  end.

(** [l[i]] *)
Definition getitem {A} (l : list A) (i : nat) : result A :=
  match l !! i with
  | Some x => Ok x
  | None => Raise IndexError
  end.

(** [pat in s] *)
Fixpoint contains (pat s : string) : bool :=
  String.prefix pat s ||
  match s with
  | EmptyString => false
  | String _ s' => contains pat s'
  end.

(** *** Calendar dates *)

Record date : Set := mkdate { year : Z; month : Z; day : Z }.

#[export] Instance date_eq_dec : EqDecision date.
Proof. solve_decision. Defined.

Definition is_leap (y : Z) : bool :=
  (y mod 4 =? 0) && (negb (y mod 100 =? 0) || (y mod 400 =? 0)).

Definition days_in_month (y m : Z) : Z :=
  if (m =? 2) && is_leap y then 29
  else nth (Z.to_nat m) [0; 31; 28; 31; 30; 31; 30; 31; 31; 30; 31; 30; 31] 0.

Definition days_before_year (y : Z) : Z :=
  let y' := y - 1 in y' * 365 + y' / 4 - y' / 100 + y' / 400.

Definition days_before_month (y m : Z) : Z :=
  nth (Z.to_nat m) [0; 0; 31; 59; 90; 120; 151; 181; 212; 243; 273; 304; 334] 0
  + (if (2 <? m) && is_leap y then 1 else 0).

(** [d.toordinal()] *)
Definition toordinal (d : date) : Z :=
  days_before_year (year d) + days_before_month (year d) (month d) + day d.

(** [(e - p).days] *)
Definition days_between (e p : date) : Z := toordinal e - toordinal p.

(** [date(y, m, d)]: [MINYEAR = 1], [MAXYEAR = 9999]. *)
Definition valid_ymd (y m d : Z) : bool :=
  (1 <=? y) && (y <=? 9999) && (1 <=? m) && (m <=? 12) &&
  (1 <=? d) && (d <=? days_in_month y m).

Definition make_date (y m d : Z) : result date :=
  if valid_ymd y m d then Ok (mkdate y m d) else Raise ValueError.

(** [a < b] on dates compares [(year, month, day)]. *)
Definition date_ltb (a b : date) : bool :=
  (year a <? year b) ||
  ((year a =? year b) &&
   ((month a <? month b) || ((month a =? month b) && (day a <? day b)))).

Definition date_lt (a b : date) : Prop :=
  year a < year b \/
  (year a = year b /\ (month a < month b \/ (month a = month b /\ day a < day b))).

(** *** [strptime] with the format [%Y-%m-%d] *)

Definition code (c : ascii) : Z := Z.of_nat (nat_of_ascii c).

Definition in_range (lo hi c : ascii) : bool :=
  (code lo <=? code c) && (code c <=? code hi).

Definition is_digit (c : ascii) : bool := in_range "0" "9" c.

Definition digit_val (c : ascii) : Z := code c - 48.

(** [%m] is the regular expression [1[0-2]|0[1-9]|[1-9]]: the value and the
    rest of the input. *)
Definition match_month (s : string) : option (Z * string) :=
  match s with
  | EmptyString => None
  | String a r =>
      let two :=
        match r with
        | String b r' =>
            if Ascii.eqb a "1" && in_range "0" "2" b then Some (10 + digit_val b, r')
            else if Ascii.eqb a "0" && in_range "1" "9" b then Some (digit_val b, r')
            else None
        | EmptyString => None
        end in
      match two with
      | Some x => Some x
      | None => if in_range "1" "9" a then Some (digit_val a, r) else None
      end
  end.

(** [%d] is [3[01]|[12]\d|0[1-9]|[1-9]| [1-9]]. *)
Definition match_day (s : string) : option (Z * string) :=
  match s with
  | EmptyString => None
  | String a r =>
      let two :=
        match r with
        | String b r' =>
            if Ascii.eqb a "3" && in_range "0" "1" b then Some (30 + digit_val b, r')
            else if in_range "1" "2" a && is_digit b then Some (10 * digit_val a + digit_val b, r')
            else if Ascii.eqb a "0" && in_range "1" "9" b then Some (digit_val b, r')
            else None
        | EmptyString => None
        end in
      match two with
      | Some x => Some x
      | None =>
          if in_range "1" "9" a then Some (digit_val a, r)
          else match r with
               | String b r' =>
                   if Ascii.eqb a " " && in_range "1" "9" b then Some (digit_val b, r') else None
               | EmptyString => None
               end
      end
  end.

(** [%Y] is four digits. *)
Definition match_year (s : string) : option (Z * string) :=
  match s with
  | String a (String b (String c (String d r))) =>
      if is_digit a && is_digit b && is_digit c && is_digit d
      then Some (1000 * digit_val a + 100 * digit_val b + 10 * digit_val c + digit_val d, r)
      else None
  | _ => None
  end.

Definition match_dash (s : string) : option string :=
  match s with
  | String c r => if Ascii.eqb c "-" then Some r else None
  | EmptyString => None
  end.

(** The fields of a string that matches the format up to its end. *)
Definition match_ymd (s : string) : option (Z * Z * Z) :=
  '(y, s1) ← match_year s;
  s2 ← match_dash s1;
  '(m, s3) ← match_month s2;
  s4 ← match_dash s3;
  '(d, s5) ← match_day s4;
  match s5 with
  | EmptyString => Some (y, m, d)
  | String _ _ => None
  end.

(** [datetime.datetime.strptime(s, '%Y-%m-%d').date()]: [ValueError] when
    the string does not match, when data remain after the match, or when
    the fields are no calendar date. *)
Definition strptime_date (s : string) : result date :=
  match match_ymd s with
  | Some (y, m, d) => make_date y m d
  | None => Raise ValueError
  end.

(** [str(d)], that is [d.isoformat()]: ['%04d-%02d-%02d']. *)
Definition digit_char (n : Z) : ascii := ascii_of_nat (48 + Z.to_nat (n mod 10)).

Definition pad2 (n : Z) : string :=
  String (digit_char (n / 10)) (String (digit_char n) EmptyString).

Definition pad4 (n : Z) : string :=
  String (digit_char (n / 1000)) (String (digit_char (n / 100)) (pad2 n)).

Definition isoformat (d : date) : string :=
  pad4 (year d) +:+ "-" +:+ pad2 (month d) +:+ "-" +:+ pad2 (day d).

End Py.

Import Py.

(** ** Filename Parser and Horizon Filter *)

(** [str_to_date], with the default format. *)
Definition str_to_date (date_str : string) : result date :=
  strptime_date date_str.

(** The tokens of a file name: the base name without [.csv], split on [_]. *)
Definition tokens (fname : string) : list string :=
  split "_"%char (remove_all ".csv" (basename fname)).

(** [get_dates_from_fname]: the projection and the evaluation date. *)
Definition get_dates_from_fname (fname : string) : result (date * date) :=
  let basename := remove_all ".csv" (basename fname) in
  '(proj_date, eval_date) ←
    try_except_ValueError
      (proj_date ← getitem (split "_"%char basename) 0 ≫= str_to_date;
       eval_date ← getitem (split "_"%char basename) 1 ≫= str_to_date;
       Ok (proj_date, eval_date))
      (proj_date ← getitem (split "_"%char basename) 1 ≫= str_to_date;
       eval_date ← getitem (split "_"%char basename) 2 ≫= str_to_date;
       Ok (proj_date, eval_date));
  _ ← assert (date_ltb proj_date eval_date);
  Ok (proj_date, eval_date).

Definition max_days_tolerance : Z := 3.

(** The test of the loop body of [filter_fnames_by_weeks_ahead]. *)
Definition within_tolerance (proj_date eval_date : date) (weeks_ahead : Z) : bool :=
  let days_ahead := days_between eval_date proj_date in
  Z.abs (days_ahead - 7 * weeks_ahead) <=? max_days_tolerance.

(** [filter_fnames_by_weeks_ahead]: the loop appends to [include_fnames];
    an exception of the parser leaves the loop and the function. *)
Definition filter_step (weeks_ahead : Z) (acc : result (list string)) (fname : string)
  : result (list string) :=
  include_fnames ← acc;
  '(proj_date, eval_date) ← get_dates_from_fname fname;
  if within_tolerance proj_date eval_date weeks_ahead
  then Ok (include_fnames ++ [fname])
  else Ok include_fnames.

Definition filter_fnames_by_weeks_ahead (fnames : list string) (weeks_ahead : Z)
  : result (list string) :=
  foldl (filter_step weeks_ahead) (Ok []) fnames.

(** ** The parts of pandas the program uses *)

Module Pandas.

Local Open Scope Qc_scope.

(** A float cell: [None] is NaN (a missing value). A [Series] indexed by
    model name is a [gmap string (option Qc)]: each label occurs once. *)

(** A frame with labelled rows and columns; [cell_at r c] is [df.at[r, c]].
    Only the cells of [index] x [columns] are part of the frame. *)
Record DataFrame : Type := mkDF {
  index : list string;
  columns : list string;
  cell_at : string -> string -> option Qc
}.

(** [sorted(l)] on strings. *)
Definition sorted (l : list string) : list string := merge_sort String.le l.

(** [pd.DataFrame(d)] for a dict of Series: the rows are the union of the
    indexes of the Series, the columns are the keys, and a label absent from
    a Series gives NaN. pandas sorts the union, unless all the Series list
    the same labels in the same order; the order of the rows only decides
    between rows of equal mean rank further on. *)
Definition DataFrame_of_dict (d : gmap string (gmap string (option Qc))) : DataFrame :=
  {| index := sorted (elements (⋃ (dom <$> (map_to_list d).*2) : gset string));
     columns := (map_to_list d).*1;
     cell_at := fun r c => s ← d !! c; mjoin (s !! r) |}.

(** [df.dropna(how='all')] *)
Definition dropna_all (df : DataFrame) : DataFrame :=
  {| index := filter (fun r => Exists (fun c => is_Some (cell_at df r c)) (columns df)) (index df);
     columns := columns df;
     cell_at := cell_at df |}.

(** [df.reindex(cols, axis=1)] for a rearrangement [cols] of the columns. *)
Definition reindex_columns (df : DataFrame) (cols : list string) : DataFrame :=
  {| index := index df; columns := cols; cell_at := cell_at df |}.

(** [df.reindex(idx)] for a rearrangement [idx] of the rows. *)
Definition reindex (df : DataFrame) (idx : list string) : DataFrame :=
  {| index := idx; columns := columns df; cell_at := cell_at df |}.

(** [df[cols]] *)
Definition select (df : DataFrame) (cols : list string) : DataFrame :=
  {| index := index df; columns := cols; cell_at := cell_at df |}.

(** [df.abs()] *)
Definition abs (df : DataFrame) : DataFrame :=
  {| index := index df; columns := columns df;
     cell_at := fun r c => Qcabs <$> cell_at df r c |}.

(** The values of column [c] that are not NaN, in row order. *)
Definition col_values (df : DataFrame) (c : string) : list Qc :=
  omap (fun r => cell_at df r c) (index df).

Definition count (P : Qc -> Prop) `{forall x, Decision (P x)} (l : list Qc) : Qc :=
  Qc_of_Z (Z.of_nat (length (filter P l))).

(** The rank of [v] among [vals], ties averaged: the values equal to [v]
    take the places [lt + 1 .. lt + eq], whose mean is [lt + (eq + 1) / 2]. *)
Definition rank_of (vals : list Qc) (v : Qc) : Qc :=
  count (fun x => x < v) vals + (count (fun x => x = v) vals + 1) / 2.

(** [df.rank()]: each column is ranked on its own; NaN stays NaN. *)
Definition rank (df : DataFrame) : DataFrame :=
  {| index := index df; columns := columns df;
     cell_at := fun r c => rank_of (col_values df c) <$> cell_at df r c |}.

Definition Qc_max (x y : Qc) : Qc := if decide (x ≤ y) then y else x.

Definition max_list (l : list Qc) : option Qc :=
  match l with
  | [] => None
  | x :: l' => Some (foldl Qc_max x l')
  end.

(** [df.max()]: the Series of the column maxima, NaN for a column without
    a value. *)
Definition max (df : DataFrame) (c : string) : option Qc :=
  max_list (col_values df c).

(** [df.fillna(value)] for a Series [value] indexed by column. *)
Definition fillna (df : DataFrame) (value : string -> option Qc) : DataFrame :=
  {| index := index df; columns := columns df;
     cell_at := fun r c =>
       match cell_at df r c with
       | Some v => Some v
       | None => value c
       end |}.

Definition sum_list (l : list Qc) : Qc := foldr Qcplus 0 l.

Definition mean_list (l : list Qc) : option Qc :=
  match l with
  | [] => None
  | _ => Some (sum_list l / Qc_of_Z (Z.of_nat (length l)))
  end.

(** [df.mean(axis=1)]: the mean of each row over the columns, NaN skipped. *)
Definition mean_axis1 (df : DataFrame) (r : string) : option Qc :=
  mean_list (omap (fun c => cell_at df r c) (columns df)).

(** The order of [sort_values]: ascending, NaN last. *)
Definition nan_last_le (a b : option Qc) : Prop :=
  match a, b with
  | _, None => True
  | None, Some _ => False
  | Some x, Some y => x ≤ y
  end.

#[export] Instance nan_last_le_dec : RelDecision nan_last_le.
Proof. intros [x|] [y|]; simpl; apply _. Defined.

Definition by_value (a b : string * option Qc) : Prop := nan_last_le a.2 b.2.

#[export] Instance by_value_dec : RelDecision by_value.
Proof. intros a b. unfold by_value. apply _. Defined.

(** A stable sort by insertion: an element goes in front of the first
    element of the sorted rest that it does not exceed. *)
Fixpoint insert_sorted {A} (R : relation A) `{forall x y, Decision (R x y)}
    (x : A) (l : list A) : list A :=
  match l with
  | [] => [x]
  | y :: l' => if decide (R x y) then x :: l else y :: insert_sorted R x l'
  end.

Definition stable_sort {A} (R : relation A) `{forall x y, Decision (R x y)}
    (l : list A) : list A :=
  foldr (insert_sorted R) [] l.

(** [s.sort_values().index] for the Series [s] over the labels [idx]:
    ascending, NaN last. pandas does not fix the order of rows with equal
    values (its default is a quicksort); here they keep their order, as they
    do in numpy for a Series of at most 16 rows. No property below depends
    on the order of rows with equal values. *)
Definition sort_values_index (idx : list string) (s : string -> option Qc) : list string :=
  (stable_sort by_value ((fun r => (r, s r)) <$> idx)).*1.

(** [l[-n:]] for [n > 0] *)
Definition last_n {A} (n : nat) (l : list A) : list A := drop (length l - n) l.

End Pandas.

Import Pandas.

(** ** Python truth values of the arguments of [main] *)

(** [eval_date] is [None] or a date, and every date is true. (An empty
    [--eval_date] string is false as well; it is [None] here.) *)
Definition truthy_date (d : option date) : bool :=
  match d with Some _ => true | None => false end.

(** [weeks_ahead] is [None] or an int; 0 is false. *)
Definition truthy_int (n : option Z) : bool :=
  match n with Some n => negb (n =? 0) | None => false end.

(** [out_dir] is [None] or a string; the empty string is false. *)
Definition truthy_str (s : option string) : bool :=
  match s with Some (String _ _) => true | _ => false end.

(** ** Table Merger + Ranker (lines 86-108 and 143-169 of [main]) *)

(** A file of the national or state family, as [main] uses it: its name and
    the column [pd.read_csv] finds in it ([perc_error] or [mean]), indexed by
    model. *)
Definition column_file : Type := string * gmap string (option Qc).

(** [df_us['perc_error'].str.rstrip('%').astype('float') / 100], on the
    numbers in front of the [%] signs; an empty cell is NaN and stays NaN. *)
Definition percent (s : gmap string (option Qc)) : gmap string (option Qc) :=
  (fun v : option Qc => (fun x => x / Qc_of_Z 100)%Qc <$> v) <$> s.

(** [f'{prefix}{proj_date_}_{eval_date_}'] *)
Definition column_label (prefix : string) (proj_date_ eval_date_ : date) : string :=
  prefix +:+ isoformat proj_date_ +:+ "_" +:+ isoformat eval_date_.

(** One turn of a loop that fills [col_to_data]: the column of the file is
    stored under the label of its two dates. *)
Definition add_column (prefix : string)
    (read : gmap string (option Qc) -> gmap string (option Qc))
    (acc : result (gmap string (gmap string (option Qc)))) (file : column_file)
  : result (gmap string (gmap string (option Qc))) :=
  col_to_data ← acc;
  '(proj_date_, eval_date_) ← get_dates_from_fname file.1;
  Ok (<[column_label prefix proj_date_ eval_date_ := read file.2]> col_to_data).

(** Lines 94-96 and 155-157: build the frame, drop the rows without a
    value, sort the columns. *)
Definition assemble (col_to_data : gmap string (gmap string (option Qc))) : DataFrame :=
  let df_all := DataFrame_of_dict col_to_data in
  let df_all := dropna_all df_all in
  reindex_columns df_all (sorted (columns df_all)).

(** [df.abs().rank().max() + 1] *)
Definition max_rank (df_all : DataFrame) (c : string) : option Qc :=
  (fun m => m + 1)%Qc <$> max (rank (abs df_all)) c.

(** [[c for c in df_all.columns if metric in c]] *)
Definition cols_for_ranking (metric : string) (df_all : DataFrame) : list string :=
  List.filter (contains metric) (columns df_all).

(** The columns the mean rank is taken over: all of [cols_for_ranking] when
    [weeks_ahead] is true, its last six otherwise. *)
Definition ranking_window (metric : string) (weeks_ahead : option Z) (df_all : DataFrame)
  : list string :=
  if truthy_int weeks_ahead then cols_for_ranking metric df_all
  else last_n 6 (cols_for_ranking metric df_all).

(** [df.abs().rank().fillna(max_rank)] *)
Definition filled_ranks (df_all : DataFrame) : DataFrame :=
  fillna (rank (abs df_all)) (max_rank df_all).

(** The mean rank of a row over the ranking window. *)
Definition mean_rank (metric : string) (weeks_ahead : option Z) (df_all : DataFrame)
  : string -> option Qc :=
  mean_axis1 (select (filled_ranks df_all) (ranking_window metric weeks_ahead df_all)).

(** Lines 100-108 and 161-169: the rows in the order of their mean rank. *)
Definition reorder_by_mean_rank (metric : string) (weeks_ahead : option Z)
    (df_all : DataFrame) : DataFrame :=
  reindex df_all
    (sort_values_index (index df_all) (mean_rank metric weeks_ahead df_all)).

(** The national branch, from the files selected for it. *)
Definition us_table (us_errs_files : list column_file)
  : result DataFrame :=
  _ ← assert (0 <? Z.of_nat (length us_errs_files));
  col_to_data_us ← foldl (add_column "perc_error_" percent) (Ok ∅) us_errs_files;
  Ok (assemble col_to_data_us).

Definition us_summary (weeks_ahead : option Z) (us_errs_files : list column_file)
  : result DataFrame :=
  df_all_us ← us_table us_errs_files;
  Ok (reorder_by_mean_rank "perc_error" weeks_ahead df_all_us).

(** The state branch: the absolute and the squared errors go into the same
    dict. *)
Definition states_table (states_abs_errs_files states_sq_errs_files : list column_file)
  : result DataFrame :=
  _ ← assert (0 <? Z.of_nat (length states_abs_errs_files));
  _ ← assert (0 <? Z.of_nat (length states_sq_errs_files));
  col_to_data_states ←
    foldl (add_column "mean_abs_error_" id) (Ok ∅) states_abs_errs_files;
  col_to_data_states ←
    foldl (add_column "mean_sq_abs_error_" id) (Ok col_to_data_states) states_sq_errs_files;
  Ok (assemble col_to_data_states).

Definition states_summary (weeks_ahead : option Z)
    (states_abs_errs_files states_sq_errs_files : list column_file) : result DataFrame :=
  df_all_states ← states_table states_abs_errs_files states_sq_errs_files;
  Ok (reorder_by_mean_rank "mean_abs_error" weeks_ahead df_all_states).

(** ** Baseline Comparator (lines 198-233 of [main]) *)

(** A numpy float: a finite value, an infinity or NaN. *)
Inductive float : Type :=
| Fin (q : Qc)
| PosInf
| NegInf
| NaN.

(** A value stored in [col_data]. *)
Inductive value : Type :=
| Int (n : Z)
| Float (x : float).

Definition float_of_cell (v : option Qc) : float :=
  match v with Some q => Fin q | None => NaN end.

(** [x / n] for a numpy float [x] and an integer [n]: a division by 0 gives
    an infinity or NaN and raises nothing. *)
Definition truediv (x : float) (n : Z) : float :=
  match x with
  | Fin q =>
      if n =? 0 then
        if decide (q = 0%Qc) then NaN
        else if decide (0 < q)%Qc then PosInf else NegInf
      else Fin (q / Qc_of_Z n)%Qc
  | PosInf => if n <? 0 then NegInf else PosInf
  | NegInf => if n <? 0 then PosInf else NegInf
  | NaN => NaN
  end.

(** [int(x)] for a finite [x]: rounding towards 0. *)
Definition int_of (q : Qc) : Z := Z.quot (Qnum q) (Zpos (Qden q)).

(** [df_states] as read from a projections file: the rows in file order,
    each with its label (a state, or [US]) and its cells by column. *)
Record StatesFrame : Type := mkSF {
  st_columns : list string;
  st_rows : list (string * (string -> option Qc))
}.

(** [df_states[df_states.index != 'US']] *)
Definition drop_US (df : StatesFrame) : StatesFrame :=
  {| st_columns := st_columns df;
     st_rows := filter (fun row => row.1 ≠ "US") (st_rows df) |}.

(** [s.loc[c]] for a Series [s] over the columns of [df]. *)
Definition loc {A} (df : StatesFrame) (s : string -> A) (c : string) : result A :=
  if decide (c ∈ st_columns df) then Ok (s c) else Raise KeyError.

(** [(~pd.isnull(df_states)).sum()] *)
Definition num_projections (df : StatesFrame) (c : string) : Z :=
  Z.of_nat (length (filter (fun row => is_Some (row.2 c)) (st_rows df))).

(** [df_states.abs().sum(min_count=1)]: NaN for a column without a value. *)
Definition abs_sum (df : StatesFrame) (c : string) : option Qc :=
  match omap (fun row => Qcabs <$> row.2 c) (st_rows df) with
  | [] => None
  | vals => Some (sum_list vals)
  end.

Definition is_model_column (c : string) : bool :=
  contains "-" c && negb (contains "error-" c) && negb (contains "beat_baseline-" c).

Definition model_names (df : StatesFrame) : list string :=
  "Baseline" :: List.filter is_model_column (st_columns df).

(** The body of the loop over [model_names]. *)
Definition model_step (df_states : StatesFrame) (num_states : Z)
    (acc : result (gmap string value)) (model_name : string)
  : result (gmap string value) :=
  col_data ← acc;
  num_with_projections ← loc df_states (num_projections df_states) model_name;
  col_data ←
    (if decide (model_name ≠ "Baseline") then
       num_beat_baseline ← loc df_states (abs_sum df_states) ("beat_baseline-" +:+ model_name);
       let col_data :=
         <["num_states_with_projections-" +:+ model_name := Int num_with_projections]> col_data in
       match num_beat_baseline with
       | None =>
           let col_data := <["num_states_beat_baseline-" +:+ model_name := Float NaN]> col_data in
           Ok (<["perc_beat_baseline-" +:+ model_name := Float NaN]> col_data)
       | Some q =>
           let col_data := <["num_states_beat_baseline-" +:+ model_name := Int (int_of q)]> col_data in
           Ok (<["perc_beat_baseline-" +:+ model_name :=
                   Float (truediv (Fin q) num_with_projections)]> col_data)
       end
     else Ok col_data);
  if num_with_projections =? num_states then
    error_sum ← loc df_states (abs_sum df_states) ("error-" +:+ model_name);
    Ok (<["mean_abs_error-" +:+ model_name :=
            Float (truediv (float_of_cell error_sum) num_states)]> col_data)
  else
    Ok (<["mean_abs_error-" +:+ model_name := Float NaN]> col_data).

(** Lines 203-231: [col_data] of one projections file. *)
Definition baseline_col_data (df_states : StatesFrame) : result (gmap string value) :=
  let df_states := drop_US df_states in
  let num_states := Z.of_nat (length (st_rows df_states)) in
  foldl (model_step df_states num_states)
        (Ok {["num_states" := Int num_states]}) (model_names df_states).

(** Lines 198-233: one [col_data] per pair of dates. *)
Definition baseline_step (acc : result (gmap string (gmap string value)))
    (file : string * StatesFrame) : result (gmap string (gmap string value)) :=
  col_to_data ← acc;
  '(proj_date_, eval_date_) ← get_dates_from_fname file.1;
  col_data ← baseline_col_data file.2;
  Ok (<[column_label "" proj_date_ eval_date_ := col_data]> col_to_data).

Definition baseline_comparison (projections_files : list (string * StatesFrame))
  : result (gmap string (gmap string value)) :=
  _ ← assert (0 <? Z.of_nat (length projections_files));
  foldl baseline_step (Ok ∅) projections_files.

(** ** The start of [main] (lines 61-71) *)

(** What [main] does to the outside before it reads any file. *)
Inductive event : Type :=
| Print (label : string)
| Makedirs (path : string).

(** The four prints, [os.makedirs(out_dir, exist_ok=True)] when [out_dir] is
    true, then the two assertions on the mode: the events in the order they
    happen, and how the prologue ends. *)
Definition main_prologue (eval_date : option date) (weeks_ahead : option Z)
    (out_dir : option string) : list event * result unit :=
  let prints := [Print "Evaluation date:"; Print "Weeks ahead:";
                 Print "Evaluations dir:"; Print "Output dir:"] in
  let events :=
    match out_dir with
    | Some d => if truthy_str out_dir then prints ++ [Makedirs d] else prints
    | None => prints
    end in
  (events,
   _ ← assert (truthy_date eval_date || truthy_int weeks_ahead);
   assert (negb (truthy_date eval_date && truthy_int weeks_ahead))).

(** ** Vocabulary of the specification *)

(** A layout of a file name: the projection date is token [i] and the
    evaluation date token [j]. Layout A is [layout 0 1], layout B is
    [layout 1 2]. *)
Definition layout (i j : nat) (toks : list string) : result (date * date) :=
  proj_date ← getitem toks i ≫= str_to_date;
  eval_date ← getitem toks j ≫= str_to_date;
  Ok (proj_date, eval_date).

(** The invariant of an evaluation file: it is evaluated after it was
    projected. *)
Definition check_order (dates : date * date) : result (date * date) :=
  if date_ltb dates.1 dates.2 then Ok dates else Raise AssertionError.

(** The dates a file name holds: those of layout A, else those of layout B. *)
Definition parsed_dates (fname : string) : option (date * date) :=
  match layout 0 1 (tokens fname) with
  | Ok dates => Some dates
  | Raise _ =>
      match layout 1 2 (tokens fname) with
      | Ok dates => Some dates
      | Raise _ => None
      end
  end.

(** The horizon test on a file name: [|days_ahead - 7 * weeks_ahead| <= 3]. *)
Definition keeps (weeks_ahead : Z) (fname : string) : bool :=
  match get_dates_from_fname fname with
  | Ok (proj_date, eval_date) =>
      bool_decide (Z.abs (days_between eval_date proj_date - 7 * weeks_ahead) ≤ 3)
  | Raise _ => false
  end.

(** The mode options as the command line has them: an option is supplied
    when it has a value. *)
Definition exactly_one_supplied (eval_date : option date) (weeks_ahead : option Z) : Prop :=
  (is_Some eval_date /\ weeks_ahead = None) \/ (eval_date = None /\ is_Some weeks_ahead).

Definition is_Makedirs (ev : event) : Prop :=
  match ev with Makedirs _ => True | Print _ => False end.

(** The configuration check as the specification words it: exactly one mode
    option passes, anything else is an error that comes before the file
    system is touched. *)
Definition config_check_claim (eval_date : option date) (weeks_ahead : option Z)
    (out_dir : option string) : Prop :=
  (exactly_one_supplied eval_date weeks_ahead ->
   (main_prologue eval_date weeks_ahead out_dir).2 = Ok tt)
  /\ (~ exactly_one_supplied eval_date weeks_ahead ->
      (main_prologue eval_date weeks_ahead out_dir).2 = Raise AssertionError
      /\ Forall (fun ev => ~ is_Makedirs ev) (main_prologue eval_date weeks_ahead out_dir).1).

(** The prints that open [main]. *)
Definition banner : list event :=
  [Print "Evaluation date:"; Print "Weeks ahead:"; Print "Evaluations dir:"; Print "Output dir:"].

(** The entries the body of the loop over [model_names] writes for one
    model, when it raises nothing. *)
Definition model_entries (df : StatesFrame) (num_states : Z) (m : string)
    (col_data : gmap string value) : gmap string value :=
  let nwp := num_projections df m in
  let col_data :=
    if decide (m ≠ "Baseline") then
      let col_data := <["num_states_with_projections-" +:+ m := Int nwp]> col_data in
      match abs_sum df ("beat_baseline-" +:+ m) with
      | None =>
          <["perc_beat_baseline-" +:+ m := Float NaN]>
            (<["num_states_beat_baseline-" +:+ m := Float NaN]> col_data)
      | Some q =>
          <["perc_beat_baseline-" +:+ m := Float (truediv (Fin q) nwp)]>
            (<["num_states_beat_baseline-" +:+ m := Int (int_of q)]> col_data)
      end
    else col_data in
  <["mean_abs_error-" +:+ m :=
      Float (if nwp =? num_states
             then truediv (float_of_cell (abs_sum df ("error-" +:+ m))) num_states
             else NaN)]> col_data.


Definition write_entries (df : StatesFrame) (num_states : Z)
    (col_data : gmap string value) (ms : list string) : gmap string value :=
  foldl (fun cd m => model_entries df num_states m cd) col_data ms.

(** [num_states] of a projections file. *)
Definition num_states (df_states : StatesFrame) : Z :=
  Z.of_nat (length (st_rows (drop_US df_states))).



(** The cells of a row, from the pairs of a column and its value. *)
Definition row_of (cells : list (string * option Qc)) (c : string) : option Qc :=
  match list_to_map (M := gmap string (option Qc)) cells !! c with
  | Some v => v
  | None => None
  end.

Definition projection_columns : list string :=
  ["Baseline"; "error-Baseline"; "YYG-ParamSearch"; "error-YYG-ParamSearch";
   "beat_baseline-YYG-ParamSearch"].

Definition state_row (label : string) (baseline err_baseline model err_model beat : option Z)
  : string * (string -> option Qc) :=
  (label,
   row_of [("Baseline", Qc_of_Z <$> baseline); ("error-Baseline", Qc_of_Z <$> err_baseline);
           ("YYG-ParamSearch", Qc_of_Z <$> model);
           ("error-YYG-ParamSearch", Qc_of_Z <$> err_model);
           ("beat_baseline-YYG-ParamSearch", Qc_of_Z <$> beat)]).

(** Two states, the model projects both, and its errors are signed. *)
Definition df_signed_errors : StatesFrame :=
  {| st_columns := projection_columns;
     st_rows := [state_row "US" (Some 30) (Some 5) (Some 28) (Some (-3)) (Some 1);
                 state_row "NY" (Some 10) (Some 2) (Some 12) (Some (-1)) (Some 1);
                 state_row "CA" (Some 20) (Some 4) (Some 17) (Some (-2)) (Some 0)] |}.

(** Two states, the model projects both, and its error column is empty. *)
Definition df_no_errors : StatesFrame :=
  {| st_columns := projection_columns;
     st_rows := [state_row "NY" (Some 10) (Some 2) (Some 12) None None;
                 state_row "CA" (Some 20) (Some 4) (Some 17) None None] |}.

(** Three states, the model projects two of them. *)
Definition df_two_of_three : StatesFrame :=
  {| st_columns := projection_columns;
     st_rows := [state_row "US" (Some 30) (Some 5) (Some 28) (Some 3) (Some 1);
                 state_row "NY" (Some 10) (Some 2) (Some 12) (Some 1) (Some 1);
                 state_row "CA" (Some 20) (Some 4) None None None;
                 state_row "TX" (Some 20) (Some 4) (Some 17) (Some 2) (Some 0)] |}.

(** The invariant of a wide table: the columns are in lexicographic order,
    without a repeated label, and a model has a row exactly when one of its
    cells has a value. *)
Definition wide_table_invariant (df : DataFrame) : Prop :=
  Sorted String.le (columns df)
  /\ NoDup (columns df)
  /\ forall m, m ∈ index df <-> exists c, c ∈ columns df /\ is_Some (cell_at df m c).

(** Files of the scenario of the specification: two pairs of dates, the
    models A and B in both, C without a value, D only in the first. *)
Definition us_errs_files_ex : list column_file :=
  [("evaluations/2020-12-01/2020-11-01_2020-12-01_us_errs.csv",
    {["A" := Some (Qc_of_Z 10); "B" := Some (Qc_of_Z 5); "C" := None;
      "D" := Some (Qc_of_Z (-7))]});
   ("evaluations/2020-12-08/2020-11-08_2020-12-08_us_errs.csv",
    {["A" := Some (Qc_of_Z 20); "B" := Some (Qc_of_Z 1); "C" := None]})].

Definition states_abs_errs_files_ex : list column_file :=
  [("evaluations/2020-12-01/2020-11-01_2020-12-01_states_abs_errs.csv",
    {["A" := Some (Qc_of_Z 100); "B" := Some (Qc_of_Z 50)]})].

Definition states_sq_errs_files_ex : list column_file :=
  [("evaluations/2020-12-01/2020-11-01_2020-12-01_states_sq_errs.csv",
    {["A" := Some (Qc_of_Z 10000); "B" := Some (Qc_of_Z 2500)]})].

(** Every character of [s] passes [p]. *)
Fixpoint string_forallb (p : ascii -> bool) (s : string) : bool :=
  match s with
  | EmptyString => true
  | String c s' => p c && string_forallb p s'
  end.

(** A character of a date in ISO format. *)
Definition is_date_char (c : ascii) : bool :=
  is_digit c || Ascii.eqb c "-" || Ascii.eqb c "_".

(** The ranking window as the specification words it: every column of the
    table in weeks-ahead mode, the last six columns in exact-date mode. *)
Definition ranking_window_claim (metric : string) (weeks_ahead : option Z)
    (df : DataFrame) : Prop :=
  ranking_window metric weeks_ahead df
  = if truthy_int weeks_ahead then columns df else last_n 6 (columns df).

(** The columns of the state table that hold absolute errors. *)
Definition absolute_error_columns (df : DataFrame) : list string :=
  List.filter (String.prefix "mean_abs_error_") (columns df).

(** ** Vocabulary of the further properties *)

(** The character [c] does not occur in [s]. *)
Definition lacks (c : ascii) (s : string) : Prop :=
  string_forallb (fun a => negb (Ascii.eqb a c)) s = true.


(** How many values of [l] are below, equal to and above [v]. *)
Definition below (l : list Qc) (v : Qc) : nat := length (filter (fun x => x < v)%Qc l).
Definition equal (l : list Qc) (v : Qc) : nat := length (filter (fun x => x = v) l).
Definition above (l : list Qc) (v : Qc) : nat := length (filter (fun x => v < x)%Qc l).

(** The columns the loop body reads for a model: its own column, its
    [beat_baseline-] column unless it is the baseline, and its [error-]
    column when it has a projection for every state. *)
Definition columns_read (df_states : StatesFrame) (m : string) : Prop :=
  m ∈ st_columns df_states
  /\ (m ≠ "Baseline" -> "beat_baseline-" +:+ m ∈ st_columns df_states)
  /\ (num_projections (drop_US df_states) m = num_states df_states ->
      "error-" +:+ m ∈ st_columns df_states).

#[export] Instance columns_read_dec df_states m : Decision (columns_read df_states m).
Proof. unfold columns_read. apply _. Defined.


(** ** The rows of the baseline summary (lines 235-241 of [main]) *)

(** [df_all.index] for [df_all = pd.DataFrame(col_to_data)], a dict of
    dicts: the keys of the inner dicts, each once. *)
Definition baseline_index (col_to_data : gmap string (gmap string value)) : list string :=
  elements (⋃ (dom <$> (map_to_list col_to_data).*2) : gset string).

(** [row_ordering], from the index of [df_all]. *)
Definition row_ordering (index : list string) : list string :=
  ["num_states"]
  ++ sorted (List.filter (contains "num_states_with_projections") index)
  ++ sorted (List.filter (contains "num_states_beat_baseline") index)
  ++ sorted (List.filter (contains "perc_beat_baseline") index)
  ++ sorted (List.filter (contains "mean_abs_error") index).

(** The row labels of [df_all.loc[row_ordering]]: a label that is not in the
    index raises [KeyError]. *)
Definition baseline_rows (col_to_data : gmap string (gmap string value))
  : result (list string) :=
  let index := baseline_index col_to_data in
  if decide (Forall (fun c => c ∈ index) (row_ordering index))
  then Ok (row_ordering index)
  else Raise KeyError.

(** The rows of the summary of a list of projections files. *)
Definition baseline_summary_rows (projections_files : list (string * StatesFrame))
  : result (list string) :=
  col_to_data ← baseline_comparison projections_files;
  baseline_rows col_to_data.

(** A model name that holds none of the four names the rows are grouped by. *)
Definition plain_name (m : string) : Prop :=
  contains "num_states_with_projections" m = false
  /\ contains "num_states_beat_baseline" m = false
  /\ contains "perc_beat_baseline" m = false
  /\ contains "mean_abs_error" m = false.

(** A key of [col_data] for a model of the file. *)
Definition model_key (df_states : StatesFrame) (k : string) : Prop :=
  exists m, m ∈ model_names (drop_US df_states)
    /\ (k = "mean_abs_error-" +:+ m
        \/ (m ≠ "Baseline"
            /\ (k = "num_states_with_projections-" +:+ m
                \/ k = "num_states_beat_baseline-" +:+ m
                \/ k = "perc_beat_baseline-" +:+ m))).

(** A projections file whose model has a name that holds [mean_abs_error]. *)
Definition df_category_name : StatesFrame :=
  {| st_columns := ["Baseline"; "error-Baseline"; "X-mean_abs_error";
                    "error-X-mean_abs_error"; "beat_baseline-X-mean_abs_error"];
     st_rows :=
       [("NY", row_of [("Baseline", Some (Qc_of_Z 10)); ("error-Baseline", Some (Qc_of_Z 2));
                       ("X-mean_abs_error", Some (Qc_of_Z 12));
                       ("error-X-mean_abs_error", Some (Qc_of_Z 1));
                       ("beat_baseline-X-mean_abs_error", Some (Qc_of_Z 1))])] |}.

(** ** The output files (lines 116-121, 177-182 and 243-249 of [main]) *)

(** [str(n)] for an int: its decimal digits, after [-] when it is negative. *)
Definition str_int (n : Z) : string := NilEmpty.string_of_int (Z.to_int n).

(** [f'{weeks_ahead}'] *)
Definition format_weeks (weeks_ahead : option Z) : string :=
  match weeks_ahead with
  | Some n => str_int n
  | None => "None"
  end.

(** The characters of [f'{weeks_ahead}']: digits, [-], and the letters of
    [None]. *)
Definition weeks_char (c : ascii) : bool :=
  is_digit c || Ascii.eqb c "-" || Ascii.eqb c "N" || Ascii.eqb c "o"
  || Ascii.eqb c "n" || Ascii.eqb c "e".

Definition out_fname_us (out_dir : string) (eval_date : option date)
    (weeks_ahead : option Z) : string :=
  match eval_date with
  | Some d => out_dir +:+ "/summary_us_" +:+ isoformat d +:+ ".csv"
  | None => out_dir +:+ "/summary_" +:+ format_weeks weeks_ahead +:+ "_weeks_ahead_us.csv"
  end.

Definition out_fname_states (out_dir : string) (eval_date : option date)
    (weeks_ahead : option Z) : string :=
  match eval_date with
  | Some d => out_dir +:+ "/summary_states_" +:+ isoformat d +:+ ".csv"
  | None => out_dir +:+ "/summary_" +:+ format_weeks weeks_ahead +:+ "_weeks_ahead_states.csv"
  end.

Definition out_fname (out_dir : string) (eval_date : option date)
    (weeks_ahead : option Z) : string :=
  match eval_date with
  | Some d =>
      out_dir +:+ "/baseline_comparison/baseline_comparison_states_" +:+ isoformat d +:+ ".csv"
  | None =>
      out_dir +:+ "/baseline_comparison/baseline_comparison_" +:+ format_weeks weeks_ahead
      +:+ "_weeks_ahead_states.csv"
  end.

(** The date of a run by evaluation date is one of the calendar. *)
Definition valid_eval_date (eval_date : option date) : Prop :=
  match eval_date with
  | Some d => valid_ymd (year d) (month d) (day d) = true
  | None => True
  end.

(** What selects the files of a run: the evaluation date when there is one,
    else the horizon. *)
Definition selection (eval_date : option date) (weeks_ahead : option Z)
  : date + option Z :=
  match eval_date with
  | Some d => inl d
  | None => inr weeks_ahead
  end.

(** ** The mean rank in the words of the specification (4.4, steps 5 and 6) *)

(** The magnitudes of column [c]: the absolute values of the cells that
    have a value, one for each such row. *)
Definition magnitudes (df : DataFrame) (c : string) : list Qc :=
  omap (fun r => Qcabs <$> cell_at df r c) (index df).

(** The places of the magnitude [v] when [vals] is put in ascending order,
    counted from 1: the smaller magnitudes come first, then those equal to
    [v]. *)
Definition places (vals : list Qc) (v : Qc) : list Qc :=
  (fun i => Qc_of_Z (Z.of_nat i)) <$> seq (S (below vals v)) (equal vals v).

(** The mean of a list of numbers; a list without a number has none. *)
Definition average (l : list Qc) : option Qc :=
  match l with
  | [] => None
  | _ => Some (foldr Qcplus 0%Qc l / Qc_of_Z (Z.of_nat (length l)))%Qc
  end.

(** Rank 1 is the smallest magnitude, and equal magnitudes share the mean
    of their places. *)
Definition average_rank (vals : list Qc) (v : Qc) : option Qc :=
  average (places vals v).

(** The greatest number of a list. *)
Definition greatest (l : list Qc) : option Qc :=
  foldr (fun x m =>
           match m with
           | Some y => if decide (x ≤ y)%Qc then Some y else Some x
           | None => Some x
           end) None l.

(** The ranks of the rows of column [c] that have a value. *)
Definition observed_ranks (df : DataFrame) (c : string) : list Qc :=
  omap (average_rank (magnitudes df c)) (magnitudes df c).

(** The rank of row [r] in column [c]: the rank of its magnitude among the
    magnitudes of the column, and for a row without a value the greatest
    observed rank of the column plus 1. *)
Definition specified_rank (df : DataFrame) (c r : string) : option Qc :=
  match cell_at df r c with
  | Some x => average_rank (magnitudes df c) (Qcabs x)
  | None => (fun m => (m + 1)%Qc) <$> greatest (observed_ranks df c)
  end.

(** The mean of the ranks of row [r] over the columns of the ranking
    window. *)
Definition specified_mean_rank (metric : string) (weeks_ahead : option Z)
    (df : DataFrame) (r : string) : option Qc :=
  average (omap (fun c => specified_rank df c r) (ranking_window metric weeks_ahead df)).

(** Ascending order of mean ranks, the rows without one last. *)
Definition ascending (a b : option Qc) : Prop :=
  match a, b with
  | Some x, Some y => (x ≤ y)%Qc
  | Some _, None => True
  | None, Some _ => False
  | None, None => True
  end.

(** Files in which the order of the mean ranks is not the order of the mean
    magnitudes: A has the smallest and the greatest error, D has no second
    projection. *)
Definition us_errs_files_ranks : list column_file :=
  [("evaluations/2020-12-01/2020-11-01_2020-12-01_us_errs.csv",
    {["A" := Some (Qc_of_Z 1); "B" := Some (Qc_of_Z (-2)); "C" := Some (Qc_of_Z 50);
      "D" := Some (Qc_of_Z 3)]});
   ("evaluations/2020-12-08/2020-11-08_2020-12-08_us_errs.csv",
    {["A" := Some (Qc_of_Z 100); "B" := Some (Qc_of_Z 3); "C" := Some (Qc_of_Z (-4))]})].

(** * Properties *)

(** To evaluate a goal about the value [x] of [Hx : r = Ok x], for a closed
    [r]. *)
Ltac evaluate_with Hx :=
  match type of Hx with
  | ?r = Ok ?x =>
      pattern x;
      match goal with
      | |- ?P x =>
          change (match Ok x with Ok y => P y | Raise _ => True end);
          rewrite <- Hx; vm_compute
      end
  end.

(** ** Filename Parser *)

Example ex_parse_A :
  get_dates_from_fname "evaluations/2020-12-01/2020-11-01_2020-12-01_us_errs.csv"
  = Ok (mkdate 2020 11 1, mkdate 2020 12 1).
Proof. vm_compute. reflexivity. Qed.

Example ex_parse_B :
  get_dates_from_fname "evaluations/2020-12-01/projections_2020-11-01_2020-12-01.csv"
  = Ok (mkdate 2020 11 1, mkdate 2020 12 1).
Proof. vm_compute. reflexivity. Qed.

Example ex_parse_order :
  get_dates_from_fname "2020-12-01_2020-11-01_us_errs.csv" = Raise AssertionError.
Proof. vm_compute. reflexivity. Qed.

Example ex_parse_one_token :
  get_dates_from_fname "2020-12-01.csv" = Raise IndexError.
Proof. vm_compute. reflexivity. Qed.

Example ex_days : days_between (mkdate 2020 12 1) (mkdate 2020 11 1) = 30.
Proof. reflexivity. Qed.

Example ex_iso : isoformat (mkdate 2020 3 7) = "2020-03-07".
Proof. reflexivity. Qed.

Lemma date_ltb_lt (a b : date) : date_ltb a b = true <-> date_lt a b.
Proof. unfold date_ltb, date_lt. lia. Qed.

Lemma str_to_date_raises (s : string) (e : exn) :
  str_to_date s = Raise e -> e = ValueError.
Proof.
  unfold str_to_date, strptime_date, make_date.
  destruct (match_ymd s) as [[[y m] d]|]; [destruct (valid_ymd y m d)|]; congruence.
Qed.

Lemma layout_raises (i j : nat) (toks : list string) (e : exn) :
  layout i j toks = Raise e -> e = ValueError \/ e = IndexError.
Proof.
  unfold layout, getitem.
  destruct (toks !! i) as [ti|]; simpl; [|intros [= <-]; by right].
  destruct (str_to_date ti) as [p|e1] eqn:Hp; simpl.
  - destruct (toks !! j) as [tj|]; simpl; [|intros [= <-]; by right].
    destruct (str_to_date tj) as [q|e2] eqn:Hq; simpl; [done|].
    intros [= <-]. left. by eapply str_to_date_raises.
  - intros [= <-]. left. by eapply str_to_date_raises.
Qed.

(** When layout A stops on a missing token, layout B stops on one too. *)
Lemma layout_A_IndexError (toks : list string) :
  layout 0 1 toks = Raise IndexError -> layout 1 2 toks = Raise IndexError.
Proof.
  unfold layout, getitem.
  destruct toks as [|t0 [|t1 rest]]; simpl; [done| |].
  - by destruct (str_to_date t0).
  - destruct (str_to_date t0) as [p|e0] eqn:H0; simpl.
    + destruct (str_to_date t1) as [q|e1] eqn:H1; simpl; [done|].
      intros [= ->]. by apply str_to_date_raises in H1.
    + intros [= ->]. by apply str_to_date_raises in H0.
Qed.

Lemma get_dates_from_fname_unfold (fname : string) :
  get_dates_from_fname fname =
  try_except_ValueError (layout 0 1 (tokens fname)) (layout 1 2 (tokens fname))
    ≫= check_order.
Proof.
  unfold get_dates_from_fname, tokens, layout, check_order, assert.
  destruct (try_except_ValueError _ _) as [[p e]|err]; simpl; [|done].
  by destruct (date_ltb p e).
Qed.

Lemma get_dates_from_fname_first (fname : string) :
  get_dates_from_fname fname =
  match layout 0 1 (tokens fname) with
  | Ok dates => check_order dates
  | Raise _ => layout 1 2 (tokens fname) ≫= check_order
  end.
Proof.
  rewrite get_dates_from_fname_unfold.
  destruct (layout 0 1 (tokens fname)) as [dates|e] eqn:HA; simpl; [done|].
  destruct (layout_raises _ _ _ _ HA) as [-> | ->]; simpl; [done|].
  by rewrite (layout_A_IndexError _ HA).
Qed.

Lemma get_dates_from_fname_parsed (fname : string) :
  get_dates_from_fname fname =
  match parsed_dates fname with
  | Some dates => check_order dates
  | None =>
      match layout 1 2 (tokens fname) with
      | Ok dates => check_order dates
      | Raise e => Raise e
      end
  end.
Proof.
  rewrite get_dates_from_fname_first. unfold parsed_dates.
  destruct (layout 0 1 (tokens fname)); [done|].
  by destruct (layout 1 2 (tokens fname)).
Qed.

Lemma get_dates_from_fname_ordered (fname : string) (p e : date) :
  get_dates_from_fname fname = Ok (p, e) -> date_lt p e.
Proof.
  rewrite get_dates_from_fname_unfold.
  destruct (try_except_ValueError _ _) as [[p' e']|err]; simpl; [|done].
  unfold check_order; simpl.
  destruct (date_ltb p' e') eqn:Hlt; [|done].
  intros [= <- <-]. by apply date_ltb_lt.
Qed.

(** ** Horizon Filter *)

Lemma foldl_filter_step_Raise (w : Z) (fnames : list string) (e : exn) :
  foldl (filter_step w) (Raise e) fnames = Raise e.
Proof. induction fnames as [|f fnames IH]; simpl; [done|apply IH]. Qed.

Lemma filter_step_keeps (w : Z) (acc : list string) (f : string) :
  is_ok (get_dates_from_fname f) = true ->
  filter_step w (Ok acc) f = Ok (acc ++ if keeps w f then [f] else []).
Proof.
  unfold filter_step, keeps, within_tolerance, max_days_tolerance; simpl.
  destruct (get_dates_from_fname f) as [[p e]|err]; simpl; [intros _|done].
  destruct (Z.leb_spec (Z.abs (days_between e p - 7 * w)) 3).
  - rewrite bool_decide_eq_true_2; done.
  - rewrite bool_decide_eq_false_2; [by rewrite app_nil_r|lia].
Qed.

Lemma foldl_filter_step_Ok (w : Z) (fnames acc : list string) :
  Forall (fun f => is_ok (get_dates_from_fname f) = true) fnames ->
  foldl (filter_step w) (Ok acc) fnames = Ok (acc ++ List.filter (keeps w) fnames).
Proof.
  intros Hall. revert acc.
  induction Hall as [|f fnames Hf _ IH]; intros acc; cbn [foldl List.filter].
  - by rewrite app_nil_r.
  - rewrite (filter_step_keeps _ _ _ Hf), IH, <- app_assoc.
    by destruct (keeps w f).
Qed.

Lemma foldl_filter_step_fails (w : Z) (fnames : list string) (f : string) (acc : list string) :
  f ∈ fnames -> is_ok (get_dates_from_fname f) = false ->
  is_ok (foldl (filter_step w) (Ok acc) fnames) = false.
Proof.
  intros Hin Hf. revert acc.
  induction fnames as [|g fnames IH]; intros acc; [by apply elem_of_nil in Hin|].
  cbn [foldl]. destruct (is_ok (get_dates_from_fname g)) eqn:Hg.
  - rewrite (filter_step_keeps _ _ _ Hg). apply IH.
    apply elem_of_cons in Hin as [->|Hin]; [congruence|done].
  - unfold filter_step at 2; simpl.
    destruct (get_dates_from_fname g) as [[p e]|err]; simpl; [done|].
    by rewrite foldl_filter_step_Raise.
Qed.

Lemma filter_Ok_all_parse (w : Z) (fnames out : list string) :
  filter_fnames_by_weeks_ahead fnames w = Ok out ->
  Forall (fun f => is_ok (get_dates_from_fname f) = true) fnames.
Proof.
  intros Hout. apply Forall_forall. intros f Hin.
  destruct (is_ok (get_dates_from_fname f)) eqn:Hf; [done|].
  unfold filter_fnames_by_weeks_ahead in Hout.
  pose proof (foldl_filter_step_fails w fnames f [] Hin Hf) as H.
  by rewrite Hout in H.
Qed.

Lemma filter_sublist_of {A} (p : A -> bool) (l : list A) : List.filter p l `sublist_of` l.
Proof.
  induction l as [|x l IH]; simpl; [constructor|].
  destruct (p x); by constructor.
Qed.

(** C5. The parser takes the dates of layout A (tokens 0 and 1) and, when
    layout A fails, those of layout B (tokens 1 and 2); a pair it returns
    has its evaluation date after its projection date; and a file name
    whose dates are not in that order makes the parser raise
    [AssertionError], which also ends [filter_fnames_by_weeks_ahead] on
    every list the file name is in: the file is not skipped. *)
Theorem get_dates_from_fname_layouts (fname : string) :
  get_dates_from_fname fname =
    match layout 0 1 (tokens fname) with
    | Ok dates => check_order dates
    | Raise _ => layout 1 2 (tokens fname) ≫= check_order
    end
  /\ (forall p e, get_dates_from_fname fname = Ok (p, e) -> date_lt p e)
  /\ (forall p e, parsed_dates fname = Some (p, e) -> ~ date_lt p e ->
        get_dates_from_fname fname = Raise AssertionError
        /\ forall fnames w, fname ∈ fnames ->
             is_ok (filter_fnames_by_weeks_ahead fnames w) = false).
Proof.
  split; [apply get_dates_from_fname_first|].
  split; [apply get_dates_from_fname_ordered|].
  intros p e Hparsed Hnlt.
  assert (get_dates_from_fname fname = Raise AssertionError) as Hraise.
  { rewrite get_dates_from_fname_parsed, Hparsed. unfold check_order; simpl.
    destruct (date_ltb p e) eqn:Hlt; [|done].
    by apply date_ltb_lt in Hlt. }
  split; [done|].
  intros fnames w Hin. unfold filter_fnames_by_weeks_ahead.
  apply (foldl_filter_step_fails w fnames fname [] Hin). by rewrite Hraise.
Qed.

Lemma get_dates_from_fname_layouts_witness :
  get_dates_from_fname "ev/2020-12-01_2020-11-01_us_errs.csv" = Raise AssertionError
  /\ is_ok (filter_fnames_by_weeks_ahead
              ["ev/2020-11-01_2020-11-29_us_errs.csv";
               "ev/2020-12-01_2020-11-01_us_errs.csv"] 4) = false.
Proof.
  destruct (get_dates_from_fname_layouts "ev/2020-12-01_2020-11-01_us_errs.csv")
    as (_ & _ & H).
  destruct (H (mkdate 2020 12 1) (mkdate 2020 11 1)) as [Hraise Hfilter].
  - vm_compute. reflexivity.
  - unfold date_lt; simpl. lia.
  - split; [exact Hraise|].
    apply Hfilter. apply elem_of_cons. right. apply elem_of_cons. left. reflexivity.
Defined.

(** C4. The horizon filter returns the files with
    [|days_ahead - 7 * weeks_ahead| <= 3], in the order of its input: it
    returns when every file name parses, and what it returns is the input
    filtered by that test; a file exactly on the horizon or 3 days off is
    kept, one 4 or more days off is not. *)
Theorem filter_fnames_by_weeks_ahead_keeps (fnames : list string) (weeks_ahead : Z) :
  (Forall (fun f => is_ok (get_dates_from_fname f) = true) fnames ->
   filter_fnames_by_weeks_ahead fnames weeks_ahead
   = Ok (List.filter (keeps weeks_ahead) fnames))
  /\ (forall out, filter_fnames_by_weeks_ahead fnames weeks_ahead = Ok out ->
        out = List.filter (keeps weeks_ahead) fnames
        /\ out `sublist_of` fnames
        /\ forall f p e, f ∈ fnames -> get_dates_from_fname f = Ok (p, e) ->
             (f ∈ out <-> Z.abs (days_between e p - 7 * weeks_ahead) <= 3))
  /\ (forall p e,
        (days_between e p = 7 * weeks_ahead -> within_tolerance p e weeks_ahead = true)
        /\ (Z.abs (days_between e p - 7 * weeks_ahead) = 3 ->
            within_tolerance p e weeks_ahead = true)
        /\ (4 <= Z.abs (days_between e p - 7 * weeks_ahead) ->
            within_tolerance p e weeks_ahead = false)).
Proof.
  split; [apply (foldl_filter_step_Ok weeks_ahead fnames [])|].
  split.
  - intros out Hout.
    pose proof (filter_Ok_all_parse _ _ _ Hout) as Hall.
    assert (out = List.filter (keeps weeks_ahead) fnames) as ->.
    { pose proof (foldl_filter_step_Ok weeks_ahead fnames [] Hall) as H.
      unfold filter_fnames_by_weeks_ahead in Hout. rewrite app_nil_l in H. congruence. }
    split; [done|]. split; [apply filter_sublist_of|].
    intros f p e Hin Hf.
    rewrite list_elem_of_In, filter_In, <- list_elem_of_In.
    unfold keeps. rewrite Hf, bool_decide_eq_true. tauto.
  - intros p e. unfold within_tolerance, max_days_tolerance. lia.
Qed.

Lemma filter_fnames_by_weeks_ahead_keeps_witness :
  filter_fnames_by_weeks_ahead
    ["ev/2020-11-01_2020-12-01_us_errs.csv"; "ev/2020-11-01_2020-11-29_us_errs.csv";
     "ev/2020-11-01_2020-11-25_us_errs.csv"; "ev/2020-11-01_2020-11-26_us_errs.csv";
     "ev/2020-11-01_2020-12-02_us_errs.csv"; "ev/2020-11-01_2020-12-03_us_errs.csv"] 4
  = Ok ["ev/2020-11-01_2020-12-01_us_errs.csv"; "ev/2020-11-01_2020-11-29_us_errs.csv";
        "ev/2020-11-01_2020-11-26_us_errs.csv"; "ev/2020-11-01_2020-12-02_us_errs.csv"].
Proof.
  refine (eq_trans (proj1 (filter_fnames_by_weeks_ahead_keeps _ 4) _) _).
  - repeat (constructor; [vm_compute; reflexivity|]). constructor.
  - vm_compute. reflexivity.
Defined.

(** ** Configuration check *)

(** C8, as stated, fails: with neither option and an output directory, the
    directory is created before the error; and [weeks_ahead = 0] alone is
    refused. *)
Lemma config_check_claim_fails :
  ~ config_check_claim None None (Some "out")
  /\ ~ config_check_claim None (Some 0) None.
Proof.
  split.
  - intros [_ H]. destruct H as [_ Hev].
    + intros [[[d Hd] _]|[_ [w Hw]]]; discriminate.
    + cbn in Hev. rewrite Forall_forall in Hev.
      apply (Hev (Makedirs "out")); [|exact I].
      do 4 right. left.
  - intros [H _]. assert (Raise AssertionError = Ok tt) as Heq; [|discriminate].
    apply H. right. split; [reflexivity|]. by exists 0.
Qed.

(** C8, amended. When [weeks_ahead] is not 0: the check passes exactly when
    one of the two options is supplied, and fails with [AssertionError]
    otherwise; before the check, [main] has printed its banner and, when
    [out_dir] is a non-empty string, created that directory, and nothing
    else. *)
Theorem main_prologue_mode (eval_date : option date) (weeks_ahead : option Z)
    (out_dir : option string) :
  weeks_ahead ≠ Some 0 ->
  ((main_prologue eval_date weeks_ahead out_dir).2 = Ok tt
   <-> exactly_one_supplied eval_date weeks_ahead)
  /\ ((main_prologue eval_date weeks_ahead out_dir).2 = Raise AssertionError
      <-> ~ exactly_one_supplied eval_date weeks_ahead)
  /\ ((main_prologue eval_date weeks_ahead out_dir).1 =
      banner ++ match out_dir with
                | Some d => if decide (d = "") then [] else [Makedirs d]
                | None => []
                end).
Proof.
  intros Hw. unfold exactly_one_supplied, main_prologue, assert, banner.
  cbn [fst snd].
  split; [|split].
  - destruct eval_date as [d|], weeks_ahead as [w|]; simpl.
    + destruct (Z.eqb_spec w 0) as [->|_]; [done|]. simpl.
      split; [done|]. intros [[_ ?]|[? _]]; discriminate.
    + split; [intros _; left; eauto|done].
    + destruct (Z.eqb_spec w 0) as [->|_]; [done|]. simpl.
      split; [intros _; right; eauto|done].
    + split; [done|]. intros [[[? ?] _]|[_ [? ?]]]; discriminate.
  - destruct eval_date as [d|], weeks_ahead as [w|]; simpl.
    + destruct (Z.eqb_spec w 0) as [->|_]; [done|]. simpl.
      split; [|done]. intros _ [[_ ?]|[? _]]; discriminate.
    + split; [done|]. intros H. destruct H. left; eauto.
    + destruct (Z.eqb_spec w 0) as [->|_]; [done|]. simpl.
      split; [done|]. intros H. destruct H. right; eauto.
    + split; [|done]. intros _ [[[? ?] _]|[_ [? ?]]]; discriminate.
  - destruct out_dir as [[|c d]|]; reflexivity.
Qed.

Lemma main_prologue_mode_witness :
  (main_prologue (Some (mkdate 2020 12 1)) None (Some "out")).2 = Ok tt
  /\ (main_prologue None None (Some "out")).2 = Raise AssertionError.
Proof.
  split.
  - apply (proj1 (main_prologue_mode (Some (mkdate 2020 12 1)) None (Some "out")
                    ltac:(discriminate))).
    left. split; [by exists (mkdate 2020 12 1)|reflexivity].
  - apply (proj1 (proj2 (main_prologue_mode None None (Some "out") ltac:(discriminate)))).
    intros [[[d Hd] _]|[_ [w Hw]]]; discriminate.
Defined.

(** ** Baseline Comparator *)

Lemma model_step_Ok df n cd m cd' :
  model_step df n (Ok cd) m = Ok cd' -> cd' = model_entries df n m cd.
Proof.
  unfold model_step, model_entries, loc. cbn [mbind result_bind].
  destruct (decide (m ∈ st_columns df)); [|done]. cbn [mbind result_bind].
  destruct (decide (m ≠ "Baseline")) as [Hm|Hm].
  - destruct (decide ("beat_baseline-" +:+ m ∈ st_columns df)); [|done].
    cbn [mbind result_bind].
    destruct (abs_sum df ("beat_baseline-" +:+ m)) as [q|]; cbn [mbind result_bind];
      (destruct (num_projections df m =? n); [|congruence]);
      (destruct (decide ("error-" +:+ m ∈ st_columns df)); [|done]);
      cbn [mbind result_bind]; congruence.
  - cbn [mbind result_bind].
    destruct (num_projections df m =? n); [|congruence].
    destruct (decide ("error-" +:+ m ∈ st_columns df)); [|done].
    cbn [mbind result_bind]. congruence.
Qed.

Lemma foldl_model_step_Raise df n ms e :
  foldl (model_step df n) (Raise e) ms = Raise e.
Proof. induction ms as [|m ms IH]; [done|apply IH]. Qed.

Lemma foldl_model_step_Ok df n ms cd0 cd :
   foldl (model_step df n) (Ok cd0) ms = Ok cd ->
   cd = write_entries df n cd0 ms.
Proof.
  unfold write_entries. revert cd0. induction ms as [|m ms IH]; intros cd0; cbn [foldl].
  - congruence.
  - destruct (model_step df n (Ok cd0) m) as [cd1|e] eqn:H1.
    + apply model_step_Ok in H1 as ->. apply IH.
    + by rewrite foldl_model_step_Raise.
Qed.

Lemma model_entries_mean_abs_error df n m cd :
  model_entries df n m cd !! ("mean_abs_error-" +:+ m)
  = Some (Float (if num_projections df m =? n
                 then truediv (float_of_cell (abs_sum df ("error-" +:+ m))) n
                 else NaN)).
Proof. unfold model_entries. by rewrite lookup_insert_eq. Qed.

Lemma model_entries_beat df n m cd :
  m ≠ "Baseline" ->
  model_entries df n m cd !! ("num_states_with_projections-" +:+ m)
  = Some (Int (num_projections df m))
  /\ model_entries df n m cd !! ("num_states_beat_baseline-" +:+ m)
     = Some (match abs_sum df ("beat_baseline-" +:+ m) with
             | Some q => Int (int_of q)
             | None => Float NaN
             end)
  /\ model_entries df n m cd !! ("perc_beat_baseline-" +:+ m)
     = Some (match abs_sum df ("beat_baseline-" +:+ m) with
             | Some q => Float (truediv (Fin q) (num_projections df m))
             | None => Float NaN
             end).
Proof.
  intros Hm. unfold model_entries.
  rewrite !(lookup_insert_ne _ ("mean_abs_error-" +:+ m)) by discriminate.
  destruct (decide (m ≠ "Baseline")); [|done].
  destruct (abs_sum df ("beat_baseline-" +:+ m)) as [q|].
  all: rewrite (lookup_insert_eq _ ("perc_beat_baseline-" +:+ m)).
  all: rewrite (lookup_insert_ne _ ("perc_beat_baseline-" +:+ m)
                  ("num_states_beat_baseline-" +:+ m)) by discriminate.
  all: rewrite (lookup_insert_ne _ ("perc_beat_baseline-" +:+ m)
                  ("num_states_with_projections-" +:+ m)) by discriminate.
  all: rewrite (lookup_insert_eq _ ("num_states_beat_baseline-" +:+ m)).
  all: rewrite (lookup_insert_ne _ ("num_states_beat_baseline-" +:+ m)
                  ("num_states_with_projections-" +:+ m)) by discriminate.
  all: by rewrite lookup_insert_eq.
Qed.

(** A key that is none of the four keys of [m] is left as it is. *)
Lemma model_entries_other df n m cd k :
  k ≠ "mean_abs_error-" +:+ m ->
  k ≠ "perc_beat_baseline-" +:+ m ->
  k ≠ "num_states_beat_baseline-" +:+ m ->
  k ≠ "num_states_with_projections-" +:+ m ->
  model_entries df n m cd !! k = cd !! k.
Proof.
  intros H1 H2 H3 H4. unfold model_entries.
  rewrite lookup_insert_ne by done.
  destruct (decide (m ≠ "Baseline")); [|done].
  destruct (abs_sum df ("beat_baseline-" +:+ m)); by rewrite !lookup_insert_ne by done.
Qed.

(** For the baseline itself only the mean error is written. *)
Lemma model_entries_Baseline df n cd k :
  k ≠ "mean_abs_error-Baseline" ->
  model_entries df n "Baseline" cd !! k = cd !! k.
Proof.
  intros Hk. unfold model_entries.
  rewrite lookup_insert_ne by done. by destruct (decide ("Baseline" ≠ "Baseline")).
Qed.

Section fold_entries.
Context (df : StatesFrame) (n : Z).

Lemma entries_unchanged cd0 ms k :
  (forall m cd, m ∈ ms -> model_entries df n m cd !! k = cd !! k) ->
  write_entries df n cd0 ms !! k = cd0 !! k.
Proof.
  unfold write_entries. revert cd0. induction ms as [|m ms IH]; intros cd0 Hk; [done|].
  cbn [foldl]. rewrite IH.
  - apply Hk. by left.
  - intros m' cd Hin. apply Hk. by right.
Qed.

Lemma entries_written cd0 ms m k v :
  m ∈ ms ->
  (forall cd, model_entries df n m cd !! k = Some v) ->
  (forall m' cd, m' ≠ m -> model_entries df n m' cd !! k = cd !! k) ->
  write_entries df n cd0 ms !! k = Some v.
Proof.
  unfold write_entries. intros Hin Hm Hother. revert cd0.
  induction ms as [|m' ms IH]; intros cd0; [by apply elem_of_nil in Hin|].
  cbn [foldl]. destruct (decide (m ∈ ms)) as [Hms|Hms]; [by apply IH|].
  apply elem_of_cons in Hin as [<-|Hin]; [|done].
  fold (write_entries df n (model_entries df n m cd0) ms).
  rewrite entries_unchanged; [apply Hm|].
  intros m' cd Hm'. apply Hother. by intros ->.
Qed.
End fold_entries.

Lemma baseline_col_data_entries (df_states : StatesFrame) (cd : gmap string value) :
  baseline_col_data df_states = Ok cd ->
  cd = write_entries (drop_US df_states) (num_states df_states)
         {["num_states" := Int (num_states df_states)]}
         (model_names (drop_US df_states)).
Proof. apply foldl_model_step_Ok. Qed.

Lemma col_data_mean_abs_error (df_states : StatesFrame) (cd : gmap string value) (m : string) :
  baseline_col_data df_states = Ok cd ->
  m ∈ model_names (drop_US df_states) ->
  cd !! ("mean_abs_error-" +:+ m)
  = Some (Float (if num_projections (drop_US df_states) m =? num_states df_states
                 then truediv (float_of_cell (abs_sum (drop_US df_states) ("error-" +:+ m)))
                        (num_states df_states)
                 else NaN)).
Proof.
  intros ->%baseline_col_data_entries Hm.
  apply (entries_written _ _ _ _ m); [done|apply model_entries_mean_abs_error|].
  intros m' cd Hne. apply model_entries_other; try discriminate.
  intros Heq. by apply (inj (String.app _)) in Heq.
Qed.

Lemma col_data_beat_baseline (df_states : StatesFrame) (cd : gmap string value) (m : string) :
  baseline_col_data df_states = Ok cd ->
  m ∈ model_names (drop_US df_states) ->
  m ≠ "Baseline" ->
  cd !! ("num_states_beat_baseline-" +:+ m)
  = Some (match abs_sum (drop_US df_states) ("beat_baseline-" +:+ m) with
          | Some q => Int (int_of q)
          | None => Float NaN
          end)
  /\ cd !! ("perc_beat_baseline-" +:+ m)
     = Some (match abs_sum (drop_US df_states) ("beat_baseline-" +:+ m) with
             | Some q => Float (truediv (Fin q) (num_projections (drop_US df_states) m))
             | None => Float NaN
             end).
Proof.
  intros ->%baseline_col_data_entries Hm HB.
  split.
  - apply (entries_written _ _ _ _ m); [done| |].
    + intros cd. by apply model_entries_beat.
    + intros m' cd Hne. apply model_entries_other; try discriminate.
      intros Heq. by apply (inj (String.app _)) in Heq.
  - apply (entries_written _ _ _ _ m); [done| |].
    + intros cd. by apply model_entries_beat.
    + intros m' cd Hne. apply model_entries_other; try discriminate.
      intros Heq. by apply (inj (String.app _)) in Heq.
Qed.

(** No model writes a count or a percentage under the name of the baseline. *)
Lemma col_data_no_Baseline_key (df_states : StatesFrame) (cd : gmap string value)
    (category : string) :
  category = "num_states_with_projections-" \/ category = "num_states_beat_baseline-"
  \/ category = "perc_beat_baseline-" ->
  baseline_col_data df_states = Ok cd ->
  cd !! (category +:+ "Baseline") = None.
Proof.
  intros Hcat ->%baseline_col_data_entries.
  rewrite entries_unchanged.
  - apply lookup_singleton_ne. destruct Hcat as [->|[->| ->]]; discriminate.
  - intros m cd _. destruct (decide (m = "Baseline")) as [->|Hm].
    + apply model_entries_Baseline. destruct Hcat as [->|[->| ->]]; discriminate.
    + destruct Hcat as [->|[->| ->]]; apply model_entries_other; try discriminate;
        intros Heq; by apply (inj (String.app _)) in Heq.
Qed.

Lemma abs_sum_Some_rows (df : StatesFrame) (c : string) (s : Qc) :
  abs_sum df c = Some s -> 0 < Z.of_nat (length (st_rows df)).
Proof.
  unfold abs_sum. destruct (st_rows df) as [|row rows]; [done|]. simpl; lia.
Qed.

Lemma is_ok_Ok {A} (r : result A) : is_ok r = true -> exists a, r = Ok a.
Proof. destruct r as [a|e]; [by exists a|done]. Qed.



Lemma model_step_returns (df : StatesFrame) (n : Z) (cd : gmap string value) (m : string) :
  m ∈ st_columns df ->
  (m ≠ "Baseline" -> "beat_baseline-" +:+ m ∈ st_columns df) ->
  "error-" +:+ m ∈ st_columns df ->
  model_step df n (Ok cd) m = Ok (model_entries df n m cd).
Proof.
  intros Hm Hbeat Herr. unfold model_step, model_entries, loc. cbn [mbind result_bind].
  rewrite (decide_True _ _ Hm). cbn [mbind result_bind].
  rewrite (decide_True _ _ Herr).
  destruct (decide (m ≠ "Baseline")) as [HB|HB].
  - rewrite (decide_True _ _ (Hbeat HB)). cbn [mbind result_bind].
    destruct (abs_sum df ("beat_baseline-" +:+ m)); cbn [mbind result_bind];
      by destruct (_ =? _).
  - cbn [mbind result_bind]. by destruct (_ =? _).
Qed.

(** The comparator returns for a file that has, for the baseline and for
    every model column, the derived columns the loop reads. *)
Lemma baseline_col_data_returns (df_states : StatesFrame) :
  (forall m, m ∈ model_names (drop_US df_states) ->
     m ∈ st_columns df_states
     /\ "error-" +:+ m ∈ st_columns df_states
     /\ (m ≠ "Baseline" -> "beat_baseline-" +:+ m ∈ st_columns df_states)) ->
  is_ok (baseline_col_data df_states) = true.
Proof.
  unfold baseline_col_data.
  generalize ({["num_states" := Int (Z.of_nat (length (st_rows (drop_US df_states))))]}
              : gmap string value).
  induction (model_names (drop_US df_states)) as [|m ms IH]; intros cd Hcols; [done|].
  cbn [foldl]. destruct (Hcols m) as (Hm & Herr & Hbeat); [by left|].
  rewrite model_step_returns by done.
  apply IH. intros m' Hm'. apply Hcols. by right.
Qed.

(** C7. For a model other than the baseline: when the sum over its
    [beat_baseline-] column is missing, [num_states_beat_baseline-<model>]
    and [perc_beat_baseline-<model>] are both NaN; when the sum is [q], the
    count is [int(q)] and the percentage is [q / num_with_projections]. *)
Theorem perc_beat_baseline_missing (df_states : StatesFrame) (cd : gmap string value)
    (m : string) :
  baseline_col_data df_states = Ok cd ->
  m ∈ model_names (drop_US df_states) ->
  m ≠ "Baseline" ->
  (abs_sum (drop_US df_states) ("beat_baseline-" +:+ m) = None ->
   cd !! ("num_states_beat_baseline-" +:+ m) = Some (Float NaN)
   /\ cd !! ("perc_beat_baseline-" +:+ m) = Some (Float NaN))
  /\ (forall q, abs_sum (drop_US df_states) ("beat_baseline-" +:+ m) = Some q ->
        cd !! ("num_states_beat_baseline-" +:+ m) = Some (Int (int_of q))
        /\ cd !! ("perc_beat_baseline-" +:+ m)
           = Some (Float (truediv (Fin q) (num_projections (drop_US df_states) m)))
        /\ (num_projections (drop_US df_states) m ≠ 0 ->
            cd !! ("perc_beat_baseline-" +:+ m)
            = Some (Float (Fin (q / Qc_of_Z (num_projections (drop_US df_states) m))%Qc)))).
Proof.
  intros Hcd Hm HB.
  destruct (col_data_beat_baseline _ _ _ Hcd Hm HB) as [Hnum Hperc].
  split.
  - intros Hsum. rewrite Hsum in Hnum, Hperc. done.
  - intros q Hsum. rewrite Hsum in Hnum, Hperc.
    split; [done|]. split; [done|].
    intros Hnz. rewrite Hperc. simpl.
    by destruct (Z.eqb_spec (num_projections (drop_US df_states) m) 0).
Qed.

Lemma perc_beat_baseline_missing_witness :
  (exists cd, baseline_col_data df_no_errors = Ok cd
     /\ cd !! "num_states_beat_baseline-YYG-ParamSearch" = Some (Float NaN)
     /\ cd !! "perc_beat_baseline-YYG-ParamSearch" = Some (Float NaN))
  /\ (exists cd q, baseline_col_data df_two_of_three = Ok cd
        /\ cd !! "num_states_beat_baseline-YYG-ParamSearch" = Some (Int 1)
        /\ cd !! "perc_beat_baseline-YYG-ParamSearch" = Some (Float (Fin q))
        /\ this q = (1 # 2)%Q).
Proof.
  split.
  - destruct (is_ok_Ok (baseline_col_data df_no_errors)) as [cd Hcd];
      [vm_compute; reflexivity|].
    exists cd. split; [exact Hcd|].
    apply (proj1 (perc_beat_baseline_missing df_no_errors cd "YYG-ParamSearch" Hcd
                    ltac:(vm_compute; repeat constructor) ltac:(discriminate))).
    vm_compute. reflexivity.
  - destruct (is_ok_Ok (baseline_col_data df_two_of_three)) as [cd Hcd];
      [vm_compute; reflexivity|].
    destruct (abs_sum (drop_US df_two_of_three) "beat_baseline-YYG-ParamSearch")
      as [s|] eqn:Hs; [|vm_compute in Hs; discriminate].
    destruct (proj2 (perc_beat_baseline_missing df_two_of_three cd "YYG-ParamSearch" Hcd
                       ltac:(vm_compute; repeat constructor) ltac:(discriminate))
                s Hs) as (Hnum & _ & Hperc).
    exists cd, (s / Qc_of_Z (num_projections (drop_US df_two_of_three) "YYG-ParamSearch"))%Qc.
    vm_compute in Hs. injection Hs as <-.
    split; [exact Hcd|]. split; [exact Hnum|].
    split; [apply Hperc; vm_compute; discriminate|].
    vm_compute. reflexivity.
Defined.

(** C10. In the [col_data] of a projections file the baseline has a
    [mean_abs_error-Baseline] entry and no entry under
    [num_states_with_projections-Baseline], [num_states_beat_baseline-Baseline]
    or [perc_beat_baseline-Baseline]. *)
Theorem Baseline_only_mean_abs_error (df_states : StatesFrame) (cd : gmap string value) :
  baseline_col_data df_states = Ok cd ->
  cd !! "num_states_with_projections-Baseline" = None
  /\ cd !! "num_states_beat_baseline-Baseline" = None
  /\ cd !! "perc_beat_baseline-Baseline" = None
  /\ is_Some (cd !! "mean_abs_error-Baseline").
Proof.
  intros Hcd. repeat split.
  - apply (col_data_no_Baseline_key df_states cd "num_states_with_projections-"); auto.
  - apply (col_data_no_Baseline_key df_states cd "num_states_beat_baseline-"); auto.
  - apply (col_data_no_Baseline_key df_states cd "perc_beat_baseline-"); auto.
  - eexists. apply (col_data_mean_abs_error df_states cd "Baseline" Hcd). by left.
Qed.

Lemma Baseline_only_mean_abs_error_witness :
  exists cd, baseline_col_data df_signed_errors = Ok cd
    /\ cd !! "num_states_with_projections-Baseline" = None
    /\ cd !! "num_states_beat_baseline-Baseline" = None
    /\ cd !! "perc_beat_baseline-Baseline" = None
    /\ is_Some (cd !! "mean_abs_error-Baseline").
Proof.
  destruct (is_ok_Ok (baseline_col_data df_signed_errors)) as [cd Hcd];
    [vm_compute; reflexivity|].
  exists cd. split; [exact Hcd|].
  exact (Baseline_only_mean_abs_error df_signed_errors cd Hcd).
Defined.

(** ** Table Merger: the assembled table *)

Lemma columns_assemble (d : gmap string (gmap string (option Qc))) :
  columns (assemble d) ≡ₚ (map_to_list d).*1.
Proof. apply merge_sort_Permutation. Qed.

Lemma elem_of_columns_assemble (d : gmap string (gmap string (option Qc))) (c : string) :
  c ∈ columns (assemble d) <-> is_Some (d !! c).
Proof.
  rewrite columns_assemble, list_elem_of_fmap. split.
  - intros [[c' s] [-> Hin]]. apply elem_of_map_to_list in Hin. by exists s.
  - intros [s Hs]. exists (c, s). split; [done|]. by apply elem_of_map_to_list.
Qed.

(** A cell with a value comes from the Series stored under its column. *)
Lemma cell_at_DataFrame_of_dict (d : gmap string (gmap string (option Qc)))
    (m c : string) (v : Qc) :
  cell_at (DataFrame_of_dict d) m c = Some v
  <-> exists s, d !! c = Some s /\ s !! m = Some (Some v).
Proof.
  simpl. split.
  - destruct (d !! c) as [s|]; simpl; [|done].
    destruct (s !! m) as [[w|]|] eqn:Hm; simpl; try done.
    intros [= ->]. by exists s.
  - intros (s & -> & Hm). simpl. by rewrite Hm.
Qed.

Lemma elem_of_index_DataFrame_of_dict (d : gmap string (gmap string (option Qc)))
    (m : string) :
  m ∈ index (DataFrame_of_dict d) <-> exists c s, d !! c = Some s /\ is_Some (s !! m).
Proof.
  simpl. unfold sorted. rewrite merge_sort_Permutation, elem_of_elements, elem_of_union_list.
  split.
  - intros (X & HX & Hm). apply list_elem_of_fmap in HX as (s & -> & Hs).
    apply list_elem_of_fmap in Hs as ([c s'] & -> & Hcs).
    apply elem_of_map_to_list in Hcs. exists c, s'. split; [done|].
    by apply elem_of_dom.
  - intros (c & s & Hc & Hm). exists (dom s). split; [|by apply elem_of_dom].
    apply list_elem_of_fmap. exists s. split; [done|].
    apply list_elem_of_fmap. exists (c, s). split; [done|].
    by apply elem_of_map_to_list.
Qed.

Lemma assemble_invariant (d : gmap string (gmap string (option Qc))) :
  wide_table_invariant (assemble d).
Proof.
  split; [apply Sorted_merge_sort; apply _|].
  split; [rewrite columns_assemble; apply NoDup_fst_map_to_list|].
  intros m. unfold assemble.
  change (index (reindex_columns ?df ?cols)) with (index df).
  change (cell_at (reindex_columns ?df ?cols)) with (cell_at df).
  change (columns (reindex_columns ?df ?cols)) with cols.
  unfold sorted. setoid_rewrite merge_sort_Permutation.
  cbn [dropna_all index columns cell_at].
  rewrite list_elem_of_filter, Exists_exists. split; [by intros [? _]|].
  intros (c & Hc & [v Hv]). split; [exists c; eauto|].
  apply cell_at_DataFrame_of_dict in Hv as (s & Hs & Hm).
  apply elem_of_index_DataFrame_of_dict. exists c, s. eauto.
Qed.

Lemma foldl_add_column_Raise prefix read (files : list column_file) (e : exn) :
  foldl (add_column prefix read) (Raise e) files = Raise e.
Proof. induction files as [|f files IH]; [done|apply IH]. Qed.

Lemma us_table_assemble (files : list column_file) (df : DataFrame) :
  us_table files = Ok df -> exists d, df = assemble d.
Proof.
  unfold us_table. destruct (assert _); [|done]. cbn [mbind result_bind].
  destruct (foldl _ _ files) as [d|]; [|done]. cbn [mbind result_bind].
  intros [= <-]. by exists d.
Qed.

Lemma states_table_assemble (abs_files sq_files : list column_file) (df : DataFrame) :
  states_table abs_files sq_files = Ok df -> exists d, df = assemble d.
Proof.
  unfold states_table.
  destruct (assert (0 <? Z.of_nat (length abs_files))); [|done]. cbn [mbind result_bind].
  destruct (assert (0 <? Z.of_nat (length sq_files))); [|done]. cbn [mbind result_bind].
  destruct (foldl _ _ abs_files) as [d0|]; [|done]. cbn [mbind result_bind].
  destruct (foldl _ _ sq_files) as [d|]; [|done]. cbn [mbind result_bind].
  intros [= <-]. by exists d.
Qed.


(** The branches return when they have a file and every file name parses. *)
Lemma foldl_add_column_returns prefix read (files : list column_file)
    (d0 : gmap string (gmap string (option Qc))) :
  Forall (fun f : column_file => is_ok (get_dates_from_fname f.1) = true) files ->
  is_ok (foldl (add_column prefix read) (Ok d0) files) = true.
Proof.
  intros Hall. revert d0.
  induction Hall as [|f files Hf _ IH]; intros d0; cbn [foldl]; [done|].
  unfold add_column at 2. cbn [mbind result_bind].
  destruct (get_dates_from_fname f.1) as [[p e]|err]; [|done].
  cbn [mbind result_bind]. apply IH.
Qed.

Lemma us_summary_returns (weeks_ahead : option Z) (files : list column_file) :
  files ≠ [] ->
  Forall (fun f : column_file => is_ok (get_dates_from_fname f.1) = true) files ->
  is_ok (us_summary weeks_ahead files) = true.
Proof.
  intros Hne Hall. unfold us_summary, us_table.
  destruct files as [|f files]; [done|]. cbn [length assert Z.ltb Z.of_nat Z.compare].
  cbn [mbind result_bind].
  pose proof (foldl_add_column_returns "perc_error_" percent (f :: files) ∅ Hall) as H.
  destruct (foldl _ _ (f :: files)); [done|discriminate].
Qed.

Lemma states_summary_returns (weeks_ahead : option Z) (abs_files sq_files : list column_file) :
  abs_files ≠ [] -> sq_files ≠ [] ->
  Forall (fun f : column_file => is_ok (get_dates_from_fname f.1) = true)
    (abs_files ++ sq_files) ->
  is_ok (states_summary weeks_ahead abs_files sq_files) = true.
Proof.
  intros Habs Hsq [Hall_abs Hall_sq]%Forall_app. unfold states_summary, states_table.
  destruct abs_files as [|f abs_files]; [done|].
  destruct sq_files as [|g sq_files]; [done|].
  cbn [length assert Z.ltb Z.of_nat Z.compare]. cbn [mbind result_bind].
  pose proof (foldl_add_column_returns "mean_abs_error_" id (f :: abs_files) ∅ Hall_abs) as H.
  destruct (foldl _ _ (f :: abs_files)) as [d0|]; [|discriminate].
  cbn [mbind result_bind].
  pose proof (foldl_add_column_returns "mean_sq_abs_error_" id (g :: sq_files) d0 Hall_sq)
    as H'.
  destruct (foldl _ _ (g :: sq_files)); [done|discriminate].
Qed.

(** C9. The table assembled by the national and by the state branch, before
    its rows are reordered, has its columns in lexicographic order (each
    label once), and has a row for a model exactly when a cell of the model
    has a value. *)
Theorem wide_tables_invariant :
  (forall us_errs_files df,
     us_table us_errs_files = Ok df -> wide_table_invariant df)
  /\ (forall states_abs_errs_files states_sq_errs_files df,
        states_table states_abs_errs_files states_sq_errs_files = Ok df ->
        wide_table_invariant df).
Proof.
  split.
  - intros files df [d ->]%us_table_assemble. apply assemble_invariant.
  - intros abs_files sq_files df [d ->]%states_table_assemble. apply assemble_invariant.
Qed.

Lemma wide_tables_invariant_witness :
  exists df, us_table us_errs_files_ex = Ok df
    /\ index df = ["A"; "B"; "D"]
    /\ columns df = ["perc_error_2020-11-01_2020-12-01"; "perc_error_2020-11-08_2020-12-08"]
    /\ wide_table_invariant df.
Proof.
  destruct (is_ok_Ok (us_table us_errs_files_ex)) as [df Hdf]; [vm_compute; reflexivity|].
  exists df. split; [exact Hdf|].
  split; [evaluate_with Hdf; reflexivity|].
  split; [evaluate_with Hdf; reflexivity|].
  exact (proj1 wide_tables_invariant us_errs_files_ex df Hdf).
Defined.

(** ** Table Merger: the ranking window *)

Lemma string_forallb_app (p : ascii -> bool) (s t : string) :
  string_forallb p (s +:+ t) = string_forallb p s && string_forallb p t.
Proof.
  induction s as [|c s IH]; [done|].
  change (String c s +:+ t) with (String c (s +:+ t)). simpl.
  by rewrite IH, andb_assoc.
Qed.

Lemma digit_char_is_digit (n : Z) : is_digit (digit_char n) = true.
Proof.
  unfold digit_char.
  assert (Z.to_nat (n mod 10) < 10)%nat as Hlt
    by (pose proof (Z.mod_pos_bound n 10); lia).
  destruct (Z.to_nat (n mod 10)) as [|k]; [done|].
  do 9 (destruct k as [|k]; [done|]). lia.
Qed.

Lemma isoformat_date_chars (d : date) : string_forallb is_date_char (isoformat d) = true.
Proof.
  unfold isoformat. rewrite !string_forallb_app.
  unfold pad4, pad2. cbn [string_forallb]. unfold is_date_char.
  rewrite !digit_char_is_digit. reflexivity.
Qed.

(** A pattern is not found in a string that lacks its first character. *)
Lemma contains_first_char (c : ascii) (pat s : string) :
  string_forallb (fun a => negb (Ascii.eqb a c)) s = true ->
  contains (String c pat) s = false.
Proof.
  induction s as [|a s IH]; [done|]. simpl.
  destruct (Ascii.eqb_spec a c) as [->|Hne]; simpl; [done|].
  intros Hs. rewrite (IH Hs).
  destruct (ascii_dec c a) as [->|_]; done.
Qed.

Lemma string_forallb_impl (p q : ascii -> bool) (s : string) :
  (forall c, p c = true -> q c = true) ->
  string_forallb p s = true -> string_forallb q s = true.
Proof.
  intros Hpq. induction s as [|c s IH]; [done|]. simpl.
  intros [Hc Hs]%andb_prop. by rewrite (Hpq c Hc), IH.
Qed.

Lemma dates_no_m (p e : date) :
  string_forallb (fun a => negb (Ascii.eqb a "m")) (isoformat p +:+ "_" +:+ isoformat e)
  = true.
Proof.
  apply (string_forallb_impl is_date_char).
  - intros c. unfold is_date_char, is_digit, in_range, code.
    destruct (Ascii.eqb_spec c "m") as [->|_]; done.
  - rewrite !string_forallb_app, !isoformat_date_chars. done.
Qed.

Lemma contains_perc_error (p e : date) :
  contains "perc_error" (column_label "perc_error_" p e) = true.
Proof. unfold column_label. by generalize (isoformat p +:+ "_" +:+ isoformat e). Qed.

Lemma contains_mean_abs_error (p e : date) :
  contains "mean_abs_error" (column_label "mean_abs_error_" p e) = true
  /\ String.prefix "mean_abs_error_" (column_label "mean_abs_error_" p e) = true.
Proof.
  unfold column_label. generalize (isoformat p +:+ "_" +:+ isoformat e).
  intros t. split; [reflexivity|by destruct t].
Qed.

Lemma contains_mean_sq_abs_error (p e : date) :
  contains "mean_abs_error" (column_label "mean_sq_abs_error_" p e) = false
  /\ String.prefix "mean_abs_error_" (column_label "mean_sq_abs_error_" p e) = false.
Proof.
  unfold column_label.
  split; [|generalize (isoformat p +:+ "_" +:+ isoformat e); intros t; reflexivity].
  pose proof (contains_first_char "m" "ean_abs_error" _ (dates_no_m p e)) as H.
  revert H. generalize (isoformat p +:+ "_" +:+ isoformat e). intros t Ht.
  etrans; [|exact Ht]. reflexivity.
Qed.

(** The keys of [col_to_data] after a loop are those before it and the
    labels of the loop. *)
Lemma foldl_add_column_keys prefix read (files : list column_file)
    (d0 d : gmap string (gmap string (option Qc))) (k : string) :
  foldl (add_column prefix read) (Ok d0) files = Ok d ->
  is_Some (d !! k) ->
  is_Some (d0 !! k) \/ exists p e, k = column_label prefix p e.
Proof.
  revert d0. induction files as [|f files IH]; intros d0; cbn [foldl].
  - intros [= ->]. by left.
  - unfold add_column at 2. cbn [mbind result_bind].
    destruct (get_dates_from_fname f.1) as [[p e]|err]; cbn [mbind result_bind].
    + intros Hd Hk. destruct (IH _ Hd Hk) as [Hin|Hlabel]; [|by right].
      destruct (decide (column_label prefix p e = k)) as [<-|Hne]; [right; eauto|].
      left. by rewrite lookup_insert_ne in Hin.
    + by rewrite foldl_add_column_Raise.
Qed.

Lemma us_table_columns (files : list column_file) (df : DataFrame) (c : string) :
  us_table files = Ok df -> c ∈ columns df -> exists p e, c = column_label "perc_error_" p e.
Proof.
  unfold us_table. destruct (assert _); [|done]. cbn [mbind result_bind].
  destruct (foldl _ _ files) as [d|] eqn:Hd; [|done]. cbn [mbind result_bind].
  intros [= <-] Hc%elem_of_columns_assemble.
  destruct (foldl_add_column_keys _ _ _ _ _ _ Hd Hc) as [Hin|Hlabel]; [|done].
  rewrite lookup_empty in Hin. by destruct Hin.
Qed.

Lemma states_table_columns (abs_files sq_files : list column_file) (df : DataFrame)
    (c : string) :
  states_table abs_files sq_files = Ok df -> c ∈ columns df ->
  (exists p e, c = column_label "mean_abs_error_" p e)
  \/ (exists p e, c = column_label "mean_sq_abs_error_" p e).
Proof.
  unfold states_table.
  destruct (assert (0 <? Z.of_nat (length abs_files))); [|done]. cbn [mbind result_bind].
  destruct (assert (0 <? Z.of_nat (length sq_files))); [|done]. cbn [mbind result_bind].
  destruct (foldl _ _ abs_files) as [d0|] eqn:Hd0; [|done]. cbn [mbind result_bind].
  destruct (foldl _ _ sq_files) as [d|] eqn:Hd; [|done]. cbn [mbind result_bind].
  intros [= <-] Hc%elem_of_columns_assemble.
  destruct (foldl_add_column_keys _ _ _ _ _ _ Hd Hc) as [Hin|Hlabel]; [|by right].
  destruct (foldl_add_column_keys _ _ _ _ _ _ Hd0 Hin) as [Hin0|Hlabel]; [|by left].
  rewrite lookup_empty in Hin0. by destruct Hin0.
Qed.

Lemma filter_ext_elem_of {A} (f g : A -> bool) (l : list A) :
  (forall x, x ∈ l -> f x = g x) -> List.filter f l = List.filter g l.
Proof.
  intros H. apply filter_ext_in. intros x Hx. apply H. by apply list_elem_of_In.
Qed.

Lemma filter_all {A} (f : A -> bool) (l : list A) :
  (forall x, x ∈ l -> f x = true) -> List.filter f l = l.
Proof.
  induction l as [|x l IH]; intros H; [done|]. simpl.
  rewrite (H x) by left. f_equal. apply IH. intros y Hy. apply H. by right.
Qed.

(** C3, as stated, fails for the state branch: the table also has the
    columns of the squared errors, which are never ranking columns. *)
Lemma ranking_window_claim_fails :
  exists df, states_table states_abs_errs_files_ex states_sq_errs_files_ex = Ok df
    /\ ~ ranking_window_claim "mean_abs_error" (Some 4) df
    /\ ~ ranking_window_claim "mean_abs_error" None df.
Proof.
  destruct (is_ok_Ok (states_table states_abs_errs_files_ex states_sq_errs_files_ex))
    as [df Hdf]; [vm_compute; reflexivity|].
  exists df. split; [exact Hdf|].
  unfold ranking_window_claim.
  split; intros Hclaim; apply (f_equal length) in Hclaim; revert Hclaim;
    evaluate_with Hdf; discriminate.
Qed.

(** C3, amended. In the national branch the ranking columns are all the
    columns of the table when [weeks_ahead] is set, and its last six columns
    otherwise. In the state branch every column holds absolute or squared
    errors, and the ranking columns are the columns of the absolute errors
    when [weeks_ahead] is set, and the last six of those otherwise. *)
Theorem ranking_window_columns (weeks_ahead : option Z) :
  (forall us_errs_files df,
     us_table us_errs_files = Ok df ->
     ranking_window "perc_error" weeks_ahead df
     = if truthy_int weeks_ahead then columns df else last_n 6 (columns df))
  /\ (forall states_abs_errs_files states_sq_errs_files df,
        states_table states_abs_errs_files states_sq_errs_files = Ok df ->
        (forall c, c ∈ columns df ->
           String.prefix "mean_abs_error_" c = negb (String.prefix "mean_sq_abs_error_" c))
        /\ ranking_window "mean_abs_error" weeks_ahead df
           = if truthy_int weeks_ahead then absolute_error_columns df
             else last_n 6 (absolute_error_columns df)).
Proof.
  split.
  - intros files df Hdf. unfold ranking_window, cols_for_ranking.
    rewrite filter_all; [done|].
    intros c Hc. destruct (us_table_columns _ _ _ Hdf Hc) as (p & e & ->).
    apply contains_perc_error.
  - intros abs_files sq_files df Hdf. split.
    + intros c Hc.
      destruct (states_table_columns _ _ _ _ Hdf Hc) as [(p & e & ->)|(p & e & ->)].
      * rewrite (proj2 (contains_mean_abs_error p e)). unfold column_label.
        by generalize (isoformat p +:+ "_" +:+ isoformat e).
      * rewrite (proj2 (contains_mean_sq_abs_error p e)). unfold column_label.
        generalize (isoformat p +:+ "_" +:+ isoformat e). intros t. by destruct t.
    + unfold ranking_window, cols_for_ranking, absolute_error_columns.
      rewrite (filter_ext_elem_of (contains "mean_abs_error")
                 (String.prefix "mean_abs_error_")); [done|].
      intros c Hc.
      destruct (states_table_columns _ _ _ _ Hdf Hc) as [(p & e & ->)|(p & e & ->)].
      * destruct (contains_mean_abs_error p e) as [-> ->]. done.
      * destruct (contains_mean_sq_abs_error p e) as [-> ->]. done.
Qed.

Lemma ranking_window_columns_witness :
  (exists df, us_table us_errs_files_ex = Ok df
     /\ ranking_window "perc_error" (Some 4) df = columns df)
  /\ (exists df, states_table states_abs_errs_files_ex states_sq_errs_files_ex = Ok df
        /\ ranking_window "mean_abs_error" None df
           = last_n 6 (absolute_error_columns df)).
Proof.
  split.
  - destruct (is_ok_Ok (us_table us_errs_files_ex)) as [df Hdf]; [vm_compute; reflexivity|].
    exists df. split; [exact Hdf|].
    exact (proj1 (ranking_window_columns (Some 4)) us_errs_files_ex df Hdf).
  - destruct (is_ok_Ok (states_table states_abs_errs_files_ex states_sq_errs_files_ex))
      as [df Hdf]; [vm_compute; reflexivity|].
    exists df. split; [exact Hdf|].
    exact (proj2 (proj2 (ranking_window_columns None) _ _ df Hdf)).
Defined.

(** ** Table Merger: ranks and their fill value *)

Lemma Qc_max_ge_l (x y : Qc) : (x ≤ Qc_max x y)%Qc.
Proof. unfold Qc_max. destruct (decide (x ≤ y)%Qc); [done|reflexivity]. Qed.

Lemma Qc_max_ge_r (x y : Qc) : (y ≤ Qc_max x y)%Qc.
Proof.
  unfold Qc_max. destruct (decide (x ≤ y)%Qc) as [|Hn]; [reflexivity|].
  apply Qclt_le_weak. by apply Qclt_nge.
Qed.

Lemma Qc_max_cases (x y : Qc) : Qc_max x y = x \/ Qc_max x y = y.
Proof. unfold Qc_max. destruct (decide (x ≤ y)%Qc); auto. Qed.

Lemma foldl_Qc_max (x : Qc) (l : list Qc) :
  foldl Qc_max x l ∈ x :: l
  /\ forall y, y ∈ x :: l -> (y ≤ foldl Qc_max x l)%Qc.
Proof.
  revert x. induction l as [|z l IH]; intros x; cbn [foldl].
  - split; [by left|]. intros y ->%list_elem_of_singleton. reflexivity.
  - destruct (IH (Qc_max x z)) as [Hin Hle]. split.
    + apply elem_of_cons in Hin as [->|Hin]; [|by do 2 right].
      destruct (Qc_max_cases x z) as [-> | ->]; [by left|by right; left].
    + intros y Hy.
      assert (Qc_max x z ≤ foldl Qc_max (Qc_max x z) l)%Qc as Hm by (apply Hle; by left).
      apply elem_of_cons in Hy as [->|Hy].
      { etrans; [apply Qc_max_ge_l|exact Hm]. }
      apply elem_of_cons in Hy as [->|Hy].
      { etrans; [apply Qc_max_ge_r|exact Hm]. }
      apply Hle. by right.
Qed.

(** [max_list] is the greatest element of a list that has one. *)
Lemma max_list_Some (l : list Qc) (m : Qc) :
  max_list l = Some m -> m ∈ l /\ forall y, y ∈ l -> (y ≤ m)%Qc.
Proof.
  destruct l as [|x l]; [done|]. intros [= <-]. apply foldl_Qc_max.
Qed.

Lemma max_list_is_Some (l : list Qc) (x : Qc) : x ∈ l -> is_Some (max_list l).
Proof. destruct l; [by intros ?%elem_of_nil|by eexists]. Qed.

Lemma max_list_Permutation (l1 l2 : list Qc) : l1 ≡ₚ l2 -> max_list l1 = max_list l2.
Proof.
  intros Hperm.
  destruct (max_list l1) as [m1|] eqn:H1, (max_list l2) as [m2|] eqn:H2.
  - apply max_list_Some in H1 as [Hin1 Hle1]. apply max_list_Some in H2 as [Hin2 Hle2].
    f_equal. apply (anti_symm Qcle).
    + apply Hle2. by rewrite <- Hperm.
    + apply Hle1. by rewrite Hperm.
  - apply max_list_Some in H1 as [Hin1 _]. rewrite Hperm in Hin1.
    destruct (max_list_is_Some _ _ Hin1) as [? ?]. congruence.
  - apply max_list_Some in H2 as [Hin2 _]. rewrite <- Hperm in Hin2.
    destruct (max_list_is_Some _ _ Hin2) as [? ?]. congruence.
  - done.
Qed.

Lemma rank_of_Permutation (l1 l2 : list Qc) (v : Qc) :
  l1 ≡ₚ l2 -> rank_of l1 v = rank_of l2 v.
Proof. intros Hperm. unfold rank_of, count. by rewrite Hperm. Qed.

Lemma Qclt_succ (x : Qc) : (x < x + 1)%Qc.
Proof.
  rewrite <- (Qcplus_0_r x) at 1. by apply Qcplus_lt_mono_l.
Qed.

(** An observed rank of a column is one of its values. *)
Lemma observed_rank_in_column (df : DataFrame) (r c : string) (v : Qc) :
  r ∈ index df -> cell_at df r c = Some v -> v ∈ col_values df c.
Proof. intros Hr Hv. apply list_elem_of_omap. eauto. Qed.

(** C1. For a cell without a value, the filled rank is the greatest observed
    rank of the same column plus 1 (NaN when the column has no value at
    all); that greatest rank is the rank of some row of the column, and the
    filled rank is strictly above the rank of every row that has a value,
    which the fill leaves as it is. *)
Theorem filled_rank_is_worst (df : DataFrame) (r c : string) :
  cell_at df r c = None ->
  cell_at (filled_ranks df) r c = (fun m => (m + 1)%Qc) <$> max (rank (abs df)) c
  /\ (forall m, max (rank (abs df)) c = Some m ->
        exists r', r' ∈ index df /\ cell_at (rank (abs df)) r' c = Some m)
  /\ (forall r' v, r' ∈ index df -> cell_at (rank (abs df)) r' c = Some v ->
        cell_at (filled_ranks df) r' c = Some v
        /\ exists m, max (rank (abs df)) c = Some m
             /\ (v ≤ m)%Qc
             /\ cell_at (filled_ranks df) r c = Some (m + 1)%Qc
             /\ (v < m + 1)%Qc).
Proof.
  intros Hnan.
  assert (cell_at (filled_ranks df) r c
          = (fun m => (m + 1)%Qc) <$> max (rank (abs df)) c) as Hfill.
  { unfold filled_ranks, max_rank. cbn [fillna rank abs cell_at]. by rewrite Hnan. }
  split; [exact Hfill|]. split.
  - intros m [Hin _]%max_list_Some.
    apply list_elem_of_omap in Hin as (r' & Hr' & Hm). eauto.
  - intros r' v Hr' Hv. split.
    + unfold filled_ranks. cbn [fillna cell_at]. by rewrite Hv.
    + pose proof (observed_rank_in_column (rank (abs df)) _ _ _ Hr' Hv) as Hin.
      destruct (max_list_is_Some _ _ Hin) as [m Hm].
      destruct (max_list_Some _ _ Hm) as [_ Hle].
      exists m. split; [exact Hm|]. split; [by apply Hle|].
      split.
      * rewrite Hfill. unfold max. by rewrite Hm.
      * eapply Qcle_lt_trans; [by apply Hle|apply Qclt_succ].
Qed.

Lemma filled_rank_is_worst_witness :
  exists df, us_table us_errs_files_ex = Ok df
    /\ this <$> max (rank (abs df)) "perc_error_2020-11-08_2020-12-08" = Some 2%Q
    /\ this <$> cell_at (filled_ranks df) "D" "perc_error_2020-11-08_2020-12-08"
       = Some 3%Q.
Proof.
  destruct (is_ok_Ok (us_table us_errs_files_ex)) as [df Hdf]; [vm_compute; reflexivity|].
  exists df. split; [exact Hdf|].
  split; [evaluate_with Hdf; reflexivity|].
  rewrite (proj1 (filled_rank_is_worst df "D" "perc_error_2020-11-08_2020-12-08"
                    ltac:(evaluate_with Hdf; reflexivity))).
  evaluate_with Hdf. reflexivity.
Defined.

(** ** Table Merger: the order of the rows *)

Lemma nan_last_le_refl (a : option Qc) : nan_last_le a a.
Proof. destruct a; simpl; [reflexivity|done]. Qed.

#[export] Instance by_value_total : Total by_value.
Proof.
  intros [r1 [x|]] [r2 [y|]]; unfold by_value; simpl; auto.
  apply (total Qcle).
Qed.

#[export] Instance by_value_trans : Transitive by_value.
Proof.
  intros [r1 [x|]] [r2 [y|]] [r3 [z|]]; unfold by_value; simpl; try done.
  apply Qcle_trans.
Qed.

Section stable_sort.
Context {A} (R : relation A) `{forall x y, Decision (R x y)}.

Lemma insert_sorted_Permutation (x : A) (l : list A) : insert_sorted R x l ≡ₚ x :: l.
Proof.
  induction l as [|y l IH]; simpl; [done|].
  destruct (decide (R x y)); [done|]. by rewrite IH, Permutation_swap.
Qed.

Lemma stable_sort_Permutation (l : list A) : stable_sort R l ≡ₚ l.
Proof.
  induction l as [|x l IH]; simpl; [done|].
  by rewrite insert_sorted_Permutation, IH.
Qed.

Lemma insert_sorted_StronglySorted `{!Transitive R, !Total R} (x : A) (l : list A) :
  StronglySorted R l -> StronglySorted R (insert_sorted R x l).
Proof.
  induction 1 as [|y l Hl IH Hy]; simpl; [repeat constructor|].
  destruct (decide (R x y)) as [Hxy|Hxy].
  - constructor; [by constructor|]. constructor; [done|].
    eapply Forall_impl; [exact Hy|]. intros z Hz. by trans y.
  - constructor; [done|]. rewrite insert_sorted_Permutation.
    constructor; [|done]. by destruct (total R x y).
Qed.

Lemma stable_sort_StronglySorted `{!Transitive R, !Total R} (l : list A) :
  StronglySorted R (stable_sort R l).
Proof.
  induction l as [|x l IH]; simpl; [constructor|].
  by apply insert_sorted_StronglySorted.
Qed.

End stable_sort.

Lemma sort_values_index_Permutation (idx : list string) (s : string -> option Qc) :
  sort_values_index idx s ≡ₚ idx.
Proof.
  unfold sort_values_index. rewrite stable_sort_Permutation, <- list_fmap_compose.
  by rewrite list_fmap_id.
Qed.

Lemma StronglySorted_fst (s : string -> option Qc) (l : list (string * option Qc)) :
  Forall (fun p => p.2 = s p.1) l ->
  StronglySorted by_value l ->
  StronglySorted (fun r1 r2 => nan_last_le (s r1) (s r2)) l.*1.
Proof.
  intros Hl Hsorted. induction Hsorted as [|p l Hs IH Hp]; csimpl; [constructor|].
  apply Forall_cons in Hl as [Hpv Hl]. constructor; [by apply IH|].
  rewrite Forall_fmap. rewrite Forall_forall in Hl, Hp. apply Forall_forall.
  intros q Hq. simpl. rewrite <- Hpv, <- (Hl q Hq). by apply Hp.
Qed.

Lemma sort_values_index_sorted (idx : list string) (s : string -> option Qc) :
  StronglySorted (fun r1 r2 => nan_last_le (s r1) (s r2)) (sort_values_index idx s).
Proof.
  unfold sort_values_index. apply StronglySorted_fst.
  - rewrite stable_sort_Permutation. apply Forall_fmap. by apply Forall_true.
  - apply stable_sort_StronglySorted; apply _.
Qed.

Lemma omap_ext_elem_of {A B} (f g : A -> option B) (l : list A) :
  (forall x, x ∈ l -> f x = g x) -> omap f l = omap g l.
Proof.
  induction l as [|x l IH]; intros H; [done|]. csimpl.
  rewrite (H x) by left. rewrite IH; [done|]. intros y Hy. apply H. by right.
Qed.

(** The ranks, their fill value and the mean rank depend on the rows of a
    table, not on their order. *)
Lemma col_values_reindex (df : DataFrame) (idx : list string) (c : string) :
  idx ≡ₚ index df -> col_values (reindex df idx) c ≡ₚ col_values df c.
Proof. intros Hperm. unfold col_values. cbn [reindex index cell_at]. by rewrite Hperm. Qed.

Lemma rank_abs_reindex (df : DataFrame) (idx : list string) (r c : string) :
  idx ≡ₚ index df ->
  cell_at (rank (abs (reindex df idx))) r c = cell_at (rank (abs df)) r c.
Proof.
  intros Hperm. cbn [rank abs reindex cell_at index columns].
  destruct (cell_at df r c) as [v|]; [|done]. simpl. f_equal.
  apply rank_of_Permutation. unfold col_values.
  change (index (abs (reindex df idx))) with idx.
  change (index (abs df)) with (index df).
  by rewrite Hperm.
Qed.

Lemma max_rank_reindex (df : DataFrame) (idx : list string) (c : string) :
  idx ≡ₚ index df -> max_rank (reindex df idx) c = max_rank df c.
Proof.
  intros Hperm. unfold max_rank, max. f_equal.
  apply max_list_Permutation. unfold col_values.
  change (index (rank (abs (reindex df idx)))) with idx.
  change (index (rank (abs df))) with (index df).
  rewrite Hperm.
  rewrite (omap_ext_elem_of _ (fun r => cell_at (rank (abs df)) r c)); [done|].
  intros r _. by apply rank_abs_reindex.
Qed.

Lemma filled_ranks_reindex (df : DataFrame) (idx : list string) (r c : string) :
  idx ≡ₚ index df ->
  cell_at (filled_ranks (reindex df idx)) r c = cell_at (filled_ranks df) r c.
Proof.
  intros Hperm. unfold filled_ranks.
  change (cell_at (fillna ?d ?v) r c)
    with (match cell_at d r c with Some x => Some x | None => v c end).
  by rewrite rank_abs_reindex, max_rank_reindex.
Qed.

Lemma mean_rank_reindex (metric : string) (weeks_ahead : option Z) (df : DataFrame)
    (idx : list string) (r : string) :
  idx ≡ₚ index df ->
  mean_rank metric weeks_ahead (reindex df idx) r = mean_rank metric weeks_ahead df r.
Proof.
  intros Hperm. unfold mean_rank, mean_axis1.
  change (columns (select ?d ?cols)) with cols.
  change (cell_at (select ?d ?cols)) with (cell_at d).
  change (ranking_window metric weeks_ahead (reindex df idx))
    with (ranking_window metric weeks_ahead df).
  f_equal. apply omap_ext_elem_of. intros c _. by apply filled_ranks_reindex.
Qed.

Lemma us_summary_reorder (weeks_ahead : option Z) (files : list column_file)
    (out : DataFrame) :
  us_summary weeks_ahead files = Ok out ->
  exists df, us_table files = Ok df
    /\ out = reorder_by_mean_rank "perc_error" weeks_ahead df.
Proof.
  unfold us_summary. destruct (us_table files) as [df|]; [|done].
  cbn [mbind result_bind]. intros [= <-]. by exists df.
Qed.

Lemma states_summary_reorder (weeks_ahead : option Z) (abs_files sq_files : list column_file)
    (out : DataFrame) :
  states_summary weeks_ahead abs_files sq_files = Ok out ->
  exists df, states_table abs_files sq_files = Ok df
    /\ out = reorder_by_mean_rank "mean_abs_error" weeks_ahead df.
Proof.
  unfold states_summary. destruct (states_table abs_files sq_files) as [df|]; [|done].
  cbn [mbind result_bind]. intros [= <-]. by exists df.
Qed.

(** ** Dates and their text *)

Lemma digit_val_digit_char (n : Z) : digit_val (digit_char n) = n mod 10.
Proof.
  unfold digit_val, digit_char, code.
  assert (Z.to_nat (n mod 10) < 10)%nat as Hlt
    by (pose proof (Z.mod_pos_bound n 10); lia).
  rewrite nat_ascii_embedding by lia.
  pose proof (Z.mod_pos_bound n 10). lia.
Qed.

Lemma isoformat_chars (d : date) :
  isoformat d =
  pad4 (year d) +:+ String "-" (pad2 (month d) +:+ String "-" (pad2 (day d))).
Proof. reflexivity. Qed.

Lemma match_year_pad4 (y : Z) (rest : string) :
  0 <= y <= 9999 -> match_year (pad4 y +:+ rest) = Some (y, rest).
Proof.
  intros Hy. unfold pad4, pad2.
  change (match_year (String (digit_char (y / 1000)) (String (digit_char (y / 100))
            (String (digit_char (y / 10)) (String (digit_char y) rest))))
          = Some (y, rest)).
  unfold match_year. rewrite !digit_char_is_digit, !digit_val_digit_char.
  cbn [andb]. do 2 f_equal.
  replace (y / 1000) with (y / 10 / 10 / 10) by (rewrite !Z.div_div by lia; reflexivity).
  replace (y / 100) with (y / 10 / 10) by (rewrite !Z.div_div by lia; reflexivity).
  assert (y / 10 / 10 / 10 < 10) as Hc
    by (rewrite !Z.div_div by lia; apply Z.div_lt_upper_bound; lia).
  assert (0 <= y / 10 / 10 / 10) as Hc0 by (repeat apply Z.div_pos; lia).
  rewrite (Z.mod_small (y / 10 / 10 / 10)) by lia.
  pose proof (Z.div_mod y 10 ltac:(lia)).
  pose proof (Z.div_mod (y / 10) 10 ltac:(lia)).
  pose proof (Z.div_mod (y / 10 / 10) 10 ltac:(lia)). lia.
Qed.

Lemma match_month_pad2 (m : Z) (rest : string) :
  1 <= m <= 12 -> match_month (pad2 m +:+ rest) = Some (m, rest).
Proof.
  intros Hm.
  assert (exists k : nat, m = Z.of_nat k /\ (k < 13)%nat) as (k & -> & Hk)
    by (exists (Z.to_nat m); lia).
  destruct k as [|k]; [lia|].
  do 12 (destruct k as [|k]; [reflexivity|]). lia.
Qed.

Lemma match_day_pad2 (d : Z) (rest : string) :
  1 <= d <= 31 -> match_day (pad2 d +:+ rest) = Some (d, rest).
Proof.
  intros Hd.
  assert (exists k : nat, d = Z.of_nat k /\ (k < 32)%nat) as (k & -> & Hk)
    by (exists (Z.to_nat d); lia).
  destruct k as [|k]; [lia|].
  do 31 (destruct k as [|k]; [reflexivity|]). lia.
Qed.

Lemma days_in_month_le_31 (y m : Z) : days_in_month y m <= 31.
Proof.
  unfold days_in_month. destruct (_ && _); [lia|].
  destruct (Z.to_nat m) as [|k]; [simpl; lia|].
  do 12 (destruct k as [|k]; [simpl; lia|]). destruct k; simpl; lia.
Qed.

Lemma valid_ymd_bounds (y m d : Z) :
  valid_ymd y m d = true ->
  1 <= y <= 9999 /\ 1 <= m <= 12 /\ 1 <= d <= days_in_month y m.
Proof. unfold valid_ymd. lia. Qed.

Lemma match_ymd_isoformat (d : date) :
  valid_ymd (year d) (month d) (day d) = true ->
  match_ymd (isoformat d) = Some (year d, month d, day d).
Proof.
  intros (Hy & Hm & Hd)%valid_ymd_bounds.
  pose proof (days_in_month_le_31 (year d) (month d)).
  rewrite isoformat_chars. unfold match_ymd.
  rewrite match_year_pad4 by lia. cbn [mbind option_bind match_dash Ascii.eqb Bool.eqb].
  rewrite match_month_pad2 by lia. cbn [mbind option_bind match_dash Ascii.eqb Bool.eqb].
  change (pad2 (day d)) with (pad2 (day d) +:+ "").
  by rewrite match_day_pad2 by lia.
Qed.

Lemma str_to_date_isoformat (d : date) :
  valid_ymd (year d) (month d) (day d) = true -> str_to_date (isoformat d) = Ok d.
Proof.
  intros Hd. unfold str_to_date, strptime_date, make_date.
  rewrite (match_ymd_isoformat d Hd), Hd. by destruct d.
Qed.

Lemma str_to_date_valid (s : string) (d : date) :
  str_to_date s = Ok d -> valid_ymd (year d) (month d) (day d) = true.
Proof.
  unfold str_to_date, strptime_date, make_date.
  destruct (match_ymd s) as [[[y m] dd]|]; [|done].
  destruct (valid_ymd y m dd) eqn:Hv; [|done]. by intros [= <-].
Qed.

(** *** Ordinals *)

Lemma days_before_year_succ (y : Z) :
  days_before_year (y + 1) = days_before_year y + 365 + (if is_leap y then 1 else 0).
Proof.
  unfold days_before_year, is_leap. cbn zeta.
  replace (y + 1 - 1) with y by lia.
  destruct (Z.eqb_spec (y mod 4) 0), (Z.eqb_spec (y mod 100) 0),
    (Z.eqb_spec (y mod 400) 0); cbn [negb andb orb];
    Z.div_mod_to_equations; lia.
Qed.

Lemma days_before_year_mono (a b : Z) : a <= b -> days_before_year a <= days_before_year b.
Proof. unfold days_before_year. cbn zeta. intros. Z.div_mod_to_equations. lia. Qed.

(** A date of a year lies within the days of that year. *)
Lemma day_of_year_bounds (y m d : Z) :
  valid_ymd y m d = true ->
  1 <= days_before_month y m + d <= 365 + (if is_leap y then 1 else 0).
Proof.
  intros (_ & Hm & Hd)%valid_ymd_bounds. revert Hd.
  unfold days_before_month, days_in_month.
  assert (exists k : nat, m = Z.of_nat k /\ (k < 13)%nat) as (k & -> & Hk)
    by (exists (Z.to_nat m); lia).
  rewrite Nat2Z.id.
  destruct k as [|k]; [lia|].
  do 12 (destruct k as [|k]; [destruct (is_leap y); simpl; lia|]). lia.
Qed.

Lemma days_before_month_step (y m1 m2 d : Z) :
  valid_ymd y m1 d = true -> m1 < m2 <= 12 ->
  days_before_month y m1 + d <= days_before_month y m2.
Proof.
  intros (_ & Hm & Hd)%valid_ymd_bounds Hlt. revert Hd.
  unfold days_before_month, days_in_month.
  assert (exists k : nat, m1 = Z.of_nat k /\ (k < 12)%nat) as (k & -> & Hk)
    by (exists (Z.to_nat m1); lia).
  assert (exists j : nat, m2 = Z.of_nat j /\ (k < j < 13)%nat) as (j & -> & Hj)
    by (exists (Z.to_nat m2); lia).
  rewrite !Nat2Z.id.
  destruct k as [|k]; [lia|].
  do 11 (destruct k as [|k];
         [do 13 (destruct j as [|j]; [try lia; destruct (is_leap y); simpl; lia|]); lia|]).
  lia.
Qed.

Lemma toordinal_lt (a b : date) :
  valid_ymd (year a) (month a) (day a) = true ->
  valid_ymd (year b) (month b) (day b) = true ->
  date_lt a b -> toordinal a < toordinal b.
Proof.
  intros Ha Hb Hlt. unfold toordinal.
  pose proof (day_of_year_bounds _ _ _ Ha) as Hda.
  pose proof (day_of_year_bounds _ _ _ Hb) as Hdb.
  destruct Hlt as [Hy|[Hy [Hm|[Hm Hd]]]].
  - pose proof (days_before_year_succ (year a)) as Hs.
    pose proof (days_before_year_mono (year a + 1) (year b) ltac:(lia)). lia.
  - rewrite Hy in *.
    pose proof (days_before_month_step (year b) (month a) (month b) (day a) Ha) as Hs.
    apply valid_ymd_bounds in Hb. lia.
  - rewrite Hy, Hm. lia.
Qed.


(** ** File names *)

Lemma string_app_assoc (s t u : string) : (s +:+ t) +:+ u = s +:+ (t +:+ u).
Proof.
  induction s as [|c s IH]; [done|].
  change (String c ((s +:+ t) +:+ u) = String c (s +:+ (t +:+ u))). by rewrite IH.
Qed.

Lemma string_app_nil_r (s : string) : s +:+ "" = s.
Proof.
  induction s as [|c s IH]; [done|].
  change (String c (s +:+ "") = String c s). by rewrite IH.
Qed.

Lemma string_app_length (s t : string) :
  String.length (s +:+ t) = (String.length s + String.length t)%nat.
Proof.
  induction s as [|c s IH]; [done|].
  change (S (String.length (s +:+ t)) = S (String.length s + String.length t)).
  by rewrite IH.
Qed.

Lemma lacks_cons (c a : ascii) (s : string) :
  lacks c (String a s) <-> a <> c /\ lacks c s.
Proof.
  unfold lacks. simpl. rewrite andb_true_iff, negb_true_iff.
  by destruct (Ascii.eqb_spec a c); split; intros []; try done.
Qed.

Lemma lacks_app (c : ascii) (s t : string) : lacks c (s +:+ t) <-> lacks c s /\ lacks c t.
Proof. unfold lacks. rewrite string_forallb_app, andb_true_iff. done. Qed.

Lemma rfind_succ_lacks (c : ascii) (s : string) (i acc : nat) :
  lacks c s -> rfind_succ c s i acc = acc.
Proof.
  revert i. induction s as [|a s IH]; intros i; [done|].
  intros [Ha Hs]%lacks_cons. simpl.
  destruct (Ascii.eqb_spec a c); [done|]. by apply IH.
Qed.

Lemma rfind_succ_app (c : ascii) (s t : string) (i acc : nat) :
  rfind_succ c (s +:+ t) i acc
  = rfind_succ c t (i + String.length s) (rfind_succ c s i acc).
Proof.
  revert i acc. induction s as [|a s IH]; intros i acc.
  - simpl. by rewrite Nat.add_0_r.
  - change (String a s +:+ t) with (String a (s +:+ t)). simpl.
    rewrite IH. f_equal. lia.
Qed.

Lemma drop_str_app (s t : string) : drop_str (String.length s) (s +:+ t) = t.
Proof. induction s as [|a s IH]; [by destruct t|apply IH]. Qed.

Lemma basename_lacks (name : string) : lacks "/" name -> basename name = name.
Proof. intros H. unfold basename. by rewrite rfind_succ_lacks. Qed.

Lemma basename_dir (dir name : string) :
  lacks "/" name -> basename (dir +:+ "/" +:+ name) = name.
Proof.
  intros H. unfold basename.
  rewrite rfind_succ_app.
  change ("/" +:+ name) with (String "/" name). cbn [rfind_succ Ascii.eqb Bool.eqb].
  rewrite (rfind_succ_lacks _ _ _ _ H).
  change (String "/" name) with ("/" +:+ name).
  rewrite <- string_app_assoc.
  replace (S (0 + String.length dir)) with (String.length (dir +:+ "/"))
    by (rewrite string_app_length; simpl; lia).
  apply drop_str_app.
Qed.

Lemma remove_go_lacks (s t : string) :
  lacks "." s -> remove_go ".csv" 0 (s +:+ t) = s +:+ remove_go ".csv" 0 t.
Proof.
  induction s as [|a s IH]; [done|].
  intros [Ha Hs]%lacks_cons.
  change (String a s +:+ ?u) with (String a (s +:+ u)).
  cbn [remove_go String.prefix].
  destruct (ascii_dec "." a) as [<-|_]; [done|]. by rewrite IH.
Qed.

Lemma remove_all_lacks (s : string) : lacks "." s -> remove_all ".csv" s = s.
Proof.
  intros H. unfold remove_all. rewrite <- (string_app_nil_r s) at 1.
  rewrite remove_go_lacks by done. simpl. apply string_app_nil_r.
Qed.

Lemma split_lacks (c : ascii) (s : string) : lacks c s -> split c s = [s].
Proof.
  induction s as [|a s IH]; [done|].
  intros [Ha Hs]%lacks_cons. simpl.
  destruct (Ascii.eqb_spec a c); [done|]. by rewrite IH.
Qed.

Lemma split_app (c : ascii) (s t : string) :
  lacks c s -> split c (s +:+ String c t) = s :: split c t.
Proof.
  induction s as [|a s IH].
  - intros _. change ("" +:+ String c t) with (String c t). simpl.
    by rewrite Ascii.eqb_refl.
  - intros [Ha Hs]%lacks_cons.
    change (String a s +:+ ?u) with (String a (s +:+ u)). simpl.
    destruct (Ascii.eqb_spec a c); [done|]. by rewrite IH.
Qed.

Lemma isoformat_digits (d : date) :
  string_forallb (fun c => is_digit c || Ascii.eqb c "-") (isoformat d) = true.
Proof.
  unfold isoformat. rewrite !string_forallb_app.
  unfold pad4, pad2. cbn [string_forallb].
  rewrite !digit_char_is_digit. reflexivity.
Qed.

Lemma isoformat_lacks (c : ascii) (d : date) :
  is_digit c = false -> c <> "-"%char -> lacks c (isoformat d).
Proof.
  intros Hc Hdash. unfold lacks.
  apply (string_forallb_impl (fun c => is_digit c || Ascii.eqb c "-")); [|apply isoformat_digits].
  intros a Ha. destruct (Ascii.eqb_spec a c) as [->|_]; [|done].
  rewrite Hc in Ha. simpl in Ha. by apply Ascii.eqb_eq in Ha.
Qed.

Lemma isoformat_length (d : date) : String.length (isoformat d) = 10%nat.
Proof. reflexivity. Qed.

Lemma split_sep (c : ascii) (s t : string) :
  lacks c s -> split c (s +:+ String c "" +:+ t) = s :: split c t.
Proof. apply split_app. Qed.

Lemma lacks_sep (c : ascii) : c <> "_"%char -> lacks c "_".
Proof. intros Hc. apply lacks_cons. split; [by intros <-|done]. Qed.

(** The tokens of a name that starts with two dates. *)
Lemma tokens_two_dates (p e : date) (rest : string) :
  lacks "/" rest ->
  tokens (isoformat p +:+ "_" +:+ isoformat e +:+ "_" +:+ rest)
  = isoformat p :: isoformat e :: split "_" (remove_all ".csv" rest).
Proof.
  intros Hrest. unfold tokens.
  rewrite basename_lacks.
  2:{ rewrite !lacks_app. repeat split; try done; by apply isoformat_lacks. }
  unfold remove_all.
  rewrite (remove_go_lacks (isoformat p)) by (by apply isoformat_lacks).
  rewrite (remove_go_lacks "_") by (by apply lacks_sep).
  rewrite (remove_go_lacks (isoformat e)) by (by apply isoformat_lacks).
  rewrite (remove_go_lacks "_") by (by apply lacks_sep).
  rewrite split_sep by (by apply isoformat_lacks).
  by rewrite split_sep by (by apply isoformat_lacks).
Qed.

Lemma tokens_projections (p e : date) :
  tokens ("projections_" +:+ isoformat p +:+ "_" +:+ isoformat e +:+ ".csv")
  = ["projections"; isoformat p; isoformat e].
Proof.
  unfold tokens.
  rewrite basename_lacks.
  2:{ rewrite !lacks_app. repeat split; try done; by apply isoformat_lacks. }
  unfold remove_all.
  rewrite (remove_go_lacks "projections_") by done.
  rewrite (remove_go_lacks (isoformat p)) by (by apply isoformat_lacks).
  rewrite (remove_go_lacks "_") by (by apply lacks_sep).
  rewrite (remove_go_lacks (isoformat e)) by (by apply isoformat_lacks).
  change (remove_go ".csv" 0 ".csv") with "".
  rewrite string_app_nil_r.
  change ("projections_" +:+ ?u) with ("projections" +:+ "_" +:+ u).
  rewrite split_sep by done.
  rewrite split_sep by (by apply isoformat_lacks).
  by rewrite split_lacks by (by apply isoformat_lacks).
Qed.

Lemma layout_two_dates (p e : date) (toks : list string) :
  valid_ymd (year p) (month p) (day p) = true ->
  valid_ymd (year e) (month e) (day e) = true ->
  layout 0 1 (isoformat p :: isoformat e :: toks) = Ok (p, e).
Proof.
  intros Hp He. unfold layout, getitem.
  change ((isoformat p :: isoformat e :: toks) !! 0%nat) with (Some (isoformat p)).
  change ((isoformat p :: isoformat e :: toks) !! 1%nat) with (Some (isoformat e)).
  cbn [mbind result_bind].
  rewrite (str_to_date_isoformat p Hp). cbn [mbind result_bind].
  by rewrite (str_to_date_isoformat e He).
Qed.

Lemma layout_valid (i j : nat) (toks : list string) (p e : date) :
  layout i j toks = Ok (p, e) ->
  valid_ymd (year p) (month p) (day p) = true
  /\ valid_ymd (year e) (month e) (day e) = true.
Proof.
  unfold layout, getitem.
  destruct (toks !! i) as [ti|]; simpl; [|done].
  destruct (str_to_date ti) as [p'|] eqn:Hp; simpl; [|done].
  destruct (toks !! j) as [tj|]; simpl; [|done].
  destruct (str_to_date tj) as [e'|] eqn:He; simpl; [|done].
  intros [= <- <-]. split; by eapply str_to_date_valid.
Qed.

Lemma get_dates_from_fname_valid (fname : string) (p e : date) :
  get_dates_from_fname fname = Ok (p, e) ->
  valid_ymd (year p) (month p) (day p) = true
  /\ valid_ymd (year e) (month e) (day e) = true.
Proof.
  rewrite get_dates_from_fname_first.
  destruct (layout 0 1 (tokens fname)) as [[p' e']|err] eqn:HA.
  - unfold check_order. simpl. destruct (date_ltb p' e'); [|done].
    intros [= <- <-]. by eapply layout_valid.
  - destruct (layout 1 2 (tokens fname)) as [[p' e']|err'] eqn:HB; [|done].
    unfold check_order. simpl. destruct (date_ltb p' e'); [|done].
    intros [= <- <-]. by eapply layout_valid.
Qed.

Lemma get_dates_from_fname_days (fname : string) (p e : date) :
  get_dates_from_fname fname = Ok (p, e) -> 1 <= days_between e p.
Proof.
  intros H. destruct (get_dates_from_fname_valid _ _ _ H) as [Hp He].
  pose proof (toordinal_lt p e Hp He (get_dates_from_fname_ordered _ _ _ H)).
  unfold days_between. lia.
Qed.

(** X1. A date the parser returns is a calendar date, and its ISO text (the
    text the column labels are built from) parses back to the same date;
    so does the ISO text of every calendar date. *)
Theorem str_to_date_round_trip (s : string) (d : date) :
  (str_to_date s = Ok d ->
   valid_ymd (year d) (month d) (day d) = true /\ str_to_date (isoformat d) = Ok d)
  /\ (valid_ymd (year d) (month d) (day d) = true -> str_to_date (isoformat d) = Ok d).
Proof.
  split; [|apply str_to_date_isoformat].
  intros Hd%str_to_date_valid. split; [done|]. by apply str_to_date_isoformat.
Qed.

Lemma str_to_date_round_trip_witness :
  str_to_date "2020-2-29" = Ok (mkdate 2020 2 29)
  /\ str_to_date (isoformat (mkdate 2020 2 29)) = Ok (mkdate 2020 2 29)
  /\ isoformat (mkdate 2020 2 29) = "2020-02-29".
Proof.
  split; [vm_compute; reflexivity|]. split; [|reflexivity].
  apply (proj1 (str_to_date_round_trip "2020-2-29" (mkdate 2020 2 29))).
  vm_compute. reflexivity.
Defined.

(** X2. The two dates of a parsed file name are calendar dates, and the
    evaluation date is at least one day after the projection date. *)
Theorem get_dates_from_fname_days_ahead (fname : string) (p e : date) :
  get_dates_from_fname fname = Ok (p, e) ->
  valid_ymd (year p) (month p) (day p) = true
  /\ valid_ymd (year e) (month e) (day e) = true
  /\ 1 <= days_between e p.
Proof.
  intros H. destruct (get_dates_from_fname_valid _ _ _ H) as [Hp He].
  repeat split; [done..|]. by eapply get_dates_from_fname_days.
Qed.

Lemma get_dates_from_fname_days_ahead_witness :
  1 <= days_between (mkdate 2021 1 1) (mkdate 2020 12 31).
Proof.
  apply (get_dates_from_fname_days_ahead "2020-12-31_2021-01-01_us_errs.csv"
           (mkdate 2020 12 31) (mkdate 2021 1 1)).
  vm_compute. reflexivity.
Defined.

(** X3. The directory of a path plays no part: a path parses as its last
    component does. *)
Theorem get_dates_from_fname_dir (dir name : string) :
  lacks "/" name ->
  get_dates_from_fname (dir +:+ "/" +:+ name) = get_dates_from_fname name.
Proof.
  intros Hname. rewrite !get_dates_from_fname_first. unfold tokens.
  by rewrite basename_dir, basename_lacks.
Qed.

Lemma get_dates_from_fname_dir_witness :
  get_dates_from_fname
    ("evaluations/2020-12-01" +:+ "/" +:+ "2020-11-01_2020-12-01_us_errs.csv")
  = get_dates_from_fname "2020-11-01_2020-12-01_us_errs.csv".
Proof.
  apply (get_dates_from_fname_dir "evaluations/2020-12-01"
           "2020-11-01_2020-12-01_us_errs.csv").
  vm_compute. reflexivity.
Defined.

(** X4. The names the evaluation step writes parse back to their dates: for
    calendar dates [p] before [e], a name that starts with the ISO texts of
    [p] and [e] gives [(p, e)] whatever follows them (layout A), and so does
    [projections_<p>_<e>.csv] (layout B). *)
Theorem get_dates_from_fname_round_trip (p e : date) (rest : string) :
  valid_ymd (year p) (month p) (day p) = true ->
  valid_ymd (year e) (month e) (day e) = true ->
  date_lt p e ->
  lacks "/" rest ->
  get_dates_from_fname (isoformat p +:+ "_" +:+ isoformat e +:+ "_" +:+ rest) = Ok (p, e)
  /\ get_dates_from_fname ("projections_" +:+ isoformat p +:+ "_" +:+ isoformat e +:+ ".csv")
     = Ok (p, e).
Proof.
  intros Hp He Hlt%date_ltb_lt Hrest. split.
  - rewrite get_dates_from_fname_first, tokens_two_dates by done.
    rewrite layout_two_dates by done. unfold check_order. cbn [fst snd].
    by rewrite Hlt.
  - rewrite get_dates_from_fname_first, tokens_projections.
    change (layout 0 1 ["projections"; isoformat p; isoformat e])
      with (Raise ValueError : result (date * date)).
    change (layout 1 2 ["projections"; isoformat p; isoformat e])
      with (layout 0 1 [isoformat p; isoformat e]).
    rewrite layout_two_dates by done. unfold check_order. cbn [mbind result_bind fst snd].
    by rewrite Hlt.
Qed.

Lemma get_dates_from_fname_round_trip_witness :
  get_dates_from_fname
    (isoformat (mkdate 2020 11 1) +:+ "_" +:+ isoformat (mkdate 2020 12 1) +:+ "_"
     +:+ "states_abs_errs.csv")
  = Ok (mkdate 2020 11 1, mkdate 2020 12 1).
Proof.
  apply (get_dates_from_fname_round_trip (mkdate 2020 11 1) (mkdate 2020 12 1)
           "states_abs_errs.csv").
  - vm_compute. reflexivity.
  - vm_compute. reflexivity.
  - unfold date_lt. simpl. lia.
  - vm_compute. reflexivity.
Defined.

(** ** Horizon Filter, continued *)

Lemma filter_fnames_Ok (fnames out : list string) (w : Z) :
  filter_fnames_by_weeks_ahead fnames w = Ok out ->
  out = List.filter (keeps w) fnames
  /\ Forall (fun f => is_ok (get_dates_from_fname f) = true) fnames.
Proof.
  intros Hout. pose proof (filter_Ok_all_parse _ _ _ Hout) as Hall.
  split; [|done].
  pose proof (foldl_filter_step_Ok w fnames [] Hall) as H.
  unfold filter_fnames_by_weeks_ahead in Hout. rewrite app_nil_l in H. congruence.
Qed.

Lemma keeps_days (w : Z) (f : string) :
  keeps w f = true ->
  exists p e, get_dates_from_fname f = Ok (p, e)
    /\ Z.abs (days_between e p - 7 * w) <= 3.
Proof.
  unfold keeps. destruct (get_dates_from_fname f) as [[p e]|]; [|done].
  intros H%bool_decide_eq_true. eauto.
Qed.

(** X5. The horizons do not overlap: a file kept for one value of
    [weeks_ahead] is kept for no other value. *)
Theorem filter_fnames_by_weeks_ahead_disjoint (fnames out1 out2 : list string)
    (w1 w2 : Z) (f : string) :
  w1 <> w2 ->
  filter_fnames_by_weeks_ahead fnames w1 = Ok out1 ->
  filter_fnames_by_weeks_ahead fnames w2 = Ok out2 ->
  f ∈ out1 -> f ∉ out2.
Proof.
  intros Hne [-> _]%filter_fnames_Ok [-> _]%filter_fnames_Ok.
  rewrite !list_elem_of_In, !filter_In.
  intros [_ (p & e & Hf & H1)%keeps_days] [_ (p' & e' & Hf' & H2)%keeps_days].
  rewrite Hf in Hf'. injection Hf' as <- <-. lia.
Qed.

Lemma filter_fnames_by_weeks_ahead_disjoint_witness :
  "ev/2020-11-01_2020-12-01_us_errs.csv"
  ∉ match filter_fnames_by_weeks_ahead
            ["ev/2020-11-01_2020-12-01_us_errs.csv";
             "ev/2020-11-01_2020-12-05_us_errs.csv"] 5 with
    | Ok out => out
    | Raise _ => []
    end.
Proof.
  destruct (is_ok_Ok (filter_fnames_by_weeks_ahead
              ["ev/2020-11-01_2020-12-01_us_errs.csv";
               "ev/2020-11-01_2020-12-05_us_errs.csv"] 5)) as [out Hout];
    [vm_compute; reflexivity|].
  rewrite Hout.
  apply (filter_fnames_by_weeks_ahead_disjoint
           ["ev/2020-11-01_2020-12-01_us_errs.csv"; "ev/2020-11-01_2020-12-05_us_errs.csv"]
           ["ev/2020-11-01_2020-12-01_us_errs.csv"] out 4 5);
    [lia|vm_compute; reflexivity|exact Hout|].
  apply elem_of_cons. left. reflexivity.
Defined.

(** X6. Filtering is idempotent: the filter returns its own output
    unchanged. *)
Theorem filter_fnames_by_weeks_ahead_idempotent (fnames out : list string) (w : Z) :
  filter_fnames_by_weeks_ahead fnames w = Ok out ->
  filter_fnames_by_weeks_ahead out w = Ok out.
Proof.
  intros [-> Hall]%filter_fnames_Ok.
  unfold filter_fnames_by_weeks_ahead. rewrite foldl_filter_step_Ok.
  - rewrite app_nil_l. f_equal. apply filter_all.
    intros f Hf%list_elem_of_In%filter_In. by destruct Hf.
  - rewrite Forall_forall in Hall. apply Forall_forall.
    intros f Hf%list_elem_of_In%filter_In. apply Hall, list_elem_of_In. by destruct Hf.
Qed.

Lemma filter_fnames_by_weeks_ahead_idempotent_witness :
  filter_fnames_by_weeks_ahead ["ev/2020-11-01_2020-12-01_us_errs.csv"] 4
  = Ok ["ev/2020-11-01_2020-12-01_us_errs.csv"].
Proof.
  apply (filter_fnames_by_weeks_ahead_idempotent
           ["ev/2020-11-01_2020-12-01_us_errs.csv"; "ev/2020-11-01_2020-11-08_us_errs.csv"]).
  vm_compute. reflexivity.
Defined.

(** X7. A negative horizon keeps nothing, since every file is evaluated at
    least a day after its projection; and a file is kept only when its
    number of days lies within [7 * weeks_ahead - 3, 7 * weeks_ahead + 3]. *)
Theorem filter_fnames_by_weeks_ahead_range (fnames out : list string) (w : Z) :
  filter_fnames_by_weeks_ahead fnames w = Ok out ->
  (w < 0 -> out = [])
  /\ (forall f, f ∈ out ->
        exists p e, get_dates_from_fname f = Ok (p, e)
          /\ 1 <= days_between e p
          /\ 7 * w - 3 <= days_between e p <= 7 * w + 3).
Proof.
  intros [-> _]%filter_fnames_Ok.
  assert (forall f, f ∈ List.filter (keeps w) fnames ->
            exists p e, get_dates_from_fname f = Ok (p, e)
              /\ 1 <= days_between e p
              /\ 7 * w - 3 <= days_between e p <= 7 * w + 3) as Hin.
  { intros f [_ (p & e & Hf & Hd)%keeps_days]%list_elem_of_In%filter_In.
    exists p, e. split; [done|].
    pose proof (get_dates_from_fname_days _ _ _ Hf). lia. }
  split; [|done].
  intros Hw. destruct (List.filter (keeps w) fnames) as [|f l]; [done|].
  destruct (Hin f) as (p & e & _ & ? & ?); [by left|lia].
Qed.

Lemma filter_fnames_by_weeks_ahead_range_witness :
  filter_fnames_by_weeks_ahead
    ["ev/2020-11-01_2020-12-01_us_errs.csv"; "ev/2020-11-01_2020-11-02_us_errs.csv"] (-1)
  = Ok [].
Proof.
  destruct (is_ok_Ok (filter_fnames_by_weeks_ahead
              ["ev/2020-11-01_2020-12-01_us_errs.csv";
               "ev/2020-11-01_2020-11-02_us_errs.csv"] (-1))) as [out Hout];
    [vm_compute; reflexivity|].
  rewrite Hout. f_equal.
  apply (proj1 (filter_fnames_by_weeks_ahead_range _ _ _ Hout)). lia.
Defined.

(** ** Ranks, continued *)

Lemma counts_total (l : list Qc) (v : Qc) :
  (below l v + equal l v + above l v = length l)%nat.
Proof.
  unfold below, equal, above. induction l as [|x l IH]; [done|].
  rewrite !filter_cons. simpl.
  destruct (decide (x < v)%Qc) as [Hlt|Hlt], (decide (x = v)) as [Heq|Heq],
    (decide (v < x)%Qc) as [Hgt|Hgt]; simpl; try lia.
  - subst. by apply Qclt_not_eq in Hlt.
  - subst. by apply Qclt_not_eq in Hlt.
  - destruct (Qclt_not_le _ _ Hlt). by apply Qclt_le_weak.
  - subst. by apply Qclt_not_eq in Hgt.
  - apply Qcnot_lt_le in Hlt, Hgt. destruct Heq. by apply Qcle_antisym.
Qed.

Lemma below_lt (l : list Qc) (v w : Qc) :
  (v < w)%Qc -> (below l v + equal l v <= below l w)%nat.
Proof.
  intros Hvw. unfold below, equal. induction l as [|x l IH]; [done|].
  rewrite !filter_cons.
  destruct (decide (x < v)%Qc) as [Hlt|Hlt], (decide (x = v)) as [Heq|Heq],
    (decide (x < w)%Qc) as [Hw|Hw]; simpl; try lia.
  all: try (subst x; by apply Qclt_not_eq in Hlt).
  - destruct Hw. by trans v.
  - by subst x.
Qed.

Lemma equal_elem_of (l : list Qc) (v : Qc) : v ∈ l -> (1 <= equal l v)%nat.
Proof.
  unfold equal. induction 1 as [x l|x y l _ IH]; rewrite filter_cons.
  - rewrite decide_True by done. simpl. lia.
  - destruct (decide (y = x)); simpl; lia.
Qed.

Lemma Qc_half_pos : (0 < / 2)%Qc.
Proof. reflexivity. Qed.

Lemma rank_of_counts (l : list Qc) (v : Qc) :
  rank_of l v
  = (Qc_of_Z (2 * Z.of_nat (below l v) + Z.of_nat (equal l v) + 1) / 2)%Qc.
Proof.
  unfold rank_of, count. fold (below l v) (equal l v).
  rewrite !Z2Qc_inj_add, Z2Qc_inj_mul, Z2Qc_inj_1, Z2Qc_inj_2.
  generalize (Qc_of_Z (Z.of_nat (below l v))) (Qc_of_Z (Z.of_nat (equal l v))).
  intros a e. field. done.
Qed.

Lemma Qc_half_lt (x y : Z) : x < y -> (Qc_of_Z x / 2 < Qc_of_Z y / 2)%Qc.
Proof.
  intros H. apply Qcmult_lt_compat_r; [apply Qc_half_pos|]. by rewrite <- Z2Qc_inj_lt.
Qed.

Lemma Qc_half_le (x y : Z) : x <= y -> (Qc_of_Z x / 2 ≤ Qc_of_Z y / 2)%Qc.
Proof.
  intros H. apply Qcmult_le_compat_r; [by rewrite <- Z2Qc_inj_le|].
  apply Qclt_le_weak, Qc_half_pos.
Qed.

Lemma Qc_half_twice (n : Z) : (Qc_of_Z (2 * n) / 2)%Qc = Qc_of_Z n.
Proof. rewrite Z2Qc_inj_mul, Z2Qc_inj_2. field. done. Qed.

Lemma rank_of_lt (l : list Qc) (v w : Qc) :
  w ∈ l -> (v < w)%Qc -> (rank_of l v < rank_of l w)%Qc.
Proof.
  intros Hw Hvw. rewrite !rank_of_counts. apply Qc_half_lt.
  pose proof (below_lt l v w Hvw). pose proof (equal_elem_of l w Hw). lia.
Qed.

Lemma rank_of_bounds (l : list Qc) (v : Qc) :
  v ∈ l -> (1 ≤ rank_of l v)%Qc /\ (rank_of l v ≤ Qc_of_Z (Z.of_nat (length l)))%Qc.
Proof.
  intros Hv. rewrite rank_of_counts.
  pose proof (counts_total l v). pose proof (equal_elem_of l v Hv).
  split.
  - rewrite <- Z2Qc_inj_1, <- (Qc_half_twice 1). apply Qc_half_le. lia.
  - rewrite <- (Qc_half_twice (Z.of_nat (length l))). apply Qc_half_le. lia.
Qed.

(** Counting the pairs of a relation row by row or column by column. *)
Lemma sum_filter_swap {A} (R : A -> A -> Prop) `{forall x y, Decision (R x y)}
    (l1 l2 : list A) :
  sum_list_with (fun v => length (filter (fun x => R x v) l2)) l1
  = sum_list_with (fun x => length (filter (fun v => R x v) l1)) l2.
Proof.
  induction l1 as [|v l1 IH]; simpl.
  - induction l2 as [|x l2 IH2]; [done|]. simpl. by rewrite <- IH2.
  - rewrite IH. clear IH. induction l2 as [|x l2 IH2]; [done|].
    simpl. rewrite !filter_cons.
    destruct (decide (R x v)); simpl; lia.
Qed.

Lemma sum_below_above (l : list Qc) :
  sum_list_with (below l) l = sum_list_with (above l) l.
Proof. unfold below, above. apply (sum_filter_swap (fun x v => x < v)%Qc). Qed.

Lemma sum_list_with_add {A} (f g : A -> nat) (l : list A) :
  sum_list_with (fun x => (f x + g x)%nat) l = (sum_list_with f l + sum_list_with g l)%nat.
Proof. induction l as [|x l IH]; cbn [sum_list_with]; lia. Qed.

Lemma sum_list_with_const {A} (f : A -> nat) (n : nat) (l : list A) :
  (forall x, f x = n) -> sum_list_with f l = (length l * n)%nat.
Proof. intros Hf. induction l as [|x l IH]; simpl; [done|]. by rewrite Hf, IH. Qed.

Lemma sum_list_with_double {A} (f : A -> nat) (l : list A) :
  sum_list_with (fun x => (2 * f x)%nat) l = (2 * sum_list_with f l)%nat.
Proof. induction l as [|x l IH]; cbn [sum_list_with]; lia. Qed.

(** Twice the ranks of a list add up to [n * (n + 1)]. *)
Lemma sum_twice_ranks (l : list Qc) :
  sum_list_with (fun v => (2 * below l v + equal l v + 1)%nat) l
  = (length l * (length l + 1))%nat.
Proof.
  rewrite <- (sum_list_with_const (fun v => (below l v + equal l v + above l v + 1)%nat)
                (length l + 1) l) by (intros v; by rewrite counts_total).
  rewrite !sum_list_with_add.
  pose proof (sum_below_above l).
  rewrite sum_list_with_double. lia.
Qed.

Lemma sum_list_halves (f : Qc -> nat) (l : list Qc) :
  sum_list ((fun v => Qc_of_Z (Z.of_nat (f v)) / 2)%Qc <$> l)
  = (Qc_of_Z (Z.of_nat (sum_list_with f l)) / 2)%Qc.
Proof.
  induction l as [|x l IH].
  - change (0%Qc = (Qc_of_Z 0 / 2)%Qc). rewrite Z2Qc_inj_0. unfold Qcdiv.
    by rewrite Qcmult_0_l.
  - change (sum_list ((fun v => Qc_of_Z (Z.of_nat (f v)) / 2)%Qc <$> x :: l))
      with (Qc_of_Z (Z.of_nat (f x)) / 2
            + sum_list ((fun v => Qc_of_Z (Z.of_nat (f v)) / 2) <$> l))%Qc.
    rewrite IH. cbn [sum_list_with]. rewrite Nat2Z.inj_add, Z2Qc_inj_add.
    unfold Qcdiv. by rewrite Qcmult_plus_distr_l.
Qed.

Lemma sum_ranks (l : list Qc) :
  sum_list (rank_of l <$> l)
  = (Qc_of_Z (Z.of_nat (length l) * (Z.of_nat (length l) + 1)) / 2)%Qc.
Proof.
  rewrite (list_fmap_ext (rank_of l)
             (fun v => Qc_of_Z (Z.of_nat (2 * below l v + equal l v + 1)) / 2)%Qc l).
  - rewrite sum_list_halves, sum_twice_ranks. do 2 f_equal. lia.
  - intros i v _. rewrite rank_of_counts. do 2 f_equal. lia.
Qed.

Lemma omap_fmap_inner {A B C} (f : A -> option B) (g : B -> C) (l : list A) :
  omap (fun x => g <$> f x) l = g <$> omap f l.
Proof.
  induction l as [|x l IH]; [done|]. csimpl. destruct (f x); csimpl; by rewrite IH.
Qed.

(** The ranks of a column are the ranks of its absolute values. *)
Lemma col_values_rank_abs (df : DataFrame) (c : string) :
  col_values (rank (abs df)) c = rank_of (col_values (abs df) c) <$> col_values (abs df) c.
Proof. unfold col_values. apply omap_fmap_inner. Qed.

Lemma col_values_abs_length (df : DataFrame) (c : string) :
  length (col_values (abs df) c) = length (col_values df c).
Proof.
  unfold col_values. cbn [abs index cell_at].
  rewrite omap_fmap_inner. apply length_fmap.
Qed.

Lemma elem_of_col_values_abs (df : DataFrame) (r c : string) (x : Qc) :
  r ∈ index df -> cell_at df r c = Some x -> Qcabs x ∈ col_values (abs df) c.
Proof.
  intros Hr Hx. apply list_elem_of_omap. exists r. split; [done|].
  cbn [abs cell_at]. by rewrite Hx.
Qed.

Lemma cell_at_rank_abs (df : DataFrame) (r c : string) (x : Qc) :
  cell_at df r c = Some x ->
  cell_at (rank (abs df)) r c = Some (rank_of (col_values (abs df) c) (Qcabs x)).
Proof. intros Hx. cbn [rank abs cell_at]. by rewrite Hx. Qed.

(** X8. Within a column the ranks follow the magnitudes: of two models with
    a value, the one with the smaller absolute value has the smaller rank,
    and equal absolute values have equal ranks. *)
Theorem rank_follows_magnitude (df : DataFrame) (c r1 r2 : string) (x y : Qc) :
  r2 ∈ index df ->
  cell_at df r1 c = Some x ->
  cell_at df r2 c = Some y ->
  exists k1 k2,
    cell_at (rank (abs df)) r1 c = Some k1
    /\ cell_at (rank (abs df)) r2 c = Some k2
    /\ ((Qcabs x < Qcabs y)%Qc -> (k1 < k2)%Qc)
    /\ (Qcabs x = Qcabs y -> k1 = k2).
Proof.
  intros Hr2 Hx Hy. eexists _, _.
  split; [by apply cell_at_rank_abs|]. split; [by apply cell_at_rank_abs|]. split.
  - apply rank_of_lt. by eapply elem_of_col_values_abs.
  - by intros ->.
Qed.

Lemma rank_follows_magnitude_witness :
  exists df k1 k2, us_table us_errs_files_ex = Ok df
    /\ cell_at (rank (abs df)) "D" "perc_error_2020-11-01_2020-12-01" = Some k1
    /\ cell_at (rank (abs df)) "A" "perc_error_2020-11-01_2020-12-01" = Some k2
    /\ (k1 < k2)%Qc.
Proof.
  destruct (is_ok_Ok (us_table us_errs_files_ex)) as [df Hdf]; [vm_compute; reflexivity|].
  destruct (cell_at df "D" "perc_error_2020-11-01_2020-12-01") as [x|] eqn:Hx;
    [|exfalso; revert Hx; evaluate_with Hdf; discriminate].
  destruct (cell_at df "A" "perc_error_2020-11-01_2020-12-01") as [y|] eqn:Hy;
    [|exfalso; revert Hy; evaluate_with Hdf; discriminate].
  destruct (rank_follows_magnitude df "perc_error_2020-11-01_2020-12-01" "D" "A" x y)
    as (k1 & k2 & H1 & H2 & Hlt & _); [evaluate_with Hdf; repeat constructor|done..|].
  exists df, k1, k2. repeat split; [done..|]. apply Hlt.
  assert (Some (Qcabs x) = Qcabs <$> cell_at df "D" "perc_error_2020-11-01_2020-12-01")
    as Hax by (by rewrite Hx).
  assert (Some (Qcabs y) = Qcabs <$> cell_at df "A" "perc_error_2020-11-01_2020-12-01")
    as Hay by (by rewrite Hy).
  clear Hx Hy H1 H2 Hlt. revert x y Hax Hay. evaluate_with Hdf.
  intros x y [= ->] [= ->]. reflexivity.
Defined.

(** X9. A filled rank of a row of the table lies between 1 and [n + 1],
    where [n] is the number of values of the column; the rank of a cell
    with a value is at most [n]. *)
Theorem filled_rank_bounds (df : DataFrame) (r c : string) (k : Qc) :
  r ∈ index df ->
  cell_at (filled_ranks df) r c = Some k ->
  (1 ≤ k)%Qc
  /\ (k ≤ Qc_of_Z (Z.of_nat (length (col_values df c)) + 1))%Qc
  /\ (is_Some (cell_at df r c) -> (k ≤ Qc_of_Z (Z.of_nat (length (col_values df c))))%Qc).
Proof.
  intros Hr. unfold filled_ranks. cbn [fillna cell_at].
  rewrite <- (col_values_abs_length df c).
  assert (forall u, u ∈ col_values (abs df) c ->
            (1 ≤ rank_of (col_values (abs df) c) u)%Qc
            /\ (rank_of (col_values (abs df) c) u
                ≤ Qc_of_Z (Z.of_nat (length (col_values (abs df) c)) + 1))%Qc) as Hb.
  { intros u Hu. destruct (rank_of_bounds _ _ Hu) as [H1 Hn]. split; [done|].
    etrans; [exact Hn|]. rewrite <- Z2Qc_inj_le. lia. }
  destruct (cell_at df r c) as [x|] eqn:Hx.
  - rewrite (cell_at_rank_abs _ _ _ _ Hx). intros [= <-].
    pose proof (elem_of_col_values_abs _ _ _ _ Hr Hx) as Hin.
    destruct (Hb _ Hin) as [H1 Hn1]. repeat split; [done..|].
    intros _. by apply rank_of_bounds.
  - replace (cell_at (rank (abs df)) r c) with (@None Qc)
      by (cbn [rank abs cell_at]; by rewrite Hx).
    unfold max_rank, max. rewrite col_values_rank_abs.
    destruct (max_list _) as [m|] eqn:Hm; [|done]. intros [= <-].
    apply max_list_Some in Hm as [Hin _].
    apply list_elem_of_fmap in Hin as (u & -> & Hu).
    destruct (rank_of_bounds _ _ Hu) as [H1 Hn]. split; [|split].
    + etrans; [exact H1|]. apply Qclt_le_weak, Qclt_succ.
    + rewrite Z2Qc_inj_add, Z2Qc_inj_1. by apply Qcplus_le_mono_r.
    + by intros [? ?].
Qed.

Lemma filled_rank_bounds_witness :
  exists df k, us_table us_errs_files_ex = Ok df
    /\ cell_at (filled_ranks df) "D" "perc_error_2020-11-08_2020-12-08" = Some k
    /\ (1 ≤ k)%Qc /\ (k ≤ Qc_of_Z 3)%Qc.
Proof.
  destruct (is_ok_Ok (us_table us_errs_files_ex)) as [df Hdf]; [vm_compute; reflexivity|].
  destruct (cell_at (filled_ranks df) "D" "perc_error_2020-11-08_2020-12-08")
    as [k|] eqn:Hk; [|exfalso; revert Hk; evaluate_with Hdf; discriminate].
  destruct (filled_rank_bounds df "D" "perc_error_2020-11-08_2020-12-08" k)
    as (H1 & Hn & _); [evaluate_with Hdf; repeat constructor|done|].
  exists df, k. repeat split; [done..|].
  replace 3 with (Z.of_nat (length (col_values df "perc_error_2020-11-08_2020-12-08")) + 1);
    [done|].
  evaluate_with Hdf. reflexivity.
Defined.

(** X10. The ranks of a column with [n] values add up to [n (n + 1) / 2],
    whatever the ties. *)
Theorem rank_sum (df : DataFrame) (c : string) :
  sum_list (col_values (rank (abs df)) c)
  = (Qc_of_Z (Z.of_nat (length (col_values df c))
              * (Z.of_nat (length (col_values df c)) + 1)) / 2)%Qc.
Proof.
  rewrite col_values_rank_abs, sum_ranks. by rewrite col_values_abs_length.
Qed.

(** ** Table Merger, continued *)

Lemma sort_values_index_ext (idx : list string) (s1 s2 : string -> option Qc) :
  (forall r, r ∈ idx -> s1 r = s2 r) -> sort_values_index idx s1 = sort_values_index idx s2.
Proof.
  intros H. unfold sort_values_index. do 2 f_equal.
  apply list_fmap_ext. intros i r Hr. f_equal. apply H. by eapply list_elem_of_lookup_2.
Qed.

Lemma col_values_abs_ext (df1 df2 : DataFrame) (c : string) :
  index df1 = index df2 ->
  (forall r c, Qcabs <$> cell_at df1 r c = Qcabs <$> cell_at df2 r c) ->
  col_values (abs df1) c = col_values (abs df2) c.
Proof.
  intros Hidx Hcell. unfold col_values. cbn [abs index cell_at]. rewrite Hidx.
  apply omap_ext_elem_of. intros r _. apply Hcell.
Qed.

Lemma filled_ranks_abs_ext (df1 df2 : DataFrame) (r c : string) :
  index df1 = index df2 ->
  (forall r c, Qcabs <$> cell_at df1 r c = Qcabs <$> cell_at df2 r c) ->
  cell_at (filled_ranks df1) r c = cell_at (filled_ranks df2) r c.
Proof.
  intros Hidx Hcell.
  assert (forall r, cell_at (rank (abs df1)) r c = cell_at (rank (abs df2)) r c) as Hrank.
  { intros r'. cbn [rank abs cell_at columns index].
    change (col_values {| index := index ?d; columns := columns ?d;
                          cell_at := fun r c => Qcabs <$> cell_at ?d r c |} c)
      with (col_values (abs d) c).
    by rewrite (col_values_abs_ext df1 df2 c Hidx Hcell), Hcell. }
  unfold filled_ranks, max_rank, max. cbn [fillna cell_at]. rewrite Hrank.
  destruct (cell_at (rank (abs df2)) r c); [done|].
  do 2 f_equal. unfold col_values.
  change (index (rank (abs ?d))) with (index d). rewrite Hidx.
  apply omap_ext_elem_of. intros r' _. apply Hrank.
Qed.

(** X11. The order of the rows depends on the magnitudes only: two tables
    with the same rows and columns whose cells agree in absolute value are
    reordered alike. *)
Theorem reorder_ignores_signs (metric : string) (weeks_ahead : option Z)
    (df1 df2 : DataFrame) :
  index df1 = index df2 ->
  columns df1 = columns df2 ->
  (forall r c, Qcabs <$> cell_at df1 r c = Qcabs <$> cell_at df2 r c) ->
  index (reorder_by_mean_rank metric weeks_ahead df1)
  = index (reorder_by_mean_rank metric weeks_ahead df2).
Proof.
  intros Hidx Hcols Hcell. unfold reorder_by_mean_rank. cbn [reindex index].
  rewrite Hidx. apply sort_values_index_ext. intros r _.
  unfold mean_rank, mean_axis1, ranking_window, cols_for_ranking.
  cbn [select columns cell_at]. rewrite Hcols. f_equal.
  apply omap_ext_elem_of. intros c _. by apply filled_ranks_abs_ext.
Qed.

Lemma reorder_ignores_signs_witness :
  exists df, us_table us_errs_files_ex = Ok df
    /\ index (reorder_by_mean_rank "perc_error" None df)
       = index (reorder_by_mean_rank "perc_error" None (abs df)).
Proof.
  destruct (is_ok_Ok (us_table us_errs_files_ex)) as [df Hdf]; [vm_compute; reflexivity|].
  exists df. split; [exact Hdf|].
  apply (reorder_ignores_signs "perc_error" None df (abs df)); [reflexivity..|].
  intros r c. cbn [abs cell_at]. destruct (cell_at df r c) as [x|]; [|reflexivity].
  simpl. f_equal. symmetry. apply Qcabs_pos, Qcabs_nonneg.
Defined.

(** X12. The ranking window is a final segment of the columns that carry
    the metric, in the order of the table: all of them when [weeks_ahead]
    is set, the last six (or all, when there are fewer) otherwise. *)
Theorem ranking_window_shape (metric : string) (weeks_ahead : option Z) (df : DataFrame) :
  ranking_window metric weeks_ahead df `suffix_of` cols_for_ranking metric df
  /\ ranking_window metric weeks_ahead df `sublist_of` columns df
  /\ (forall c, c ∈ ranking_window metric weeks_ahead df ->
        c ∈ columns df /\ contains metric c = true)
  /\ length (ranking_window metric weeks_ahead df)
     = (if truthy_int weeks_ahead then length (cols_for_ranking metric df)
        else Nat.min 6 (length (cols_for_ranking metric df))).
Proof.
  assert (ranking_window metric weeks_ahead df `suffix_of` cols_for_ranking metric df)
    as Hsuffix.
  { unfold ranking_window, last_n. destruct (truthy_int weeks_ahead); [done|].
    apply suffix_drop. }
  split; [done|]. split; [|split].
  - trans (cols_for_ranking metric df); [|apply filter_sublist_of].
    unfold ranking_window, last_n. destruct (truthy_int weeks_ahead); [done|].
    apply sublist_drop.
  - intros c Hc. destruct Hsuffix as [k Hk].
    assert (c ∈ cols_for_ranking metric df) as Hin
      by (rewrite Hk; apply elem_of_app; by right).
    apply list_elem_of_In, filter_In in Hin as [Hin Hm].
    split; [by apply list_elem_of_In|done].
  - unfold ranking_window, last_n. destruct (truthy_int weeks_ahead); [done|].
    rewrite length_drop. lia.
Qed.

Lemma NoDup_index_assemble (d : gmap string (gmap string (option Qc))) :
  NoDup (index (assemble d)).
Proof.
  unfold assemble. cbn [reindex_columns dropna_all index DataFrame_of_dict].
  apply NoDup_filter. unfold sorted. rewrite merge_sort_Permutation.
  apply NoDup_elements.
Qed.

Lemma reorder_invariant (metric : string) (weeks_ahead : option Z) (df : DataFrame) :
  wide_table_invariant df -> NoDup (index df) ->
  wide_table_invariant (reorder_by_mean_rank metric weeks_ahead df)
  /\ NoDup (index (reorder_by_mean_rank metric weeks_ahead df)).
Proof.
  intros (Hsorted & Hnodup & Hrows) Hidx.
  pose proof (sort_values_index_Permutation (index df) (mean_rank metric weeks_ahead df))
    as Hperm.
  split; [split; [done|split; [done|]]|].
  - intros m. cbn [reorder_by_mean_rank reindex index columns cell_at].
    rewrite Hperm. apply Hrows.
  - cbn [reorder_by_mean_rank reindex index]. by rewrite Hperm.
Qed.

(** X13. The table a branch returns still has its columns in lexicographic
    order and a row exactly for the models with a value, and no model has
    two rows. *)
Theorem summaries_invariant (weeks_ahead : option Z) :
  (forall us_errs_files out,
     us_summary weeks_ahead us_errs_files = Ok out ->
     wide_table_invariant out /\ NoDup (index out))
  /\ (forall states_abs_errs_files states_sq_errs_files out,
        states_summary weeks_ahead states_abs_errs_files states_sq_errs_files = Ok out ->
        wide_table_invariant out /\ NoDup (index out)).
Proof.
  split.
  - intros files out (df & [d ->]%us_table_assemble & ->)%us_summary_reorder.
    apply reorder_invariant; [apply assemble_invariant|apply NoDup_index_assemble].
  - intros abs_files sq_files out
      (df & [d ->]%states_table_assemble & ->)%states_summary_reorder.
    apply reorder_invariant; [apply assemble_invariant|apply NoDup_index_assemble].
Qed.

Lemma summaries_invariant_witness :
  exists out, us_summary None us_errs_files_ex = Ok out
    /\ index out = ["B"; "A"; "D"]
    /\ wide_table_invariant out /\ NoDup (index out).
Proof.
  destruct (is_ok_Ok (us_summary None us_errs_files_ex)) as [out Hout];
    [vm_compute; reflexivity|].
  exists out. split; [exact Hout|]. split; [evaluate_with Hout; reflexivity|].
  exact (proj1 (summaries_invariant None) us_errs_files_ex out Hout).
Defined.

Lemma string_app_inv (s1 s2 t1 t2 : string) :
  String.length s1 = String.length s2 ->
  s1 +:+ t1 = s2 +:+ t2 -> s1 = s2 /\ t1 = t2.
Proof.
  revert s2. induction s1 as [|a s1 IH]; intros [|b s2]; try done.
  intros [= Hlen].
  change (String a (s1 +:+ t1) = String b (s2 +:+ t2) -> String a s1 = String b s2 /\ t1 = t2).
  intros [= -> H]. destruct (IH _ Hlen H) as [-> ->]. done.
Qed.

Lemma isoformat_inj (d1 d2 : date) :
  valid_ymd (year d1) (month d1) (day d1) = true ->
  valid_ymd (year d2) (month d2) (day d2) = true ->
  isoformat d1 = isoformat d2 -> d1 = d2.
Proof.
  intros H1 H2 Heq. pose proof (str_to_date_isoformat d1 H1) as Hd.
  rewrite Heq, (str_to_date_isoformat d2 H2) in Hd. by injection Hd.
Qed.

Lemma column_label_inj (prefix : string) (p e p' e' : date) :
  valid_ymd (year p) (month p) (day p) = true ->
  valid_ymd (year e) (month e) (day e) = true ->
  valid_ymd (year p') (month p') (day p') = true ->
  valid_ymd (year e') (month e') (day e') = true ->
  column_label prefix p e = column_label prefix p' e' -> p = p' /\ e = e'.
Proof.
  intros Hp He Hp' He' Heq. unfold column_label in Heq.
  apply (inj (String.app _)) in Heq.
  apply string_app_inv in Heq as [Hpp Hrest]; [|by rewrite !isoformat_length].
  apply (inj (String.app _)) in Hrest.
  split; by apply isoformat_inj.
Qed.

(** X14. Two parsed file names with different projection or evaluation
    dates give different column labels. *)
Theorem column_label_dates (prefix f1 f2 : string) (p1 e1 p2 e2 : date) :
  get_dates_from_fname f1 = Ok (p1, e1) ->
  get_dates_from_fname f2 = Ok (p2, e2) ->
  (p1, e1) <> (p2, e2) ->
  column_label prefix p1 e1 <> column_label prefix p2 e2.
Proof.
  intros [Hp1 He1]%get_dates_from_fname_valid [Hp2 He2]%get_dates_from_fname_valid Hne Heq.
  apply Hne. by destruct (column_label_inj _ _ _ _ _ Hp1 He1 Hp2 He2 Heq) as [-> ->].
Qed.

Lemma column_label_dates_witness :
  column_label "perc_error_" (mkdate 2020 11 1) (mkdate 2020 12 1)
  <> column_label "perc_error_" (mkdate 2020 11 8) (mkdate 2020 12 1).
Proof.
  apply (column_label_dates "perc_error_"
           "a/2020-11-01_2020-12-01_us_errs.csv" "a/2020-11-08_2020-12-01_us_errs.csv").
  - vm_compute. reflexivity.
  - vm_compute. reflexivity.
  - discriminate.
Defined.

Lemma foldl_add_column_app prefix read (l1 l2 : list column_file)
    (d0 d : gmap string (gmap string (option Qc))) :
  foldl (add_column prefix read) (Ok d0) (l1 ++ l2) = Ok d ->
  exists d1, foldl (add_column prefix read) (Ok d0) l1 = Ok d1
    /\ foldl (add_column prefix read) (Ok d1) l2 = Ok d.
Proof.
  rewrite foldl_app. destruct (foldl _ _ l1) as [d1|err]; [by exists d1|].
  by rewrite foldl_add_column_Raise.
Qed.

(** A loop leaves the columns of other labels as they are. *)
Lemma foldl_add_column_other prefix read (files : list column_file)
    (d0 d : gmap string (gmap string (option Qc))) (k : string) :
  foldl (add_column prefix read) (Ok d0) files = Ok d ->
  (forall g p e, g ∈ files -> get_dates_from_fname g.1 = Ok (p, e) ->
     column_label prefix p e <> k) ->
  d !! k = d0 !! k.
Proof.
  revert d0. induction files as [|f files IH]; intros d0; cbn [foldl].
  - by intros [= ->].
  - unfold add_column at 2. cbn [mbind result_bind].
    destruct (get_dates_from_fname f.1) as [[p e]|err] eqn:Hf; cbn [mbind result_bind].
    + intros Hd Hne. rewrite (IH _ Hd).
      * apply lookup_insert_ne. apply (Hne f); [by left|done].
      * intros g p' e' Hg. apply Hne. by right.
    + by rewrite foldl_add_column_Raise.
Qed.

(** The column of a file is in the dict after the loop, unless a later file
    of the loop has the same dates. *)
Lemma foldl_add_column_lookup prefix read (before after : list column_file)
    (fname : string) (s : gmap string (option Qc))
    (d0 d : gmap string (gmap string (option Qc))) (p e : date) :
  foldl (add_column prefix read) (Ok d0) (before ++ (fname, s) :: after) = Ok d ->
  get_dates_from_fname fname = Ok (p, e) ->
  (forall g p' e', g ∈ after -> get_dates_from_fname g.1 = Ok (p', e') ->
     (p', e') <> (p, e)) ->
  d !! column_label prefix p e = Some (read s).
Proof.
  intros (d1 & _ & Hd)%foldl_add_column_app Hf Hlater.
  cbn [foldl] in Hd. unfold add_column at 2 in Hd. cbn [mbind result_bind fst snd] in Hd.
  rewrite Hf in Hd. cbn [mbind result_bind] in Hd.
  rewrite (foldl_add_column_other _ _ _ _ _ _ Hd); [apply lookup_insert_eq|].
  intros g p' e' Hg Hg' Heq.
  destruct (get_dates_from_fname_valid _ _ _ Hf) as [Hp He].
  destruct (get_dates_from_fname_valid _ _ _ Hg') as [Hp' He'].
  destruct (column_label_inj _ _ _ _ _ Hp' He' Hp He Heq) as [-> ->].
  by apply (Hlater g p e).
Qed.

Lemma cell_at_assemble (d : gmap string (gmap string (option Qc))) (m c : string)
    (s : gmap string (option Qc)) :
  d !! c = Some s -> cell_at (assemble d) m c = mjoin (s !! m).
Proof. intros Hc. cbn [assemble reindex_columns dropna_all DataFrame_of_dict cell_at]. by rewrite Hc. Qed.

(** X15. A cell of the national table is the value of its file divided by
    100: for a file of the list that no later file repeats the dates of,
    the column under the label of its dates holds, for every model, the
    percentage of the file over 100 (NaN where the file has no value). *)
Theorem us_table_cells (before after : list column_file) (fname : string)
    (s : gmap string (option Qc)) (df : DataFrame) (p e : date) (m : string) :
  us_table (before ++ (fname, s) :: after) = Ok df ->
  get_dates_from_fname fname = Ok (p, e) ->
  (forall g p' e', g ∈ after -> get_dates_from_fname g.1 = Ok (p', e') ->
     (p', e') <> (p, e)) ->
  cell_at df m (column_label "perc_error_" p e)
  = (fun x => x / Qc_of_Z 100)%Qc <$> mjoin (s !! m).
Proof.
  unfold us_table. destruct (assert _); [|done]. cbn [mbind result_bind].
  destruct (foldl _ _ (before ++ _)) as [d|] eqn:Hd; [|done]. cbn [mbind result_bind].
  intros [= <-] Hf Hlater.
  rewrite (cell_at_assemble d m _ (percent s)).
  - unfold percent. rewrite lookup_fmap. by destruct (s !! m) as [[x|]|].
  - by eapply foldl_add_column_lookup.
Qed.

Lemma us_table_cells_witness :
  exists df, us_table us_errs_files_ex = Ok df
    /\ cell_at df "D" (column_label "perc_error_" (mkdate 2020 11 1) (mkdate 2020 12 1))
       = Some (Qc_of_Z (-7) / Qc_of_Z 100)%Qc.
Proof.
  destruct (is_ok_Ok (us_table us_errs_files_ex)) as [df Hdf]; [vm_compute; reflexivity|].
  exists df. split; [exact Hdf|].
  refine (eq_trans (us_table_cells [] (tail us_errs_files_ex) _ _ df _ _ "D" Hdf _ _) _).
  - vm_compute. reflexivity.
  - intros g p' e' Hg%list_elem_of_singleton. subst g. vm_compute. intros [= <- <-].
    discriminate.
  - reflexivity.
Defined.

(** X16. The state table takes the cells of its files as they are: a column
    of absolute errors and a column of squared errors hold, for every
    model, the value of the last file of their list with their dates. *)
Theorem states_table_cells (abs_files sq_files before after : list column_file)
    (fname : string) (s : gmap string (option Qc)) (df : DataFrame) (p e : date)
    (m : string) :
  states_table abs_files sq_files = Ok df ->
  get_dates_from_fname fname = Ok (p, e) ->
  (forall g p' e', g ∈ after -> get_dates_from_fname g.1 = Ok (p', e') ->
     (p', e') <> (p, e)) ->
  (abs_files = before ++ (fname, s) :: after ->
   cell_at df m (column_label "mean_abs_error_" p e) = mjoin (s !! m))
  /\ (sq_files = before ++ (fname, s) :: after ->
      cell_at df m (column_label "mean_sq_abs_error_" p e) = mjoin (s !! m)).
Proof.
  unfold states_table.
  destruct (assert (0 <? Z.of_nat (length abs_files))); [|done]. cbn [mbind result_bind].
  destruct (assert (0 <? Z.of_nat (length sq_files))); [|done]. cbn [mbind result_bind].
  destruct (foldl _ _ abs_files) as [d0|] eqn:Hd0; [|done]. cbn [mbind result_bind].
  destruct (foldl _ _ sq_files) as [d|] eqn:Hd; [|done]. cbn [mbind result_bind].
  intros [= <-] Hf Hlater. split; intros ->.
  - apply cell_at_assemble.
    rewrite (foldl_add_column_other _ _ _ _ _ _ Hd).
    + by apply (foldl_add_column_lookup _ id _ _ _ _ _ _ _ _ Hd0).
    + intros g p' e' _ _. unfold column_label. discriminate.
  - apply cell_at_assemble.
    by apply (foldl_add_column_lookup _ id _ _ _ _ _ _ _ _ Hd).
Qed.

Lemma states_table_cells_witness :
  exists df, states_table states_abs_errs_files_ex states_sq_errs_files_ex = Ok df
    /\ cell_at df "A" (column_label "mean_sq_abs_error_" (mkdate 2020 11 1) (mkdate 2020 12 1))
       = Some (Qc_of_Z 10000).
Proof.
  destruct (is_ok_Ok (states_table states_abs_errs_files_ex states_sq_errs_files_ex))
    as [df Hdf]; [vm_compute; reflexivity|].
  exists df. split; [exact Hdf|].
  refine (eq_trans (proj2 (states_table_cells _ _ [] [] _ _ df _ _ "A" Hdf _ _) eq_refl) _).
  - vm_compute. reflexivity.
  - intros g p' e' Hg. by apply elem_of_nil in Hg.
  - reflexivity.
Defined.

(** ** Baseline Comparator, continued *)

Lemma model_step_reads (df : StatesFrame) (n : Z) (cd : gmap string value) (m : string) :
  (m ∈ st_columns df
   /\ (m ≠ "Baseline" -> "beat_baseline-" +:+ m ∈ st_columns df)
   /\ (num_projections df m = n -> "error-" +:+ m ∈ st_columns df) ->
   model_step df n (Ok cd) m = Ok (model_entries df n m cd))
  /\ (~ (m ∈ st_columns df
         /\ (m ≠ "Baseline" -> "beat_baseline-" +:+ m ∈ st_columns df)
         /\ (num_projections df m = n -> "error-" +:+ m ∈ st_columns df)) ->
      model_step df n (Ok cd) m = Raise KeyError).
Proof.
  unfold model_step, model_entries, loc. cbn [mbind result_bind].
  destruct (decide (m ∈ st_columns df)) as [Hm|Hm]; cbn [mbind result_bind];
    [|split; [tauto|done]].
  destruct (decide (m ≠ "Baseline")) as [HB|HB].
  - destruct (decide ("beat_baseline-" +:+ m ∈ st_columns df)) as [Hb|Hb];
      cbn [mbind result_bind]; [|split; [tauto|done]].
    destruct (abs_sum df ("beat_baseline-" +:+ m)); cbn [mbind result_bind];
      (destruct (Z.eqb_spec (num_projections df m) n) as [Hn|Hn]; [|split; [done|tauto]]);
      (destruct (decide ("error-" +:+ m ∈ st_columns df)) as [He|He];
       cbn [mbind result_bind]; [split; [done|tauto]|split; [tauto|done]]).
  - cbn [mbind result_bind].
    destruct (Z.eqb_spec (num_projections df m) n) as [Hn|Hn]; [|split; [done|tauto]].
    destruct (decide ("error-" +:+ m ∈ st_columns df)) as [He|He];
      cbn [mbind result_bind]; [split; [done|tauto]|split; [tauto|done]].
Qed.

Lemma model_step_cases (df_states : StatesFrame) (cd : gmap string value) (m : string) :
  model_step (drop_US df_states) (num_states df_states) (Ok cd) m
  = if decide (columns_read df_states m)
    then Ok (model_entries (drop_US df_states) (num_states df_states) m cd)
    else Raise KeyError.
Proof.
  destruct (model_step_reads (drop_US df_states) (num_states df_states) cd m) as [Hyes Hno].
  destruct (decide (columns_read df_states m)) as [H|H]; [by apply Hyes|by apply Hno].
Qed.

Lemma foldl_model_step_cases (df_states : StatesFrame) (ms : list string)
    (cd : gmap string value) :
  foldl (model_step (drop_US df_states) (num_states df_states)) (Ok cd) ms
  = if decide (Forall (columns_read df_states) ms)
    then Ok (write_entries (drop_US df_states) (num_states df_states) cd ms)
    else Raise KeyError.
Proof.
  revert cd. induction ms as [|m ms IH]; intros cd; [done|].
  cbn [foldl]. rewrite model_step_cases.
  destruct (decide (columns_read df_states m)) as [Hm|Hm].
  - rewrite IH. unfold write_entries. cbn [foldl].
    destruct (decide (Forall (columns_read df_states) ms)) as [Hms|Hms].
    + by rewrite decide_True by (by constructor).
    + rewrite decide_False; [done|]. by intros [_ ?]%Forall_cons.
  - rewrite foldl_model_step_Raise. rewrite decide_False; [done|].
    by intros [? _]%Forall_cons.
Qed.

Lemma baseline_col_data_cases (df_states : StatesFrame) :
  baseline_col_data df_states
  = if decide (Forall (columns_read df_states) (model_names (drop_US df_states)))
    then Ok (write_entries (drop_US df_states) (num_states df_states)
               {["num_states" := Int (num_states df_states)]}
               (model_names (drop_US df_states)))
    else Raise KeyError.
Proof. apply foldl_model_step_cases. Qed.

(** X17. The comparator raises nothing but [KeyError], and returns exactly
    when the file has the columns it reads: [Baseline], a [beat_baseline-]
    column for every model column, and an [error-] column for the baseline
    and every model that have a projection for every state. A file without
    a [Baseline] column always raises. *)
Theorem baseline_col_data_columns (df_states : StatesFrame) :
  (forall e, baseline_col_data df_states = Raise e -> e = KeyError)
  /\ (is_ok (baseline_col_data df_states) = true
      <-> forall m, m ∈ model_names (drop_US df_states) -> columns_read df_states m)
  /\ ("Baseline" ∉ st_columns df_states -> baseline_col_data df_states = Raise KeyError).
Proof.
  rewrite baseline_col_data_cases.
  destruct (decide (Forall _ _)) as [Hall|Hall].
  - split; [done|]. split; [by rewrite <- Forall_forall|].
    intros HB. rewrite Forall_forall in Hall.
    destruct (Hall "Baseline") as [Hin _]; [by left|done].
  - split; [by intros e [= <-]|]. split; [|done].
    rewrite <- Forall_forall. split; [done|tauto].
Qed.

Lemma baseline_col_data_columns_witness :
  baseline_col_data {| st_columns := ["YYG-ParamSearch"; "error-YYG-ParamSearch"];
                       st_rows := [] |}
  = Raise KeyError.
Proof.
  apply (proj2 (proj2 (baseline_col_data_columns _))).
  vm_compute. intros H. repeat (apply elem_of_cons in H as [H|H]; [discriminate|]).
  by apply elem_of_nil in H.
Defined.

Lemma model_entries_is_Some (df : StatesFrame) (n : Z) (m : string)
    (cd : gmap string value) (k : string) :
  is_Some (model_entries df n m cd !! k)
  <-> is_Some (cd !! k)
      \/ k = "mean_abs_error-" +:+ m
      \/ (m ≠ "Baseline"
          /\ (k = "num_states_with_projections-" +:+ m
              \/ k = "num_states_beat_baseline-" +:+ m
              \/ k = "perc_beat_baseline-" +:+ m)).
Proof.
  unfold model_entries.
  rewrite lookup_insert_is_Some'.
  destruct (decide (m ≠ "Baseline")) as [HB|HB].
  - destruct (abs_sum df ("beat_baseline-" +:+ m));
      rewrite !lookup_insert_is_Some'; intuition (subst; auto).
  - intuition (subst; auto).
Qed.

Lemma write_entries_is_Some (df : StatesFrame) (n : Z) (ms : list string)
    (cd : gmap string value) (k : string) :
  is_Some (write_entries df n cd ms !! k)
  <-> is_Some (cd !! k)
      \/ exists m, m ∈ ms
           /\ (k = "mean_abs_error-" +:+ m
               \/ (m ≠ "Baseline"
                   /\ (k = "num_states_with_projections-" +:+ m
                       \/ k = "num_states_beat_baseline-" +:+ m
                       \/ k = "perc_beat_baseline-" +:+ m))).
Proof.
  unfold write_entries. revert cd. induction ms as [|m ms IH]; intros cd; cbn [foldl].
  - split; [by left|]. intros [?|(m & Hm & _)]; [done|by apply elem_of_nil in Hm].
  - rewrite IH, model_entries_is_Some. split.
    + intros [[?|?]|(m' & Hm' & ?)]; [by left|right; exists m; split; [by left|done]|].
      right. exists m'. split; [by right|done].
    + intros [?|(m' & [->|Hm']%elem_of_cons & ?)]; [by left; left|by left; right|].
      right. by exists m'.
Qed.

(** X18. The keys of [col_data] are [num_states], a [mean_abs_error-] key
    for the baseline and every model, and the three count and percentage
    keys for every model other than the baseline; nothing else is written. *)
Theorem col_data_keys (df_states : StatesFrame) (cd : gmap string value) (k : string) :
  baseline_col_data df_states = Ok cd ->
  (is_Some (cd !! k)
   <-> k = "num_states"
       \/ exists m, m ∈ model_names (drop_US df_states)
            /\ (k = "mean_abs_error-" +:+ m
                \/ (m ≠ "Baseline"
                    /\ (k = "num_states_with_projections-" +:+ m
                        \/ k = "num_states_beat_baseline-" +:+ m
                        \/ k = "perc_beat_baseline-" +:+ m)))).
Proof.
  intros ->%baseline_col_data_entries.
  rewrite write_entries_is_Some, lookup_singleton_is_Some.
  split; (intros [Hk|Hm]; [by left|by right]).
Qed.

Lemma col_data_keys_witness :
  exists cd, baseline_col_data df_two_of_three = Ok cd
    /\ is_Some (cd !! "perc_beat_baseline-YYG-ParamSearch")
    /\ ~ is_Some (cd !! "YYG-ParamSearch").
Proof.
  destruct (is_ok_Ok (baseline_col_data df_two_of_three)) as [cd Hcd];
    [vm_compute; reflexivity|].
  exists cd. split; [exact Hcd|]. split.
  - apply (proj2 (col_data_keys df_two_of_three cd _ Hcd)).
    right. exists "YYG-ParamSearch". split; [vm_compute; repeat constructor|].
    right. split; [discriminate|]. right. right. reflexivity.
  - intros H%(proj1 (col_data_keys df_two_of_three cd _ Hcd)).
    destruct H as [H|(m & _ & [H|(_ & [H|[H|H]])])]; discriminate.
Defined.

Lemma num_projections_bounds (df : StatesFrame) (c : string) :
  0 <= num_projections df c <= Z.of_nat (length (st_rows df)).
Proof.
  unfold num_projections.
  pose proof (length_filter (fun row : string * (string -> option Qc) => is_Some (row.2 c))
                (st_rows df)). lia.
Qed.

(** X19. [col_data] keeps the number of states that are not [US] under
    [num_states], and for every model other than the baseline the number of
    its projections, which lies between 0 and [num_states]. *)
Theorem col_data_counts (df_states : StatesFrame) (cd : gmap string value) :
  baseline_col_data df_states = Ok cd ->
  cd !! "num_states" = Some (Int (num_states df_states))
  /\ num_states df_states
     = Z.of_nat (length (filter (fun row => row.1 ≠ "US") (st_rows df_states)))
  /\ (forall m, m ∈ model_names (drop_US df_states) -> m ≠ "Baseline" ->
        cd !! ("num_states_with_projections-" +:+ m)
        = Some (Int (num_projections (drop_US df_states) m))
        /\ 0 <= num_projections (drop_US df_states) m <= num_states df_states).
Proof.
  intros ->%baseline_col_data_entries. split; [|split; [done|]].
  - rewrite entries_unchanged; [apply lookup_singleton_eq|].
    intros m cd _. by apply model_entries_other.
  - intros m Hm HB. split; [|apply num_projections_bounds].
    apply (entries_written _ _ _ _ m); [done| |].
    + intros cd. by apply model_entries_beat.
    + intros m' cd Hne. apply model_entries_other; try discriminate.
      intros Heq. by apply (inj (String.app _)) in Heq.
Qed.

Lemma col_data_counts_witness :
  exists cd, baseline_col_data df_two_of_three = Ok cd
    /\ cd !! "num_states" = Some (Int 3)
    /\ cd !! "num_states_with_projections-YYG-ParamSearch" = Some (Int 2).
Proof.
  destruct (is_ok_Ok (baseline_col_data df_two_of_three)) as [cd Hcd];
    [vm_compute; reflexivity|].
  exists cd. split; [exact Hcd|].
  destruct (col_data_counts df_two_of_three cd Hcd) as (Hn & _ & Hm).
  split; [exact Hn|].
  exact (proj1 (Hm "YYG-ParamSearch" ltac:(vm_compute; repeat constructor)
                  ltac:(discriminate))).
Defined.

Lemma sum_list_nonneg (l : list Qc) : Forall (fun x => 0 ≤ x)%Qc l -> (0 ≤ sum_list l)%Qc.
Proof.
  unfold sum_list. induction 1 as [|x l Hx _ IH]; simpl; [done|].
  by apply Qcplus_nonneg_nonneg.
Qed.

Lemma abs_sum_nonneg (df : StatesFrame) (c : string) (s : Qc) :
  abs_sum df c = Some s -> (0 ≤ s)%Qc.
Proof.
  unfold abs_sum.
  assert (Forall (fun x => 0 ≤ x)%Qc
            (omap (fun row : string * (string -> option Qc) => Qcabs <$> row.2 c)
               (st_rows df))) as Hall.
  { apply Forall_forall. intros x (row & _ & Hx)%list_elem_of_omap.
    destruct (row.2 c) as [y|]; [|done]. injection Hx as <-. apply Qcabs_nonneg. }
  destruct (omap _ _) as [|x l]; [done|]. intros [= <-].
  by apply (sum_list_nonneg (x :: l)).
Qed.

Lemma truediv_nonneg (q : Qc) (n : Z) :
  (0 ≤ q)%Qc -> 0 <= n ->
  truediv (Fin q) n = NaN \/ truediv (Fin q) n = PosInf
  \/ exists r, truediv (Fin q) n = Fin r /\ (0 ≤ r)%Qc.
Proof.
  intros Hq Hn. unfold truediv. destruct (Z.eqb_spec n 0) as [->|Hne].
  - destruct (decide (q = 0%Qc)); [by left|]. right. left.
    rewrite decide_True; [done|]. by destruct (Qcle_lt_or_eq _ _ Hq).
  - right. right. eexists. split; [done|].
    unfold Qcdiv. rewrite <- (Qcmult_0_l (/ Qc_of_Z n)).
    apply Qcmult_le_compat_r; [done|]. apply Qclt_le_weak, Qcinv_pos.
    rewrite <- Z2Qc_inj_0, <- Z2Qc_inj_lt. lia.
Qed.

(** X20. No entry of [col_data] is negative: a mean absolute error is NaN
    or a number that is not negative, and a percentage is NaN, plus
    infinity (a count over no projection) or a number that is not
    negative. *)
Theorem col_data_nonneg (df_states : StatesFrame) (cd : gmap string value) (m : string) :
  baseline_col_data df_states = Ok cd ->
  m ∈ model_names (drop_US df_states) ->
  (exists x, cd !! ("mean_abs_error-" +:+ m) = Some (Float x)
     /\ (x = NaN \/ exists q, x = Fin q /\ (0 ≤ q)%Qc))
  /\ (m ≠ "Baseline" ->
      exists x, cd !! ("perc_beat_baseline-" +:+ m) = Some (Float x)
        /\ (x = NaN \/ x = PosInf \/ exists q, x = Fin q /\ (0 ≤ q)%Qc)).
Proof.
  intros Hcd Hm. split.
  - eexists. split; [by apply col_data_mean_abs_error|].
    destruct (_ =? _) eqn:Hn; [|by left].
    destruct (abs_sum (drop_US df_states) ("error-" +:+ m)) as [s|] eqn:Hs; [|by left].
    pose proof (abs_sum_Some_rows _ _ _ Hs) as Hrows.
    destruct (truediv_nonneg s (num_states df_states) (abs_sum_nonneg _ _ _ Hs))
      as [H|[H|H]]; [unfold num_states; lia|by left| |by right].
    exfalso. revert H. cbn [float_of_cell truediv].
    destruct (Z.eqb_spec (num_states df_states) 0) as [H0|_]; [|done].
    unfold num_states in H0. lia.
  - intros HB. destruct (col_data_beat_baseline _ _ _ Hcd Hm HB) as [_ Hperc].
    destruct (abs_sum (drop_US df_states) ("beat_baseline-" +:+ m)) as [s|] eqn:Hs;
      [|eexists; split; [exact Hperc|by left]].
    eexists. split; [exact Hperc|].
    apply truediv_nonneg; [by eapply abs_sum_nonneg|apply num_projections_bounds].
Qed.

Lemma col_data_nonneg_witness :
  exists cd x, baseline_col_data df_signed_errors = Ok cd
    /\ cd !! "mean_abs_error-YYG-ParamSearch" = Some (Float x)
    /\ (x = NaN \/ exists q, x = Fin q /\ (0 ≤ q)%Qc).
Proof.
  destruct (is_ok_Ok (baseline_col_data df_signed_errors)) as [cd Hcd];
    [vm_compute; reflexivity|].
  destruct (proj1 (col_data_nonneg df_signed_errors cd "YYG-ParamSearch" Hcd
                     ltac:(vm_compute; repeat constructor))) as (x & Hx & Hpos).
  by exists cd, x.
Defined.



Lemma NoDup_List_filter {A} (f : A -> bool) (l : list A) : NoDup l -> NoDup (List.filter f l).
Proof.
  induction 1 as [|x l Hx _ IH]; simpl; [constructor|].
  destruct (f x); [|done]. constructor; [|done].
  intros Hin%list_elem_of_In%filter_In. apply Hx, list_elem_of_In. tauto.
Qed.



(** ** The rows of the baseline summary *)

Lemma foldl_baseline_step_Raise (files : list (string * StatesFrame)) (e : exn) :
  foldl baseline_step (Raise e) files = Raise e.
Proof. induction files as [|f files IH]; [done|apply IH]. Qed.

Lemma baseline_step_Ok (d0 d : gmap string (gmap string value)) (f : string * StatesFrame) :
  baseline_step (Ok d0) f = Ok d ->
  exists k cd, baseline_col_data f.2 = Ok cd /\ d = <[k := cd]> d0.
Proof.
  unfold baseline_step. cbn [mbind result_bind].
  destruct (get_dates_from_fname f.1) as [[p e]|]; [|done]. cbn [mbind result_bind].
  destruct (baseline_col_data f.2) as [cd|]; [|done]. cbn [mbind result_bind].
  intros [= <-]. eauto.
Qed.

(** Every [col_data] of the summary is the one of a file, and there is one
    when there is a file. *)
Lemma foldl_baseline_step_values (files : list (string * StatesFrame))
    (d0 d : gmap string (gmap string value)) :
  foldl baseline_step (Ok d0) files = Ok d ->
  (forall k cd, d !! k = Some cd ->
     d0 !! k = Some cd \/ exists f, f ∈ files /\ baseline_col_data f.2 = Ok cd)
  /\ (d0 ≠ ∅ \/ files ≠ [] -> d ≠ ∅).
Proof.
  revert d0. induction files as [|f files IH]; intros d0; cbn [foldl].
  - intros [= ->]. split; [by left|]. by intros [?|?].
  - destruct (baseline_step (Ok d0) f) as [d1|err] eqn:Hstep;
      [|by rewrite foldl_baseline_step_Raise].
    apply baseline_step_Ok in Hstep as (k1 & cd1 & Hcd1 & ->).
    intros [Hvals Hne]%IH. split.
    + intros k cd Hk. destruct (Hvals k cd Hk) as [Hin|(g & Hg & Hcd)].
      * destruct (decide (k1 = k)) as [<-|Hkk].
        -- rewrite lookup_insert_eq in Hin. injection Hin as <-.
           right. exists f. split; [by left|done].
        -- rewrite lookup_insert_ne in Hin by done. by left.
      * right. exists g. split; [by right|done].
    + intros _. apply Hne. left. apply insert_non_empty.
Qed.

Lemma elem_of_baseline_index (d : gmap string (gmap string value)) (k : string) :
  k ∈ baseline_index d <-> exists label cd, d !! label = Some cd /\ is_Some (cd !! k).
Proof.
  unfold baseline_index. rewrite elem_of_elements, elem_of_union_list. split.
  - intros (X & HX & Hk). apply list_elem_of_fmap in HX as (cd & -> & Hcd).
    apply list_elem_of_fmap in Hcd as ([label cd'] & -> & Hin).
    apply elem_of_map_to_list in Hin. exists label, cd'. split; [done|].
    by apply elem_of_dom.
  - intros (label & cd & Hd & Hk). exists (dom cd). split; [|by apply elem_of_dom].
    apply list_elem_of_fmap. exists cd. split; [done|].
    apply list_elem_of_fmap. exists (label, cd). split; [done|].
    by apply elem_of_map_to_list.
Qed.

Lemma col_data_is_Some (df_states : StatesFrame) (cd : gmap string value) (k : string) :
  baseline_col_data df_states = Ok cd ->
  (is_Some (cd !! k) <-> k = "num_states" \/ model_key df_states k).
Proof.
  intros ->%baseline_col_data_entries.
  rewrite write_entries_is_Some, lookup_singleton_is_Some.
  split; (intros [Hk|Hm]; [by left|by right]).
Qed.

(** The index of the summary: [num_states] and the keys of the models of
    the files. *)
Lemma baseline_index_keys (files : list (string * StatesFrame))
    (d : gmap string (gmap string value)) :
  baseline_comparison files = Ok d ->
  "num_states" ∈ baseline_index d
  /\ forall k, k ∈ baseline_index d ->
       k = "num_states" \/ exists f, f ∈ files /\ model_key f.2 k.
Proof.
  unfold baseline_comparison. destruct files as [|f0 files]; [done|].
  change (assert _) with (Ok tt : result unit). cbn [mbind result_bind].
  intros [Hvals Hne]%foldl_baseline_step_values.
  split.
  - destruct (map_choose d) as (label & cd & Hcd); [apply Hne; by right|].
    apply elem_of_baseline_index. exists label, cd. split; [done|].
    destruct (Hvals _ _ Hcd) as [Hin|(f & _ & Hf)]; [by rewrite lookup_empty in Hin|].
    apply (col_data_is_Some _ _ _ Hf). by left.
  - intros k (label & cd & Hcd & Hk)%elem_of_baseline_index.
    destruct (Hvals _ _ Hcd) as [Hin|(f & Hf & Hcdf)]; [by rewrite lookup_empty in Hin|].
    destruct (proj1 (col_data_is_Some _ _ _ Hcdf) Hk) as [Hn|Hm]; [by left|].
    right. by exists f.
Qed.

Lemma elem_of_sorted_filter (f : string -> bool) (l : list string) (k : string) :
  k ∈ sorted (List.filter f l) <-> k ∈ l /\ f k = true.
Proof.
  unfold sorted. rewrite merge_sort_Permutation, list_elem_of_In, filter_In.
  by rewrite list_elem_of_In.
Qed.

Lemma elem_of_row_ordering (index : list string) (k : string) :
  k ∈ row_ordering index
  <-> k = "num_states"
      \/ (k ∈ index
          /\ (contains "num_states_with_projections" k = true
              \/ contains "num_states_beat_baseline" k = true
              \/ contains "perc_beat_baseline" k = true
              \/ contains "mean_abs_error" k = true)).
Proof.
  unfold row_ordering.
  rewrite !elem_of_app, list_elem_of_singleton, !elem_of_sorted_filter. tauto.
Qed.

(** A key of a model holds the name of its kind. *)
Lemma model_key_contains (df_states : StatesFrame) (k : string) :
  model_key df_states k ->
  contains "num_states_with_projections" k = true
  \/ contains "num_states_beat_baseline" k = true
  \/ contains "perc_beat_baseline" k = true
  \/ contains "mean_abs_error" k = true.
Proof.
  intros (m & _ & [->|(_ & [->|[->| ->]])]).
  - do 3 right. reflexivity.
  - left. reflexivity.
  - right. left. reflexivity.
  - do 2 right. left. reflexivity.
Qed.

Lemma baseline_rows_Ok (d : gmap string (gmap string value)) :
  "num_states" ∈ baseline_index d ->
  baseline_rows d = Ok (row_ordering (baseline_index d)).
Proof.
  intros Hn. unfold baseline_rows. cbn zeta. rewrite decide_True; [done|].
  apply Forall_forall. intros k [->|[Hk _]]%elem_of_row_ordering; done.
Qed.

(** X22. The summary loses no row: for files the comparator accepts, the
    rows of the summary start with [num_states], hold every key of the
    [col_data] of every file, and hold nothing but such keys. *)
Theorem baseline_summary_rows_complete (projections_files : list (string * StatesFrame))
    (d : gmap string (gmap string value)) :
  baseline_comparison projections_files = Ok d ->
  exists rows,
    baseline_summary_rows projections_files = Ok ("num_states" :: rows)
    /\ (forall label cd k, d !! label = Some cd -> is_Some (cd !! k) ->
          k ∈ "num_states" :: rows)
    /\ (forall k, k ∈ "num_states" :: rows ->
          exists label cd, d !! label = Some cd /\ is_Some (cd !! k)).
Proof.
  intros Hd. destruct (baseline_index_keys _ _ Hd) as [Hn Hkeys].
  exists (tail (row_ordering (baseline_index d))).
  change ("num_states" :: tail (row_ordering (baseline_index d)))
    with (row_ordering (baseline_index d)).
  split; [|split].
  - unfold baseline_summary_rows. rewrite Hd. cbn [mbind result_bind].
    by apply baseline_rows_Ok.
  - intros label cd k Hcd Hk.
    assert (k ∈ baseline_index d) as Hin by (apply elem_of_baseline_index; eauto).
    apply elem_of_row_ordering.
    destruct (Hkeys k Hin) as [->|(f & _ & Hf)]; [by left|].
    right. split; [done|]. by eapply model_key_contains.
  - intros k [->|[Hk _]]%elem_of_row_ordering; by apply elem_of_baseline_index.
Qed.

Lemma baseline_summary_rows_complete_witness :
  exists rows,
    baseline_summary_rows [("projections_2020-11-01_2020-12-01.csv", df_two_of_three)]
    = Ok ("num_states" :: rows)
    /\ "perc_beat_baseline-YYG-ParamSearch" ∈ rows.
Proof.
  destruct (is_ok_Ok (baseline_comparison
              [("projections_2020-11-01_2020-12-01.csv", df_two_of_three)])) as [d Hd];
    [vm_compute; reflexivity|].
  destruct (baseline_summary_rows_complete _ d Hd) as (rows & Hrows & Hall & _).
  exists rows. split; [exact Hrows|].
  revert rows Hrows Hall. unfold baseline_summary_rows. rewrite Hd. cbn [mbind result_bind].
  intros rows Hrows _. revert rows Hrows. evaluate_with Hd.
  intros rows [= <-]. repeat constructor.
Defined.

Lemma NoDup_sorted_filter (f : string -> bool) (l : list string) :
  NoDup l -> NoDup (sorted (List.filter f l)).
Proof.
  intros Hl. unfold sorted. rewrite merge_sort_Permutation. by apply NoDup_List_filter.
Qed.

(** The four lists of [row_ordering] share no label when no label of the
    index holds two of the four names. *)
Lemma row_ordering_NoDup (index : list string) :
  NoDup index ->
  (forall k, k ∈ index ->
     (contains "num_states_with_projections" k = true ->
        contains "num_states_beat_baseline" k = false
        /\ contains "perc_beat_baseline" k = false
        /\ contains "mean_abs_error" k = false)
     /\ (contains "num_states_beat_baseline" k = true ->
           contains "perc_beat_baseline" k = false /\ contains "mean_abs_error" k = false)
     /\ (contains "perc_beat_baseline" k = true -> contains "mean_abs_error" k = false)) ->
  NoDup (row_ordering index).
Proof.
  intros Hnd Hex. unfold row_ordering. rewrite !NoDup_app.
  repeat split; try (by apply NoDup_sorted_filter); try apply NoDup_singleton.
  - intros k ->%list_elem_of_singleton.
    rewrite !elem_of_app, !elem_of_sorted_filter.
    intros [[_ H]|[[_ H]|[[_ H]|[_ H]]]]; discriminate H.
  - intros k [Hk H1]%elem_of_sorted_filter.
    destruct (Hex k Hk) as (Hex1 & _). destruct (Hex1 H1) as (H2 & H3 & H4).
    rewrite !elem_of_app, !elem_of_sorted_filter.
    intros [[_ H]|[[_ H]|[_ H]]]; congruence.
  - intros k [Hk H2]%elem_of_sorted_filter.
    destruct (Hex k Hk) as (_ & Hex2 & _). destruct (Hex2 H2) as (H3 & H4).
    rewrite !elem_of_app, !elem_of_sorted_filter.
    intros [[_ H]|[_ H]]; congruence.
  - intros k [Hk H3]%elem_of_sorted_filter.
    destruct (Hex k Hk) as (_ & _ & Hex3). specialize (Hex3 H3).
    rewrite elem_of_sorted_filter. intros [_ H]; congruence.
Qed.

(** The key of a model with a plain name holds the name of its kind only. *)
Lemma model_key_plain (df_states : StatesFrame) (k : string) :
  model_key df_states k ->
  (forall m, m ∈ model_names (drop_US df_states) -> plain_name m) ->
  (contains "num_states_with_projections" k = true ->
     contains "num_states_beat_baseline" k = false
     /\ contains "perc_beat_baseline" k = false
     /\ contains "mean_abs_error" k = false)
  /\ (contains "num_states_beat_baseline" k = true ->
        contains "perc_beat_baseline" k = false /\ contains "mean_abs_error" k = false)
  /\ (contains "perc_beat_baseline" k = true -> contains "mean_abs_error" k = false).
Proof.
  intros (m & Hm & Hk) Hplain. destruct (Hplain m Hm) as (P1 & P2 & P3 & P4).
  destruct Hk as [->|(_ & [->|[->| ->]])].
  - assert (contains "num_states_with_projections" ("mean_abs_error-" +:+ m)
            = contains "num_states_with_projections" m) as -> by reflexivity.
    assert (contains "num_states_beat_baseline" ("mean_abs_error-" +:+ m)
            = contains "num_states_beat_baseline" m) as -> by reflexivity.
    assert (contains "perc_beat_baseline" ("mean_abs_error-" +:+ m)
            = contains "perc_beat_baseline" m) as -> by reflexivity.
    rewrite P1, P2, P3. repeat split; discriminate.
  - assert (contains "num_states_beat_baseline" ("num_states_with_projections-" +:+ m)
            = contains "num_states_beat_baseline" m) as -> by reflexivity.
    assert (contains "perc_beat_baseline" ("num_states_with_projections-" +:+ m)
            = contains "perc_beat_baseline" m) as -> by reflexivity.
    assert (contains "mean_abs_error" ("num_states_with_projections-" +:+ m)
            = contains "mean_abs_error" m) as -> by reflexivity.
    rewrite P2, P3, P4. repeat split; discriminate.
  - assert (contains "num_states_with_projections" ("num_states_beat_baseline-" +:+ m)
            = contains "num_states_with_projections" m) as -> by reflexivity.
    assert (contains "perc_beat_baseline" ("num_states_beat_baseline-" +:+ m)
            = contains "perc_beat_baseline" m) as -> by reflexivity.
    assert (contains "mean_abs_error" ("num_states_beat_baseline-" +:+ m)
            = contains "mean_abs_error" m) as -> by reflexivity.
    rewrite P1, P3, P4. repeat split; discriminate.
  - assert (contains "num_states_with_projections" ("perc_beat_baseline-" +:+ m)
            = contains "num_states_with_projections" m) as -> by reflexivity.
    assert (contains "num_states_beat_baseline" ("perc_beat_baseline-" +:+ m)
            = contains "num_states_beat_baseline" m) as -> by reflexivity.
    assert (contains "mean_abs_error" ("perc_beat_baseline-" +:+ m)
            = contains "mean_abs_error" m) as -> by reflexivity.
    rewrite P1, P2, P4. repeat split; discriminate.
Qed.

Lemma contains_app_r (pat t s : string) :
  contains pat s = true -> contains pat (t +:+ s) = true.
Proof.
  intros Hs. induction t as [|c t IH]; [done|].
  change (String.prefix pat (String c (t +:+ s)) || contains pat (t +:+ s) = true).
  rewrite IH. apply orb_true_r.
Qed.

Lemma NoDup_baseline_index (d : gmap string (gmap string value)) :
  NoDup (baseline_index d).
Proof. unfold baseline_index. apply NoDup_elements. Qed.

(** X23. With model names that hold none of the four names the rows are
    grouped by, the summary has every key of the files exactly once. *)
Theorem baseline_summary_rows_NoDup (projections_files : list (string * StatesFrame))
    (d : gmap string (gmap string value)) :
  baseline_comparison projections_files = Ok d ->
  (forall f m, f ∈ projections_files -> m ∈ model_names (drop_US f.2) -> plain_name m) ->
  exists rows,
    baseline_summary_rows projections_files = Ok rows
    /\ NoDup rows
    /\ rows ≡ₚ baseline_index d.
Proof.
  intros Hd Hplain. destruct (baseline_index_keys _ _ Hd) as [Hn Hkeys].
  exists (row_ordering (baseline_index d)).
  assert (NoDup (row_ordering (baseline_index d))) as Hnd.
  { apply row_ordering_NoDup; [apply NoDup_baseline_index|].
    intros k [->|(f & Hf & Hk)]%Hkeys.
    - repeat split; discriminate.
    - apply (model_key_plain f.2 k Hk). intros m Hm. by apply (Hplain f). }
  split; [|split; [done|]].
  - unfold baseline_summary_rows. rewrite Hd. cbn [mbind result_bind].
    by apply baseline_rows_Ok.
  - apply NoDup_Permutation; [done|apply NoDup_baseline_index|].
    intros k. rewrite elem_of_row_ordering. split.
    + by intros [->|[Hk _]].
    + intros Hk. destruct (Hkeys k Hk) as [->|(f & _ & Hf)]; [by left|].
      right. split; [done|]. by eapply model_key_contains.
Qed.

Lemma baseline_summary_rows_NoDup_witness :
  baseline_summary_rows [("projections_2020-11-01_2020-12-01.csv", df_two_of_three)]
  = Ok ["num_states"; "num_states_with_projections-YYG-ParamSearch";
        "num_states_beat_baseline-YYG-ParamSearch"; "perc_beat_baseline-YYG-ParamSearch";
        "mean_abs_error-Baseline"; "mean_abs_error-YYG-ParamSearch"].
Proof.
  destruct (is_ok_Ok (baseline_comparison
              [("projections_2020-11-01_2020-12-01.csv", df_two_of_three)])) as [d Hd];
    [vm_compute; reflexivity|].
  destruct (baseline_summary_rows_NoDup _ d Hd) as (rows & Hrows & _).
  - intros f m ->%list_elem_of_singleton Hm.
    vm_compute in Hm. repeat (apply elem_of_cons in Hm as [->|Hm]; [by vm_compute|]).
    by apply elem_of_nil in Hm.
  - rewrite Hrows. revert rows Hrows.
    unfold baseline_summary_rows. rewrite Hd. cbn [mbind result_bind]. evaluate_with Hd.
    by intros rows [= <-].
Defined.

(** X24. A model whose name holds [mean_abs_error] has the rows of its
    counts and of its share twice in the summary: once in their own group
    and once among the mean errors. *)
Theorem baseline_summary_rows_repeat (projections_files : list (string * StatesFrame))
    (d : gmap string (gmap string value)) (label : string) (cd : gmap string value)
    (m k : string) :
  baseline_comparison projections_files = Ok d ->
  d !! label = Some cd ->
  is_Some (cd !! k) ->
  k = "num_states_with_projections-" +:+ m
  \/ k = "num_states_beat_baseline-" +:+ m
  \/ k = "perc_beat_baseline-" +:+ m ->
  contains "mean_abs_error" m = true ->
  exists l1 l2 l3,
    baseline_summary_rows projections_files = Ok (l1 ++ [k] ++ l2 ++ [k] ++ l3).
Proof.
  intros Hd Hcd Hk Hkind Hm. destruct (baseline_index_keys _ _ Hd) as [Hn _].
  assert (k ∈ baseline_index d) as Hin by (apply elem_of_baseline_index; eauto).
  assert (k ∈ sorted (List.filter (contains "mean_abs_error") (baseline_index d)))
    as (c & e & Hc)%list_elem_of_split.
  { apply elem_of_sorted_filter. split; [done|].
    destruct Hkind as [->|[->| ->]]; by apply contains_app_r. }
  unfold baseline_summary_rows. rewrite Hd. cbn [mbind result_bind].
  rewrite (baseline_rows_Ok _ Hn). unfold row_ordering. rewrite Hc.
  set (s1 := sorted (List.filter (contains "num_states_with_projections") (baseline_index d))).
  set (s2 := sorted (List.filter (contains "num_states_beat_baseline") (baseline_index d))).
  set (s3 := sorted (List.filter (contains "perc_beat_baseline") (baseline_index d))).
  destruct Hkind as [Hkind|[Hkind|Hkind]].
  - assert (k ∈ s1) as (a & b & ->)%list_elem_of_split.
    { apply elem_of_sorted_filter. split; [done|]. by rewrite Hkind. }
    exists ("num_states" :: a), (b ++ s2 ++ s3 ++ c), e.
    f_equal. cbn [app]. by rewrite <- !app_assoc.
  - assert (k ∈ s2) as (a & b & ->)%list_elem_of_split.
    { apply elem_of_sorted_filter. split; [done|]. by rewrite Hkind. }
    exists ("num_states" :: s1 ++ a), (b ++ s3 ++ c), e.
    f_equal. cbn [app]. by rewrite <- !app_assoc.
  - assert (k ∈ s3) as (a & b & ->)%list_elem_of_split.
    { apply elem_of_sorted_filter. split; [done|]. by rewrite Hkind. }
    exists ("num_states" :: s1 ++ s2 ++ a), (b ++ c), e.
    f_equal. cbn [app]. by rewrite <- !app_assoc.
Qed.

Lemma baseline_summary_rows_repeat_witness :
  exists l1 l2 l3,
    baseline_summary_rows [("projections_2020-11-01_2020-12-01.csv", df_category_name)]
    = Ok (l1 ++ ["num_states_with_projections-X-mean_abs_error"] ++ l2
             ++ ["num_states_with_projections-X-mean_abs_error"] ++ l3).
Proof.
  destruct (is_ok_Ok (baseline_comparison
              [("projections_2020-11-01_2020-12-01.csv", df_category_name)])) as [d Hd];
    [vm_compute; reflexivity|].
  destruct (is_ok_Ok (baseline_col_data df_category_name)) as [cd Hcd];
    [vm_compute; reflexivity|].
  assert (d !! "2020-11-01_2020-12-01" = Some cd) as Hl.
  { revert Hd. unfold baseline_comparison.
    change (assert _) with (Ok tt : result unit). cbn [mbind result_bind foldl].
    unfold baseline_step. cbn [mbind result_bind fst snd]. rewrite Hcd.
    change (get_dates_from_fname _) with
      (Ok (mkdate 2020 11 1, mkdate 2020 12 1) : result (date * date)).
    cbn [mbind result_bind]. intros [= <-]. apply lookup_insert_eq. }
  apply (baseline_summary_rows_repeat _ d _ cd "X-mean_abs_error" _ Hd Hl).
  - evaluate_with Hcd. eauto.
  - by left.
  - reflexivity.
Defined.

(** ** The output files *)

Lemma string_of_uint_chars (d : Decimal.uint) :
  string_forallb (fun c => is_digit c || Ascii.eqb c "-") (NilEmpty.string_of_uint d) = true.
Proof. induction d as [|d IH|d IH|d IH|d IH|d IH|d IH|d IH|d IH|d IH|d IH]; done. Qed.

Lemma str_int_chars (n : Z) :
  string_forallb (fun c => is_digit c || Ascii.eqb c "-") (str_int n) = true.
Proof.
  unfold str_int. destruct (Z.to_int n) as [d|d]; cbn [NilEmpty.string_of_int].
  - apply string_of_uint_chars.
  - cbn [string_forallb]. apply string_of_uint_chars.
Qed.

Lemma str_int_inj (n1 n2 : Z) : str_int n1 = str_int n2 -> n1 = n2.
Proof.
  unfold str_int. intros Heq.
  pose proof (NilEmpty.isi (Z.to_int n1)) as H1. rewrite Heq, NilEmpty.isi in H1.
  injection H1 as H1. by rewrite <- (DecimalZ.of_to n1), <- (DecimalZ.of_to n2), H1.
Qed.

Lemma format_weeks_chars (w : option Z) : string_forallb weeks_char (format_weeks w) = true.
Proof.
  destruct w as [n|]; [|done].
  apply (string_forallb_impl (fun c => is_digit c || Ascii.eqb c "-")); [|apply str_int_chars].
  intros c Hc. unfold weeks_char. by rewrite Hc.
Qed.

Lemma format_weeks_inj (w1 w2 : option Z) : format_weeks w1 = format_weeks w2 -> w1 = w2.
Proof.
  destruct w1 as [n1|], w2 as [n2|]; cbn [format_weeks]; intros Heq.
  - by rewrite (str_int_inj _ _ Heq).
  - pose proof (str_int_chars n1) as H. rewrite Heq in H. discriminate H.
  - pose proof (str_int_chars n2) as H. rewrite <- Heq in H. discriminate H.
  - done.
Qed.

(** Two strings of such characters, each followed by [_], are the same when
    what they start is. *)
Lemma weeks_prefix_inv (s1 s2 t1 t2 : string) :
  string_forallb weeks_char s1 = true -> string_forallb weeks_char s2 = true ->
  s1 +:+ String "_" t1 = s2 +:+ String "_" t2 -> s1 = s2 /\ t1 = t2.
Proof.
  revert s2. induction s1 as [|a s1 IH]; intros [|b s2]; cbn [string_forallb].
  - intros _ _ [= ->]. done.
  - intros _ [Hb _]%andb_prop [= <- _]. discriminate Hb.
  - intros [Ha _]%andb_prop _ [= -> _]. discriminate Ha.
  - intros [_ H1]%andb_prop [_ H2]%andb_prop [= -> Heq].
    destruct (IH _ H1 H2 Heq) as [-> ->]. done.
Qed.

(** A horizon does not start a name the way the date of a summary does. *)
Lemma weeks_prefix_letter (s t u : string) (c : ascii) :
  string_forallb weeks_char s = true -> weeks_char c = false -> c <> "_"%char ->
  s +:+ String "_" t <> String c u.
Proof.
  destruct s as [|a s]; cbn [string_forallb].
  - intros _ _ Hc [= <-]. done.
  - intros [Ha _]%andb_prop Hc _ [= -> _]. congruence.
Qed.

Lemma isoformat_app_inv (d1 d2 : date) (t1 t2 : string) :
  valid_ymd (year d1) (month d1) (day d1) = true ->
  valid_ymd (year d2) (month d2) (day d2) = true ->
  isoformat d1 +:+ t1 = isoformat d2 +:+ t2 -> d1 = d2.
Proof.
  intros H1 H2 Heq. apply string_app_inv in Heq as [Heq _].
  - by apply isoformat_inj.
  - by rewrite !isoformat_length.
Qed.

(** X25. The three summaries of [main] never share a file: in one output
    directory the names of the national, the state and the baseline
    summary differ, whatever the dates and horizons of the runs. *)
Theorem out_fnames_distinct (out_dir : string) (e1 e2 e3 : option date)
    (w1 w2 w3 : option Z) :
  out_fname_us out_dir e1 w1 <> out_fname_states out_dir e2 w2
  /\ out_fname_us out_dir e1 w1 <> out_fname out_dir e3 w3
  /\ out_fname_states out_dir e2 w2 <> out_fname out_dir e3 w3.
Proof.
  pose proof (format_weeks_chars w1) as Hw1. pose proof (format_weeks_chars w2) as Hw2.
  repeat split.
  - unfold out_fname_us, out_fname_states.
    destruct e1 as [d1|], e2 as [d2|]; intros Heq%(inj (String.app _)).
    + discriminate Heq.
    + injection Heq as Heq. symmetry in Heq. by apply weeks_prefix_letter in Heq.
    + injection Heq as Heq. by apply weeks_prefix_letter in Heq.
    + injection Heq as Heq. apply weeks_prefix_inv in Heq as [_ Heq]; [discriminate Heq|done..].
  - unfold out_fname_us, out_fname.
    destruct e1 as [d1|], e3 as [d3|]; intros Heq%(inj (String.app _)); discriminate Heq.
  - unfold out_fname_states, out_fname.
    destruct e2 as [d2|], e3 as [d3|]; intros Heq%(inj (String.app _)); discriminate Heq.
Qed.

(** Two names of one kind: the directory is the same, then what follows. *)
Ltac same_selection He1 He2 :=
  let Heq := fresh "Heq" in
  intros Heq%(inj (String.app _)); cbn [selection];
  first
    [ apply (inj (String.app _)) in Heq;
      by rewrite (isoformat_app_inv _ _ _ _ He1 He2 Heq)
    | injection Heq as Heq; symmetry in Heq; by apply weeks_prefix_letter in Heq
    | injection Heq as Heq; by apply weeks_prefix_letter in Heq
    | injection Heq as Heq; apply weeks_prefix_inv in Heq as [Heq _]; [|done..];
      by rewrite (format_weeks_inj _ _ Heq) ].

(** X26. The name of a summary tells the run: in one output directory two
    runs write the same national (state, baseline) summary only when they
    select their files by the same evaluation date, or by no date and the
    same horizon. *)
Theorem out_fname_selection (out_dir : string) (e1 e2 : option date) (w1 w2 : option Z) :
  valid_eval_date e1 -> valid_eval_date e2 ->
  (out_fname_us out_dir e1 w1 = out_fname_us out_dir e2 w2 ->
     selection e1 w1 = selection e2 w2)
  /\ (out_fname_states out_dir e1 w1 = out_fname_states out_dir e2 w2 ->
        selection e1 w1 = selection e2 w2)
  /\ (out_fname out_dir e1 w1 = out_fname out_dir e2 w2 ->
        selection e1 w1 = selection e2 w2).
Proof.
  pose proof (format_weeks_chars w1) as Hw1. pose proof (format_weeks_chars w2) as Hw2.
  intros He1 He2. unfold out_fname_us, out_fname_states, out_fname.
  repeat split; destruct e1 as [d1|], e2 as [d2|]; same_selection He1 He2.
Qed.

Lemma out_fname_selection_witness :
  out_fname_us "out" None (Some 4) = "out/summary_4_weeks_ahead_us.csv"
  /\ out_fname_us "out" None (Some 4) <> out_fname_us "out" None (Some 14)
  /\ out_fname_us "out" None (Some 4) <> out_fname_us "out" (Some (mkdate 2020 12 1)) None.
Proof.
  split; [reflexivity|]. split.
  - intros Heq.
    apply (proj1 (out_fname_selection "out" None None (Some 4) (Some 14) I I)) in Heq.
    discriminate Heq.
  - intros Heq.
    apply (proj1 (out_fname_selection "out" None (Some (mkdate 2020 12 1)) (Some 4) None
                    I eq_refl)) in Heq.
    discriminate Heq.
Defined.

(** ** Table Merger: the mean rank as the specification words it *)

Lemma sum_places (s e : nat) :
  foldr Qcplus 0%Qc ((fun i => Qc_of_Z (Z.of_nat i)) <$> seq s e)
  = (Qc_of_Z (Z.of_nat e * (2 * Z.of_nat s + Z.of_nat e - 1)) / 2)%Qc.
Proof.
  revert s. induction e as [|e IH]; intros s.
  - change (0%Qc = (Qc_of_Z 0 / 2)%Qc). rewrite Z2Qc_inj_0. unfold Qcdiv.
    by rewrite Qcmult_0_l.
  - cbn [seq fmap list_fmap foldr]. rewrite IH.
    rewrite !Nat2Z.inj_succ. unfold Z.succ.
    rewrite !Z2Qc_inj_mul, !Z2Qc_inj_sub, !Z2Qc_inj_add, !Z2Qc_inj_mul,
      !Z2Qc_inj_add, Z2Qc_inj_1, Z2Qc_inj_2.
    generalize (Qc_of_Z (Z.of_nat s)) (Qc_of_Z (Z.of_nat e)). intros a b.
    field. done.
Qed.

(** The mean of the places of a value of the list is its rank in pandas. *)
Lemma average_rank_rank_of (vals : list Qc) (v : Qc) :
  v ∈ vals -> average_rank vals v = Some (rank_of vals v).
Proof.
  intros Hv. pose proof (equal_elem_of vals v Hv) as He.
  unfold average_rank, average.
  destruct (places vals v) as [|k ks] eqn:Hks.
  { apply (f_equal length) in Hks. unfold places in Hks.
    rewrite length_fmap, length_seq in Hks. cbn [length] in Hks. lia. }
  rewrite <- Hks. unfold places.
  rewrite sum_places, length_fmap, length_seq, rank_of_counts.
  f_equal.
  assert (Qc_of_Z (Z.of_nat (equal vals v)) <> 0%Qc) as Hne.
  { rewrite <- Z2Qc_inj_0. intros ?%Z2Qc_inj. lia. }
  rewrite Nat2Z.inj_succ. unfold Z.succ.
  rewrite !Z2Qc_inj_mul, !Z2Qc_inj_sub, !Z2Qc_inj_add, !Z2Qc_inj_mul,
    !Z2Qc_inj_add, Z2Qc_inj_1, Z2Qc_inj_2.
  revert Hne.
  generalize (Qc_of_Z (Z.of_nat (below vals v))) (Qc_of_Z (Z.of_nat (equal vals v))).
  intros a b Hb. field. done.
Qed.

Lemma observed_ranks_rank_of (vals : list Qc) :
  omap (average_rank vals) vals = rank_of vals <$> vals.
Proof.
  assert (forall l : list Qc, (forall v, v ∈ l -> v ∈ vals) ->
            omap (average_rank vals) l = rank_of vals <$> l) as H.
  { induction l as [|x l IH]; intros Hl; [done|]. csimpl.
    rewrite (average_rank_rank_of vals x) by (apply Hl; left). csimpl.
    rewrite IH; [done|]. intros v Hv. apply Hl. by right. }
  by apply H.
Qed.

Lemma greatest_cons (x : Qc) (l : list Qc) :
  exists m, greatest (x :: l) = Some m /\ m ∈ x :: l /\ forall y, y ∈ x :: l -> (y ≤ m)%Qc.
Proof.
  revert x. induction l as [|z l IH]; intros x.
  - exists x. split; [done|]. split; [left|].
    intros y ->%list_elem_of_singleton. reflexivity.
  - destruct (IH z) as (m & Hm & Hin & Hle).
    change (greatest (x :: z :: l))
      with (match greatest (z :: l) with
            | Some y => if decide (x ≤ y)%Qc then Some y else Some x
            | None => Some x
            end).
    rewrite Hm. destruct (decide (x ≤ m)%Qc) as [Hxm|Hxm].
    + exists m. split; [done|]. split; [by right|].
      intros y [->|Hy]%elem_of_cons; [done|by apply Hle].
    + exists x. split; [done|]. split; [left|].
      intros y [->|Hy]%elem_of_cons; [reflexivity|].
      trans m; [by apply Hle|]. apply Qclt_le_weak. by apply Qcnot_le_lt.
Qed.

Lemma greatest_max_list (l : list Qc) : greatest l = max_list l.
Proof.
  destruct l as [|x l]; [done|].
  destruct (greatest_cons x l) as (m & -> & Hin & Hle).
  destruct (max_list (x :: l)) as [m'|] eqn:Hm'; [|done].
  apply max_list_Some in Hm' as [Hin' Hle'].
  f_equal. apply (anti_symm Qcle); [by apply Hle'|by apply Hle].
Qed.

(** The rank pandas leaves in a cell is the rank of the specification. *)
Lemma filled_ranks_specified (df : DataFrame) (r c : string) :
  r ∈ index df -> cell_at (filled_ranks df) r c = specified_rank df c r.
Proof.
  intros Hr. unfold specified_rank.
  destruct (cell_at df r c) as [x|] eqn:Hx.
  - unfold filled_ranks. cbn [fillna cell_at]. rewrite (cell_at_rank_abs _ _ _ _ Hx).
    symmetry. apply average_rank_rank_of. by eapply elem_of_col_values_abs.
  - unfold filled_ranks, max_rank. cbn [fillna rank abs cell_at]. rewrite Hx. cbn [fmap option_fmap option_map].
    unfold observed_ranks. rewrite observed_ranks_rank_of, greatest_max_list.
    unfold max. by rewrite col_values_rank_abs.
Qed.

Lemma mean_rank_specified (metric : string) (weeks_ahead : option Z) (df : DataFrame)
    (r : string) :
  r ∈ index df ->
  mean_rank metric weeks_ahead df r = specified_mean_rank metric weeks_ahead df r.
Proof.
  intros Hr. unfold mean_rank, specified_mean_rank, mean_axis1.
  change (columns (select ?d ?cols)) with cols.
  change (cell_at (select ?d ?cols)) with (cell_at d).
  rewrite (omap_ext_elem_of _ (fun c => specified_rank df c r)); [done|].
  intros c _. by apply filled_ranks_specified.
Qed.

Lemma StronglySorted_lookup {A} (R : relation A) (l : list A) (i j : nat) (x y : A) :
  StronglySorted R l -> (i < j)%nat -> l !! i = Some x -> l !! j = Some y -> R x y.
Proof.
  intros Hl. revert i j. induction Hl as [|z l Hl IH Hz]; intros i j Hij Hi Hj; [done|].
  destruct j as [|j]; [lia|]. cbn in Hj.
  destruct i as [|i].
  - injection Hi as <-. rewrite Forall_forall in Hz. apply Hz.
    by eapply list_elem_of_lookup_2.
  - cbn in Hi. apply (IH i j); [lia|done..].
Qed.

Lemma nan_last_le_ascending (a b : option Qc) : nan_last_le a b -> ascending a b.
Proof. by destruct a, b. Qed.

(** C2. Reordering keeps the rows, the columns and the cells of the table.
    The rank it uses for a cell is the rank of the specification: the mean
    of the places of the cell's magnitude among the magnitudes of its
    column in ascending order (rank 1 the smallest, ties averaged), and for
    a cell without a value the greatest observed rank of the column plus 1.
    The mean rank of a row is the mean of these ranks over the columns of
    the ranking window, and the reordering does not change it. The rows of
    the result are in ascending order of this mean rank, rows without one
    last: a row never comes before a row of smaller mean rank, so the first
    row has the smallest mean rank of all rows. *)
Theorem rows_sorted_by_mean_rank (metric : string) (weeks_ahead : option Z)
    (df : DataFrame) :
  index (reorder_by_mean_rank metric weeks_ahead df) ≡ₚ index df
  /\ columns (reorder_by_mean_rank metric weeks_ahead df) = columns df
  /\ (forall r c, cell_at (reorder_by_mean_rank metric weeks_ahead df) r c = cell_at df r c)
  /\ (forall r c, r ∈ index df -> cell_at (filled_ranks df) r c = specified_rank df c r)
  /\ (forall r, mean_rank metric weeks_ahead df r
                = mean_list (omap (fun c => cell_at (filled_ranks df) r c)
                               (ranking_window metric weeks_ahead df)))
  /\ (forall r, r ∈ index df ->
        mean_rank metric weeks_ahead df r = specified_mean_rank metric weeks_ahead df r)
  /\ (forall r, mean_rank metric weeks_ahead (reorder_by_mean_rank metric weeks_ahead df) r
                = mean_rank metric weeks_ahead df r)
  /\ StronglySorted
       (fun r1 r2 => nan_last_le (mean_rank metric weeks_ahead df r1)
                                 (mean_rank metric weeks_ahead df r2))
       (index (reorder_by_mean_rank metric weeks_ahead df))
  /\ (forall (i j : nat) ri rj,
        (i < j)%nat ->
        index (reorder_by_mean_rank metric weeks_ahead df) !! i = Some ri ->
        index (reorder_by_mean_rank metric weeks_ahead df) !! j = Some rj ->
        ascending (specified_mean_rank metric weeks_ahead df ri)
                  (specified_mean_rank metric weeks_ahead df rj))
  /\ (forall first rest,
        index (reorder_by_mean_rank metric weeks_ahead df) = first :: rest ->
        forall r, r ∈ index df ->
          nan_last_le (mean_rank metric weeks_ahead df first)
                      (mean_rank metric weeks_ahead df r)
          /\ ascending (specified_mean_rank metric weeks_ahead df first)
                       (specified_mean_rank metric weeks_ahead df r)).
Proof.
  pose proof (sort_values_index_Permutation (index df) (mean_rank metric weeks_ahead df))
    as Hperm.
  pose proof (sort_values_index_sorted (index df) (mean_rank metric weeks_ahead df))
    as Hsorted.
  assert (forall first rest,
            index (reorder_by_mean_rank metric weeks_ahead df) = first :: rest ->
            first ∈ index df
            /\ forall r, r ∈ index df ->
                 nan_last_le (mean_rank metric weeks_ahead df first)
                             (mean_rank metric weeks_ahead df r)) as Hhead.
  { intros first rest Hidx.
    unfold reorder_by_mean_rank in Hidx. cbn [reindex index] in Hidx.
    split; [rewrite <- Hperm, Hidx; left|].
    intros r Hr. rewrite <- Hperm, Hidx in Hr. rewrite Hidx in Hsorted.
    apply StronglySorted_inv in Hsorted as [_ Hfirst].
    apply elem_of_cons in Hr as [->|Hr]; [apply nan_last_le_refl|].
    rewrite Forall_forall in Hfirst. by apply Hfirst. }
  split; [exact Hperm|]. split; [done|]. split; [done|].
  split; [intros r c; apply filled_ranks_specified|].
  split; [done|].
  split; [intros r; apply mean_rank_specified|].
  split; [intros r; by apply mean_rank_reindex|].
  split; [exact Hsorted|].
  split.
  - intros i j ri rj Hij Hi Hj.
    assert (ri ∈ index df) as Hri by (rewrite <- Hperm; by eapply list_elem_of_lookup_2).
    assert (rj ∈ index df) as Hrj by (rewrite <- Hperm; by eapply list_elem_of_lookup_2).
    rewrite <- !mean_rank_specified by done. apply nan_last_le_ascending.
    apply (StronglySorted_lookup _ _ i j ri rj Hsorted Hij Hi Hj).
  - intros first rest Hidx r Hr. destruct (Hhead first rest Hidx) as [Hfirst Hmin].
    split; [by apply Hmin|].
    rewrite <- !mean_rank_specified by done. apply nan_last_le_ascending. by apply Hmin.
Qed.

Lemma rows_sorted_by_mean_rank_witness :
  exists df, us_table us_errs_files_ranks = Ok df
    /\ index (reorder_by_mean_rank "perc_error" (Some 4) df) = ["B"; "A"; "C"; "D"]
    /\ this <$> mean_rank "perc_error" (Some 4) df "B" = Some (3 # 2)%Q
    /\ this <$> mean_rank "perc_error" (Some 4) df "A" = Some (2 # 1)%Q
    /\ this <$> mean_rank "perc_error" (Some 4) df "C" = Some (3 # 1)%Q
    /\ this <$> mean_rank "perc_error" (Some 4) df "D" = Some (7 # 2)%Q
    /\ forall r, r ∈ index df ->
         ascending (specified_mean_rank "perc_error" (Some 4) df "B")
                   (specified_mean_rank "perc_error" (Some 4) df r).
Proof.
  destruct (is_ok_Ok (us_table us_errs_files_ranks)) as [df Hdf]; [vm_compute; reflexivity|].
  exists df. split; [exact Hdf|].
  assert (index (reorder_by_mean_rank "perc_error" (Some 4) df) = ["B"; "A"; "C"; "D"])
    as Hidx by (evaluate_with Hdf; reflexivity).
  destruct (rows_sorted_by_mean_rank "perc_error" (Some 4) df)
    as (_ & _ & _ & _ & _ & Hspec & _ & _ & _ & Hhead).
  split; [exact Hidx|].
  assert (forall r, r ∈ ["A"; "B"; "C"; "D"] -> r ∈ index df) as Hin.
  { evaluate_with Hdf. auto. }
  split; [rewrite Hspec by (apply Hin; repeat constructor); evaluate_with Hdf; reflexivity|].
  split; [rewrite Hspec by (apply Hin; repeat constructor); evaluate_with Hdf; reflexivity|].
  split; [rewrite Hspec by (apply Hin; repeat constructor); evaluate_with Hdf; reflexivity|].
  split; [rewrite Hspec by (apply Hin; repeat constructor); evaluate_with Hdf; reflexivity|].
  intros r Hr. by apply (Hhead "B" ["A"; "C"; "D"] Hidx r Hr).
Defined.
